(** * Technical analysis and decision engine: a shallow embedding

    The development follows the Python sources

      - [src/data/market_data.py]   (class [MarketData])
      - [src/core/analyzer.py]      (class [TradeAnalyzer])
      - [src/indicators/rsi.py]     (class [RSIIndicator])
      - [src/indicators/macd.py]    (class [MACDIndicator])
      - [src/indicators/volume.py]  (class [VolumeAnalyzer])

    Conventions of the embedding.

      - Python numbers ([int] and [float], and [bool] as the numbers 0 and 1)
        are exact rationals [Q]: rounding error, overflow, infinities and NaN
        of IEEE doubles are outside that model. It carries the guards, the
        shapes and the comparisons of the code.
      - The momentum oscillator of [src/indicators/rsi.py] is embedded a
        second time over IEEE-754 binary64 ([F64], [Np64],
        [RSIIndicator64]), with overflow, infinities, NaN and rounding to
        nearest: what is proved about the value of its score is proved
        there.
      - A Python dictionary with string keys is a [gmap string value].
      - A raised exception is [None] in the option monad; every
        [try: ... except Exception: return d] of the source is written
        [default d body].
      - Data that comes from the network (the scraper) is an argument. *)

From Stdlib Require Import QArith Qround Qabs ZArith String List Lia Lqa.
From stdpp Require Import gmap strings list fin_maps option.
From Stdlib Require Import Sorted.
From Stdlib Require Import SpecFloat Qpower.

Set Warnings "-register-all".

Local Open Scope string_scope.

(** ** Python values and the operations the engine applies to them *)

Module Py.

(** The values the engine handles: [None], numbers, strings, lists of
    strings (signal tags) and dictionaries with string keys. *)
Inductive value : Type :=
  | VNone
  | VNum (q : Q)
  | VStr (s : string)
  | VTags (l : list string)
  | VDict (d : gmap string value).

Abbreviation dict := (gmap string value).

(** A computation that may raise: [None] is a raised exception, and
    [let* x := e in k] runs [k] only when [e] did not raise. *)
Definition bind {A B : Type} (m : option A) (k : A -> option B) : option B :=
  match m with
  | Some x => k x
  | None => None
  end.

(** [x is None]. *)
Definition is_none (v : value) : bool :=
  match v with VNone => true | _ => false end.

(** Truth value of an object, as tested by [if x:], [not x], [and]. *)
Definition truthy (v : value) : bool :=
  match v with
  | VNone => false
  | VNum q => negb (Qeq_bool q 0)
  | VStr s => negb (String.eqb s "")
  | VTags l => match l with [] => false | _ => true end
  | VDict d => negb (bool_decide (d = ∅))
  end.

(** [d.get(k, dflt)]: the default is used only when the key is absent. *)
Definition get (d : dict) (k : string) (dflt : value) : value :=
  default dflt (d !! k).

(** [d[k]]: raises [KeyError] when the key is absent. *)
Definition getitem (d : dict) (k : string) : option value := d !! k.

(** [x.get(k)] on an arbitrary object: only dictionaries have the method,
    anything else raises [AttributeError]. *)
Definition method_get (x : value) (k : string) : option value :=
  match x with
  | VDict d => Some (get d k VNone)
  | _ => None
  end.

(** [x == 'literal']: never raises; false for every non-string. *)
Definition eq_str (v : value) (s : string) : bool :=
  match v with VStr t => String.eqb t s | _ => false end.

(** Lexicographic order on lists of strings, as Python compares lists. *)
Fixpoint tags_ltb (l1 l2 : list string) : bool :=
  match l1, l2 with
  | [], [] => false
  | [], _ :: _ => true
  | _ :: _, [] => false
  | a :: l1', b :: l2' =>
      if String.eqb a b then tags_ltb l1' l2' else String.ltb a b
  end.

Definition Qltb (a b : Q) : bool :=
  match (a ?= b)%Q with Lt => true | _ => false end.

(** [a < b]: defined between two numbers, two strings or two lists;
    [TypeError] otherwise (also between two dictionaries or two [None]). *)
Definition lt (a b : value) : option bool :=
  match a, b with
  | VNum x, VNum y => Some (Qltb x y)
  | VStr s, VStr t => Some (String.ltb s t)
  | VTags l1, VTags l2 => Some (tags_ltb l1 l2)
  | _, _ => None
  end.

(** [a > b]. *)
Definition gt (a b : value) : option bool := lt b a.

(** The number held by a value used in arithmetic with a float;
    [TypeError] for [None], strings, lists and dictionaries. *)
Definition as_num (v : value) : option Q :=
  match v with VNum q => Some q | _ => None end.

(** [a - b]. *)
Definition sub (a b : value) : option value :=
  match a, b with
  | VNum x, VNum y => Some (VNum (x - y))
  | _, _ => None
  end.

(** [a / b]: [ZeroDivisionError] on a zero divisor. *)
Definition div (a b : value) : option value :=
  match a, b with
  | VNum x, VNum y => if Qeq_bool y 0 then None else Some (VNum (x / y))
  | _, _ => None
  end.

(** [a * c] for a numeric literal [c]. *)
Definition mul_lit (a : value) (c : Q) : option value :=
  match a with
  | VNum x => Some (VNum (x * c))
  | _ => None
  end.

Definition chars (s : string) : list string :=
  (fun c => String c EmptyString) <$> list_ascii_of_string s.

(** What [for x in v] ranges over: the elements of a list, the characters
    of a string, the keys of a dictionary (in the order of the map, not in
    Python's insertion order); [TypeError] for [None] and numbers. Every
    element is a string. *)
Definition iter (v : value) : option (list string) :=
  match v with
  | VTags l => Some l
  | VStr s => Some (chars s)
  | VDict d => Some ((map_to_list d).*1)
  | VNone | VNum _ => None
  end.

(** [sub in s] for two strings: [sub] occurs in [s] as a substring. *)
Fixpoint contains (sub s : string) : bool :=
  String.prefix sub s ||
  match s with
  | EmptyString => false
  | String _ s' => contains sub s'
  end.

(** Rounding to the nearest integer, ties to the even one. *)
Definition round_half_even (q : Q) : Z :=
  let f := Qfloor q in
  match (q - inject_Z f ?= 1 # 2)%Q with
  | Lt => f
  | Gt => (f + 1)%Z
  | Eq => if Z.even f then f else (f + 1)%Z
  end.

(** [round(q, 2)]. *)
Definition round2 (q : Q) : Q :=
  Qmake (round_half_even (q * 100)) 100.

(** The argument handed to an indicator where a [List[float]] is expected:
    either a list of numbers or some object that is neither a list nor an
    array ([None] included). *)
Inductive arg : Type :=
  | NotAList
  | FloatList (l : list Q).

End Py.

Import Py.

Notation "'let*' x ':=' e 'in' k" := (Py.bind e (fun x => k))
  (at level 10, x name, e at level 100, k at level 200, only parsing).

(** ** The indicator arithmetic of [WebScraper] (src/data/web_scraper.py)

    The scraper computes its indicators with plain Python lists; the
    closing prices parsed from the history page are an argument. *)

Module WebScraper.

(** [sum(l)]: starts from 0 and adds from left to right. *)
Definition py_sum (l : list Q) : Q := fold_left Qplus l 0%Q.

(** [a / b] on Python numbers: [ZeroDivisionError] on a zero divisor. *)
Definition fdiv (a b : Q) : option Q :=
  if Qeq_bool b 0 then None else Some (a / b)%Q.

(** [max(0, x)]. *)
Definition max0 (x : Q) : Q := if Qltb 0 x then x else 0%Q.

(** [[prices[i] - prices[i+1] for i in range(len(prices)-1)]]. *)
Definition changes_of (prices : list Q) : list Q :=
  zip_with Qminus prices (tail prices).

Definition _calculate_rsi (prices : list Q) (period : nat) : option Q :=
  if (length prices <? period + 1)%nat then None
  else
    (* Calculate price changes *)
    let changes := changes_of prices in
    (* Separate gains and losses *)
    let gains := max0 <$> changes in
    let losses := (fun change => max0 (- change)%Q) <$> changes in
    (* Calculate average gains and losses *)
    let Qperiod := inject_Z (Z.of_nat period) in
    let* avg_gain := fdiv (py_sum (take period gains)) Qperiod in
    let* avg_loss := fdiv (py_sum (take period losses)) Qperiod in
    (* Calculate RS and RSI *)
    if Qeq_bool avg_loss 0 then Some 100%Q
    else
      let* rs := fdiv avg_gain avg_loss in
      let* quotient := fdiv 100 (1 + rs) in
      let rsi := (100 - quotient)%Q in
      Some (round2 rsi).

(** The loop [for price in prices[period:]] of [_calculate_ema]. *)
Definition ema_step (multiplier ema price : Q) : Q :=
  (price * multiplier + ema * (1 - multiplier))%Q.

Definition _calculate_ema (prices : list Q) (period : nat) : option Q :=
  if (length prices <? period)%nat then None
  else
    let* multiplier := fdiv 2 (inject_Z (Z.of_nat period) + 1) in
    let* ema := fdiv (py_sum (take period prices))
                     (inject_Z (Z.of_nat period)) in
    Some (fold_left (ema_step multiplier) (drop period prices) ema).

Definition _calculate_macd (prices : list Q)
  : option Q * option Q * option Q :=
  if (length prices <? 26)%nat then (None, None, None)
  else
    (* Calculate EMAs *)
    match _calculate_ema prices 12, _calculate_ema prices 26 with
    | Some ema12, Some ema26 =>
        (* Calculate MACD line *)
        let macd_line := (ema12 - ema26)%Q in
        (* Calculate signal line *)
        match _calculate_ema [macd_line] 9 with
        | None => (None, None, None)
        | Some signal_line =>
            (* Calculate histogram *)
            let histogram := (macd_line - signal_line)%Q in
            (Some (round2 macd_line), Some (round2 signal_line),
             Some (round2 histogram))
        end
    | _, _ => (None, None, None)
    end.

Definition _calculate_sma (prices : list Q) (period : nat) : option Q :=
  if (length prices <? period)%nat then None
  else
    let* mean := fdiv (py_sum (take period prices))
                      (inject_Z (Z.of_nat period)) in
    Some (round2 mean).

(** An optional number as a dictionary value. *)
Definition of_optional (x : option Q) : value :=
  match x with
  | Some q => VNum q
  | None => VNone
  end.

(** [get_technical_indicators(symbol)] from the closing prices found on
    the history page ([prices] is empty when the page or its table is
    missing). *)
Definition get_technical_indicators (prices : list Q) : option dict :=
  if (length prices =? 0)%nat then None
  else
    (* Calculate RSI *)
    let rsi := _calculate_rsi prices 14 in
    (* Calculate MACD *)
    let '(macd, signal, hist) := _calculate_macd prices in
    (* Calculate SMA *)
    let sma := _calculate_sma prices 20 in
    Some ({[ "rsi" := of_optional rsi;
             "macd" :=
               match macd with
               | Some _ =>
                   VDict {[ "macd" := of_optional macd;
                            "signal" := of_optional signal;
                            "hist" := of_optional hist ]}
               | None => VNone
               end;
             "sma" := of_optional sma ]} : dict).

End WebScraper.

(** ** [MarketData] (src/data/market_data.py) *)

Module MarketData.

(** The dictionary built by [analyze_stock]; its four keys are fixed. *)
Record Analysis : Type := mkAnalysis {
  an_data : dict;
  an_technical_analysis : dict;
  an_price_analysis : dict;
  an_signals : value
}.

(** [analysis['signals'].append(tag)]: an in-place update of the list
    stored under the key ['signals'] of the shared dictionary. *)
Definition append_signal (analysis : dict) (tag : string) : option dict :=
  match analysis !! "signals" with
  | Some (VTags l) => Some (<["signals" := VTags (l ++ [tag])%list]> analysis)
  | _ => None
  end.

Definition _analyze_technical_indicators (data : dict) : option dict :=
  let analysis : dict :=
    {[ "trend" := VStr "neutral";
       "strength" := VStr "weak";
       "signals" := VTags [] ]} in
  (* Analyze RSI *)
  let rsi := get data "rsi" VNone in
  let* analysis :=
    (if is_none rsi then Some analysis
     else
       let* over := gt rsi (VNum 70) in
       if over then append_signal analysis "overbought"
       else
         let* under := lt rsi (VNum 30) in
         if under then append_signal analysis "oversold"
         else Some analysis) in
  (* Analyze MACD *)
  let macd := get data "macd" (VDict ∅) in
  if truthy macd then
    let* macd_line := method_get macd "macd" in
    let* signal_line := method_get macd "signal" in
    if negb (is_none macd_line) && negb (is_none signal_line) then
      let* above := gt macd_line signal_line in
      if above then append_signal analysis "bullish_macd"
      else append_signal analysis "bearish_macd"
    else Some analysis
  else Some analysis.

Definition _determine_trend (data : dict) : option string :=
  let change := get data "change" (VNum 0) in
  let* up := gt change (VNum 1) in
  if up then Some "uptrend"
  else
    let* down := lt change (VNum (-1)) in
    if down then Some "downtrend" else Some "sideways".

Definition _calculate_volatility (data : dict) : option string :=
  let high := get data "52w_high" (VNum 0) in
  let low := get data "52w_low" (VNum 0) in
  let* cond := (if truthy high then
            if truthy low then gt high low else Some false
          else Some false) in
  if cond then
    let* diff := sub high low in
    let* ratio := div diff low in
    let* volatility := mul_lit ratio 100 in
    let* big := gt volatility (VNum 50) in
    if big then Some "high"
    else
      let* mid := gt volatility (VNum 25) in
      if mid then Some "medium" else Some "low"
  else Some "low".

Definition _find_support_resistance (data : dict) : dict :=
  {[ "support" := get data "52w_low" VNone;
     "resistance" := get data "52w_high" VNone ]}.

Definition _analyze_price_action (data : dict) : option dict :=
  let* trend := _determine_trend data in
  let* volatility := _calculate_volatility data in
  Some ({[ "trend" := VStr trend;
           "volatility" := VStr volatility;
           "support_resistance" :=
             VDict (_find_support_resistance data) ]} : dict).

Definition _generate_signals (technical_analysis price_analysis : dict)
  : option value :=
  (* signals.extend(technical_analysis['signals']) *)
  let* tech := getitem technical_analysis "signals" in
  let* signals := iter tech in
  (* Add trend signals *)
  let* trend := getitem price_analysis "trend" in
  let signals :=
    if eq_str trend "uptrend" then (signals ++ ["trend_following_buy"])%list
    else if eq_str trend "downtrend"
         then (signals ++ ["trend_following_sell"])%list
    else signals in
  (* Add volatility signals *)
  let* volatility := getitem price_analysis "volatility" in
  let signals :=
    if eq_str volatility "high" then (signals ++ ["high_volatility"])%list
    else signals in
  Some (VTags signals).

Definition _get_empty_analysis : Analysis :=
  {| an_data := ∅;
     an_technical_analysis :=
       {[ "trend" := VStr "neutral";
          "strength" := VStr "weak";
          "signals" := VTags [] ]};
     an_price_analysis :=
       {[ "trend" := VStr "sideways";
          "volatility" := VStr "low";
          "support_resistance" :=
            VDict {[ "support" := VNone; "resistance" := VNone ]} ]};
     an_signals := VTags [] |}.

(** [analyze_stock(symbol)]; [fetched] is what [self.get_stock_data(symbol)]
    returned ([None] when the scraper failed). *)
Definition analyze_stock (fetched : option dict) : Analysis :=
  match fetched with
  | None => _get_empty_analysis
  | Some data =>
      if negb (truthy (VDict data)) then _get_empty_analysis
      else
        default _get_empty_analysis
          (let* technical_analysis := _analyze_technical_indicators data in
           let* price_analysis := _analyze_price_action data in
           let* signals :=
             _generate_signals technical_analysis price_analysis in
           Some {| an_data := data;
                   an_technical_analysis := technical_analysis;
                   an_price_analysis := price_analysis;
                   an_signals := signals |})
  end.

(** [get_stock_data(symbol)]; [stock_data] is what the scraper returned
    for the quote page and [indicators] what it returned for the history
    page. [stock_data.update(indicators)] lets the indicators win. *)
Definition get_stock_data (stock_data indicators : option dict)
  : option dict :=
  match stock_data with
  | None => None
  | Some stock_data =>
      if negb (truthy (VDict stock_data)) then None
      else
        match indicators with
        | Some indicators =>
            if truthy (VDict indicators) then Some (indicators ∪ stock_data)
            else Some stock_data
        | None => Some stock_data
        end
  end.

End MarketData.

(** ** [TradeAnalyzer] (src/core/analyzer.py) *)

Module TradeAnalyzer.

(** The dictionary returned by [_calculate_risk_metrics]. *)
Record RiskMetrics : Type := mkRiskMetrics {
  entry_price : Q;
  stop_loss : Q;
  take_profit : Q;
  win_rate : Z;
  risk_percentage : Q
}.

(** The record returned from the [except] branch. *)
Definition zero_metrics : RiskMetrics :=
  {| entry_price := 0; stop_loss := 0; take_profit := 0;
     win_rate := 0; risk_percentage := 0 |}.

(** [signal in [a, b]] for a string [signal]. *)
Definition in_list (signal : string) (l : list string) : bool :=
  existsb (String.eqb signal) l.

(** One turn of the loop over [technical['signals']]. *)
Definition win_rate_step (base_win_rate : Z) (signal : string) : Z :=
  if in_list signal ["oversold"; "bullish_macd"] then (base_win_rate + 5)%Z
  else if in_list signal ["overbought"; "bearish_macd"]
       then (base_win_rate + 5)%Z
  else base_win_rate.

(** The [try] block of [_calculate_risk_metrics]. *)
Definition risk_metrics_body (data technical price : dict)
  : option RiskMetrics :=
  let current_price := get data "price" (VNum 0) in
  (* Calculate entry price based on trend *)
  let* trend := getitem price "trend" in
  let* entry_price :=
    (if eq_str trend "uptrend" then mul_lit current_price 0.99
     else if eq_str trend "downtrend" then mul_lit current_price 1.01
     else Some current_price) in
  (* Calculate stop loss and take profit *)
  let* volatility := getitem price "volatility" in
  let stop_loss_pct : Q :=
    (if eq_str volatility "high" then 0.05
     else if eq_str volatility "medium" then 0.03
     else 0.02)%Q in
  let take_profit_pct : Q :=
    (if eq_str volatility "high" then 0.15
     else if eq_str volatility "medium" then 0.09
     else 0.06)%Q in
  let* stop_loss := mul_lit entry_price (1 - stop_loss_pct) in
  let* take_profit := mul_lit entry_price (1 + take_profit_pct) in
  (* Calculate win rate based on technical signals *)
  let base_win_rate := 50%Z in
  let* signals := getitem technical "signals" in
  let* signals := iter signals in
  let base_win_rate := fold_left win_rate_step signals base_win_rate in
  (* Adjust win rate based on trend strength *)
  let* strength := getitem technical "strength" in
  let base_win_rate :=
    if eq_str strength "strong" then (base_win_rate + 10)%Z
    else if eq_str strength "moderate" then (base_win_rate + 5)%Z
    else base_win_rate in
  (* Cap win rate at 90% *)
  let win_rate := Z.min base_win_rate 90 in
  let* entry_price := as_num entry_price in
  let* stop_loss := as_num stop_loss in
  let* take_profit := as_num take_profit in
  Some {| entry_price := round2 entry_price;
          stop_loss := round2 stop_loss;
          take_profit := round2 take_profit;
          win_rate := win_rate;
          risk_percentage := round2 (stop_loss_pct * 100) |}.

Definition _calculate_risk_metrics (data technical price : dict)
  : RiskMetrics :=
  default zero_metrics (risk_metrics_body data technical price).

(** ['buy' in s or 'bullish' in s] and ['sell' in s or 'bearish' in s]. *)
Definition is_bullish (s : string) : bool :=
  contains "buy" s || contains "bullish" s.

Definition is_bearish (s : string) : bool :=
  contains "sell" s || contains "bearish" s.

(** The [try] block of [_generate_recommendation]. *)
Definition recommendation_body (technical price : dict) (signals : value)
  : option string :=
  (* Count bullish and bearish signals *)
  let* tags := iter signals in
  let bullish_signals := length (List.filter is_bullish tags) in
  let bearish_signals := length (List.filter is_bearish tags) in
  (* Consider trend *)
  let* trend := getitem price "trend" in
  let bullish_signals :=
    if eq_str trend "uptrend" then S bullish_signals else bullish_signals in
  let bearish_signals :=
    if eq_str trend "uptrend" then bearish_signals
    else if eq_str trend "downtrend" then S bearish_signals
    else bearish_signals in
  (* Generate recommendation *)
  if (bearish_signals <? bullish_signals)%nat then
    let* strength := getitem technical "strength" in
    if eq_str strength "strong" then Some "Strong Buy" else Some "Buy"
  else if (bullish_signals <? bearish_signals)%nat then
    let* strength := getitem technical "strength" in
    if eq_str strength "strong" then Some "Strong Sell" else Some "Sell"
  else Some "Hold".

Definition _generate_recommendation (technical price : dict) (signals : value)
  : string :=
  default "Hold" (recommendation_body technical price signals).

(** The dictionary returned by [analyze_quote]. *)
Record QuoteAnalysis : Type := mkQuoteAnalysis {
  qa_symbol : string;
  qa_price : value;
  qa_change : value;
  qa_volume : value;
  qa_rsi : value;
  qa_macd : value;
  qa_macd_signal : value;
  qa_trend : value;
  qa_trend_strength : value;
  qa_entry_price : Q;
  qa_stop_loss : Q;
  qa_take_profit : Q;
  qa_win_rate : Z;
  qa_risk_percentage : Q;
  qa_recommendation : string
}.

(** [analyze_quote(symbol)]; [fetched] is what the market-data layer got
    from the scraper for [symbol]. The analysis returned by
    [analyze_stock] is a non-empty dictionary, so the test
    [if not analysis] never fires. *)
Definition analyze_quote (symbol : string) (fetched : option dict)
  : option QuoteAnalysis :=
  let analysis := MarketData.analyze_stock fetched in
  (* Extract relevant data *)
  let data := MarketData.an_data analysis in
  let technical := MarketData.an_technical_analysis analysis in
  let price := MarketData.an_price_analysis analysis in
  let signals := MarketData.an_signals analysis in
  (* Calculate risk metrics *)
  let risk_metrics := _calculate_risk_metrics data technical price in
  (* Generate recommendation *)
  let recommendation := _generate_recommendation technical price signals in
  let* macd := method_get (get data "macd" (VDict ∅)) "macd" in
  let* macd_signal := method_get (get data "macd" (VDict ∅)) "signal" in
  let* trend := getitem price "trend" in
  let* trend_strength := getitem technical "strength" in
  Some {| qa_symbol := symbol;
          qa_price := get data "price" VNone;
          qa_change := get data "change" VNone;
          qa_volume := get data "volume" VNone;
          qa_rsi := get data "rsi" VNone;
          qa_macd := macd;
          qa_macd_signal := macd_signal;
          qa_trend := trend;
          qa_trend_strength := trend_strength;
          qa_entry_price := entry_price risk_metrics;
          qa_stop_loss := stop_loss risk_metrics;
          qa_take_profit := take_profit risk_metrics;
          qa_win_rate := win_rate risk_metrics;
          qa_risk_percentage := risk_percentage risk_metrics;
          qa_recommendation := recommendation |}.

(** An entry of the lists built by [get_top_recommendations] and
    [analyze_all_quotes]. *)
Record Recommendation : Type := mkRecommendation {
  rec_symbol : string;
  rec_action : string;
  rec_win_rate : Z;
  rec_risk : Q
}.

(** The two lists under [market_overview['movers']]. *)
Record Movers : Type := mkMovers {
  gainers : list string;
  losers : list string
}.

Section WithMarketData.

(** What [self.market_data.get_stock_data] answers for a symbol. *)
Variable fetch : string -> option dict.

(** The body of the loop [for symbol in symbols]: the entry appended for
    [symbol], if its analysis is not [None]. *)
Definition recommendation_for (symbol : string) : option Recommendation :=
  match analyze_quote symbol (fetch symbol) with
  | Some analysis =>
      Some {| rec_symbol := symbol;
              rec_action := qa_recommendation analysis;
              rec_win_rate := qa_win_rate analysis;
              rec_risk := qa_risk_percentage analysis |}
  | None => None
  end.

(** The loop [for symbol in symbols]. *)
Definition collect (symbols : list string) : list Recommendation :=
  omap recommendation_for symbols.

(** [recommendations.sort(key=lambda x: x['win_rate'], reverse=True)]:
    a stable sort by decreasing win-rate, written as an insertion sort. *)
Fixpoint insert_by_win_rate (x : Recommendation) (l : list Recommendation)
  : list Recommendation :=
  match l with
  | [] => [x]
  | y :: l' =>
      if (rec_win_rate y <=? rec_win_rate x)%Z then x :: y :: l'
      else y :: insert_by_win_rate x l'
  end.

Definition sort_by_win_rate (l : list Recommendation) : list Recommendation :=
  fold_right insert_by_win_rate [] l.

Definition get_top_recommendations (movers : Movers) : list Recommendation :=
  (* Analyze top gainers and losers *)
  let symbols := (take 3 (gainers movers) ++ take 3 (losers movers))%list in
  let recommendations := collect symbols in
  (* Sort by win rate *)
  let recommendations := sort_by_win_rate recommendations in
  take 6 recommendations.

Definition analyze_all_quotes (movers : Movers) : list Recommendation :=
  (* Analyze all symbols from gainers and losers *)
  let symbols := (gainers movers ++ losers movers)%list in
  collect symbols.

Definition reanalyze (movers : Movers) : list Recommendation :=
  get_top_recommendations movers.

End WithMarketData.

End TradeAnalyzer.

(** ** The NumPy operations used by the indicators, on exact numbers *)

Module Np.

(** [np.diff(a)]: [out[i] = a[i+1] - a[i]]. *)
Definition diff (a : list Q) : list Q :=
  zip_with (fun x y => y - x)%Q a (tail a).

Definition sum (a : list Q) : Q := fold_right Qplus 0%Q a.

(** [np.mean(a)]. On an empty array NumPy yields nan, which has no
    counterpart among the rationals: the quotient below is then 0. The
    convergence oscillator takes the mean of an empty slice only for a
    period of 0 and discards it; the momentum oscillator uses it for a
    period of 0: the value of its score is treated on doubles, in
    [RSIIndicator64]. *)
Definition mean (a : list Q) : Q :=
  (sum a / inject_Z (Z.of_nat (length a)))%Q.

(** [a[i]] for a Python integer [i]: a negative index counts from the end,
    an index out of range raises [IndexError]. *)
Definition item (a : list Q) (i : Z) : option Q :=
  if (0 <=? i)%Z then a !! Z.to_nat i
  else if (0 <=? Z.of_nat (length a) + i)%Z
       then a !! Z.to_nat (Z.of_nat (length a) + i)
       else None.

(** [a[-n:]] for [n >= 0]: the last [n] elements, the whole list when
    [n = 0] or when the list is shorter than [n]. *)
Definition last_n (n : nat) (a : list Q) : list Q :=
  if (n =? 0)%nat then a else drop (length a - n) a.

(** [a[:n] = v]: the first [n] cells (those that exist) are set to [v]. *)
Definition fill_prefix (n : nat) (v : Q) (a : list Q) : list Q :=
  (replicate (min n (length a)) v ++ drop n a)%list.

End Np.

(** ** [RSIIndicator] (src/indicators/rsi.py) on exact numbers *)

Module RSIIndicator.

Section WithPeriod.

(** [self.period]. *)
Variable period : nat.

Definition Qperiod : Q := inject_Z (Z.of_nat period).

(** One turn of the smoothing loop in [_calculate_average]. *)
Definition smooth (avg value : Q) : Q :=
  ((avg * (Qperiod - 1) + value) / Qperiod)%Q.

Definition _calculate_average (values : list Q) : Q :=
  if (length values <? period)%nat then 0%Q
  else
    (* Calculate initial average *)
    let avg := Np.mean (take period values) in
    (* Calculate subsequent averages *)
    fold_left smooth (drop period values) avg.

(** [np.where(changes > 0, changes, 0)] and
    [np.where(changes < 0, -changes, 0)]. *)
Definition gains_of (changes : list Q) : list Q :=
  (fun c => if Qltb 0 c then c else 0%Q) <$> changes.

Definition losses_of (changes : list Q) : list Q :=
  (fun c => if Qltb c 0 then (- c)%Q else 0%Q) <$> changes.

Definition calculate (prices : arg) : option Q :=
  match prices with
  | NotAList => None
  | FloatList prices =>
      if (length prices =? 0)%nat then None
      else if (length prices <? period)%nat then None
      else
        (* Calculate price changes *)
        let changes := Np.diff prices in
        if (length changes <? period)%nat then None
        else
          (* Separate gains and losses *)
          let gains := gains_of changes in
          let losses := losses_of changes in
          (* Calculate average gains and losses *)
          let avg_gain := _calculate_average gains in
          let avg_loss := _calculate_average losses in
          if Qeq_bool avg_loss 0 then Some 100%Q
          else
            (* Calculate RS and RSI *)
            let rs := (avg_gain / avg_loss)%Q in
            let rsi := (100 - 100 / (1 + rs))%Q in
            Some rsi
  end.

End WithPeriod.

Definition get_signal (rsi : option Q) : string :=
  match rsi with
  | None => "neutral"
  | Some rsi =>
      if Qltb 70 rsi then "overbought"
      else if Qltb rsi 30 then "oversold"
      else "neutral"
  end.

Definition get_trend_strength (rsi : option Q) : string :=
  match rsi with
  | None => "weak"
  | Some rsi =>
      if Qltb 80 rsi || Qltb rsi 20 then "strong"
      else if Qltb 60 rsi || Qltb rsi 40 then "moderate"
      else "weak"
  end.

Definition is_divergence (prices rsi_values : list Q) : bool :=
  default false
    (if (length prices =? 0)%nat || (length rsi_values =? 0)%nat
        || negb (length prices =? length rsi_values)%nat
     then Some false
     else
       let* price_last := Np.item prices (-1) in
       let* price_prev := Np.item prices (-2) in
       (* Check for bullish divergence *)
       let* bullish :=
         (if Qltb price_last price_prev then
            let* rsi_last := Np.item rsi_values (-1) in
            let* rsi_prev := Np.item rsi_values (-2) in
            Some (Qltb rsi_prev rsi_last)
          else Some false) in
       if bullish then Some true
       else
         (* Check for bearish divergence *)
         let* bearish :=
           (if Qltb price_prev price_last then
              let* rsi_last := Np.item rsi_values (-1) in
              let* rsi_prev := Np.item rsi_values (-2) in
              Some (Qltb rsi_last rsi_prev)
            else Some false) in
         Some bearish).

End RSIIndicator.

(** ** IEEE-754 binary64, the [float] of Python and [float64] of NumPy *)

Module F64.

Definition prec : Z := 53.
Definition emax : Z := 1024.

Definition float : Type := spec_float.

Definition zero : float := S754_zero false.
Definition inf : float := S754_infinity false.

(** A Python [int] converted to a [float]: the nearest double, ties to
    even. (From 2^1024 on Python raises [OverflowError] where this gives
    an infinity; the integers converted here are 0, 1, 100, the
    thresholds of the signals, a period and the length of a list.) *)
Definition of_int (n : Z) : float := binary_normalize prec emax n 0 false.

Definition add : float -> float -> float := SFadd prec emax.
Definition sub : float -> float -> float := SFsub prec emax.
Definition mul : float -> float -> float := SFmul prec emax.
Definition div : float -> float -> float := SFdiv prec emax.
Definition neg : float -> float := SFopp.
Definition ltb : float -> float -> bool := SFltb.
Definition leb : float -> float -> bool := SFleb.
Definition eqb : float -> float -> bool := SFeqb.



(** The exact value of a finite double. *)
Definition pow2 (e : Z) : Q := (2 ^ e)%Q.
Definition val (m e : Z) : Q := (inject_Z m * pow2 e)%Q.
Definition to_Q (x : float) : Q :=
  match x with
  | S754_finite s m e => val (cond_Zopp s (Zpos m)) e
  | _ => 0%Q
  end.


(** Reading the records of the rounding functions: whether bits were
    lost. *)
Definition inexact (mrs : shr_record) : bool := shr_r mrs || shr_s mrs.

Definition is_exact (l : location) : bool :=
  match l with loc_Exact => true | _ => false end.

End F64.

(** ** NumPy on [float64] arrays *)

Module Np64.

Import F64.

(** What is handed to an indicator where a [List[float]] is expected. *)
Inductive arg : Type :=
  | NotAList
  | FloatList (l : list float).

(** [np.diff(a)] *)
Definition diff (a : list float) : list float :=
  zip_with (fun x y => sub y x) a (tail a).

(** The additions of [np.add.reduce] on a contiguous [float64] array
    (pairwise summation): fewer than 8 elements are added one after the
    other; up to 128 elements are added into 8 partial sums, which are
    then combined, and the remaining elements are added one by one; a
    longer array is split in two halves. The sum starts from [+0.0];
    NumPy versions that start from [-0.0] differ in the sign of a zero
    sum of negative zeros only. *)
Definition sum_seq (res : float) (a : list float) : float :=
  fold_left add a res.

Fixpoint add_blocks (k : nat) (r a : list float)
  : list float * list float :=
  match k with
  | O => (r, a)
  | S k => add_blocks k (zip_with add r (take 8 a)) (drop 8 a)
  end.

Definition sum_block (a : list float) : float :=
  let '(r, rest) := add_blocks (length a / 8 - 1) (take 8 a) (drop 8 a) in
  match r with
  | [r0; r1; r2; r3; r4; r5; r6; r7] =>
      sum_seq (add (add (add r0 r1) (add r2 r3))
                   (add (add r4 r5) (add r6 r7))) rest
  | _ => zero
  end.

Fixpoint pairwise_sum (fuel : nat) (a : list float) : float :=
  let n := length a in
  if (n <? 8)%nat then sum_seq zero a
  else if (n <=? 128)%nat then sum_block a
  else
    match fuel with
    | O => zero
    | S fuel =>
        let n2 := (n / 2 - (n / 2) mod 8)%nat in
        add (pairwise_sum fuel (take n2 a)) (pairwise_sum fuel (drop n2 a))
    end.

Definition sum (a : list float) : float := pairwise_sum (length a) a.

(** [np.mean(a)]: the sum divided by the number of elements; nan on an
    empty array. *)
Definition mean (a : list float) : float :=
  div (sum a) (of_int (Z.of_nat (length a))).

End Np64.

(** ** [RSIIndicator] (src/indicators/rsi.py) on doubles *)

Module RSIIndicator64.

Import F64.

Section WithPeriod.

Variable period : nat.

(** One turn of the smoothing loop in [_calculate_average]:
    [((avg * (self.period - 1)) + value) / self.period]. *)
Definition smooth (avg value : float) : float :=
  div (add (mul avg (of_int (Z.of_nat period - 1))) value)
      (of_int (Z.of_nat period)).

(** No operation of the [try] block raises on a [float64] array:
    overflow and division by zero give infinities and nan. *)
Definition _calculate_average (values : list float) : float :=
  if (length values <? period)%nat then zero
  else
    let avg := Np64.mean (take period values) in
    fold_left smooth (drop period values) avg.

(** [np.where(changes > 0, changes, 0)] and
    [np.where(changes < 0, -changes, 0)]. *)
Definition gains_of (changes : list float) : list float :=
  (fun c => if ltb zero c then c else zero) <$> changes.

Definition losses_of (changes : list float) : list float :=
  (fun c => if ltb c zero then neg c else zero) <$> changes.

(** [calculate(prices)] for a list of floats, which [np.array] turns into
    a [float64] array. The divisions after the guard are divisions of
    Python floats: they raise [ZeroDivisionError] on a zero divisor,
    which the [except] turns into [None]. *)
Definition calculate (prices : Np64.arg) : option float :=
  match prices with
  | Np64.NotAList => None
  | Np64.FloatList prices =>
      if (length prices =? 0)%nat then None
      else if (length prices <? period)%nat then None
      else
        let changes := Np64.diff prices in
        if (length changes <? period)%nat then None
        else
          let gains := gains_of changes in
          let losses := losses_of changes in
          let avg_gain := _calculate_average gains in
          let avg_loss := _calculate_average losses in
          if eqb avg_loss zero then Some (of_int 100)
          else
            (* Calculate RS and RSI; avg_loss is not zero here *)
            let rs := div avg_gain avg_loss in
            let denominator := add (of_int 1) rs in
            if eqb denominator zero then None
            else Some (sub (of_int 100) (div (of_int 100) denominator))
  end.

End WithPeriod.

Definition get_signal (rsi : option float) : string :=
  match rsi with
  | None => "neutral"
  | Some rsi =>
      if ltb (of_int 70) rsi then "overbought"
      else if ltb rsi (of_int 30) then "oversold"
      else "neutral"
  end.

Definition get_trend_strength (rsi : option float) : string :=
  match rsi with
  | None => "weak"
  | Some rsi =>
      if ltb (of_int 80) rsi || ltb rsi (of_int 20) then "strong"
      else if ltb (of_int 60) rsi || ltb rsi (of_int 40) then "moderate"
      else "weak"
  end.

End RSIIndicator64.

(** ** [MACDIndicator] (src/indicators/macd.py) *)

Module MACDIndicator.

(** The loop [for i in range(period, len(data))] of [_calculate_ema_array],
    over the indices still to visit; [ema] is the array being filled. *)
Fixpoint ema_loop (multiplier : Q) (data : list Q) (indices : list nat)
    (ema : list Q) : option (list Q) :=
  match indices with
  | [] => Some ema
  | i :: rest =>
      let* d := Np.item data (Z.of_nat i) in
      let* prev := Np.item ema (Z.of_nat i - 1) in
      ema_loop multiplier data rest
        (<[i := (d * multiplier + prev * (1 - multiplier))%Q]> ema)
  end.

Definition _calculate_ema_array (data : list Q) (period : nat)
  : option (list Q) :=
  if (length data <? period)%nat then None
  else
    (* Calculate multiplier *)
    let multiplier := (2 / (inject_Z (Z.of_nat period) + 1))%Q in
    (* Initialize EMA array *)
    let ema := replicate (length data) 0%Q in
    (* Set first value as SMA *)
    let ema := Np.fill_prefix period (Np.mean (take period data)) ema in
    (* Calculate EMA for remaining values *)
    ema_loop multiplier data (seq period (length data - period)) ema.

Section WithPeriods.

(** [self.fast_period], [self.slow_period], [self.signal_period]. *)
Variables fast_period slow_period signal_period : nat.

Definition calculate (prices : arg)
  : option Q * option Q * option Q :=
  match prices with
  | NotAList => (None, None, None)
  | FloatList prices =>
      if (length prices <? slow_period + signal_period)%nat
      then (None, None, None)
      else
        (* Calculate EMAs *)
        match _calculate_ema_array prices fast_period,
              _calculate_ema_array prices slow_period with
        | Some fast_ema, Some slow_ema =>
            (* Calculate MACD line *)
            let macd_line := zip_with Qminus fast_ema slow_ema in
            (* Calculate Signal line *)
            match _calculate_ema_array macd_line signal_period with
            | None => (None, None, None)
            | Some signal_line =>
                default (None, None, None)
                  (let* macd_last := Np.item macd_line (-1) in
                   let* signal_last := Np.item signal_line (-1) in
                   (* Calculate Histogram *)
                   let histogram := (macd_last - signal_last)%Q in
                   Some (Some macd_last, Some signal_last, Some histogram))
            end
        | _, _ => (None, None, None)
        end
  end.

End WithPeriods.

Definition get_signal (macd signal hist : option Q) : string :=
  match macd, signal, hist with
  | Some macd, Some signal, Some hist =>
      (* Strong buy signals *)
      if Qltb signal macd && Qltb 0 hist && Qltb 0 macd then "strong_buy"
      (* Strong sell signals *)
      else if Qltb macd signal && Qltb hist 0 && Qltb macd 0
      then "strong_sell"
      (* Buy signals *)
      else if Qltb signal macd && Qltb 0 hist then "buy"
      (* Sell signals *)
      else if Qltb macd signal && Qltb hist 0 then "sell"
      else "neutral"
  | _, _, _ => "neutral"
  end.

Definition get_trend_strength (histogram : option Q) : string :=
  match histogram with
  | None => "weak"
  | Some histogram =>
      let abs_hist := Qabs histogram in
      if Qltb 0.5 abs_hist then "strong"
      else if Qltb 0.2 abs_hist then "moderate"
      else "weak"
  end.

Definition is_divergence (prices macd_values : list Q) : bool :=
  default false
    (if (length prices <? 2)%nat || (length macd_values <? 2)%nat
     then Some false
     else
       let* price_last := Np.item prices (-1) in
       let* price_prev := Np.item prices (-2) in
       (* Check for bullish divergence *)
       let* bullish :=
         (if Qltb price_last price_prev then
            let* macd_last := Np.item macd_values (-1) in
            let* macd_prev := Np.item macd_values (-2) in
            Some (Qltb macd_prev macd_last)
          else Some false) in
       if bullish then Some true
       else
         (* Check for bearish divergence *)
         let* bearish :=
           (if Qltb price_prev price_last then
              let* macd_last := Np.item macd_values (-1) in
              let* macd_prev := Np.item macd_values (-2) in
              Some (Qltb macd_last macd_prev)
            else Some false) in
         Some bearish).

End MACDIndicator.

(** ** [VolumeAnalyzer] (src/indicators/volume.py) *)

Module VolumeAnalyzer.

(** The dictionary returned by [analyze_volume]. *)
Record VolumeResult : Type := mkVolumeResult {
  average_volume : Q;
  volume_trend : string;
  price_volume_correlation : Q;
  unusual_volume : bool;
  volume_signal : string
}.

Definition _get_empty_result : VolumeResult :=
  {| average_volume := 0;
     volume_trend := "neutral";
     price_volume_correlation := 0;
     unusual_volume := false;
     volume_signal := "normal_volume" |}.

Definition _generate_volume_signal (current_volume avg_volume : Q)
    (volume_trend : string) (unusual_volume : bool) : string :=
  (* Strong volume signals *)
  if Qltb (avg_volume * 2) current_volume
     && String.eqb volume_trend "increasing" then "strong_volume"
  (* Weak volume signals *)
  else if Qltb current_volume (avg_volume * 0.5)
          && String.eqb volume_trend "decreasing" then "weak_volume"
  (* Unusual volume signals *)
  else if unusual_volume then "unusual_volume"
  else "normal_volume".

Definition _calculate_volume_sma (volumes : list Q) (period : nat)
  : option Q :=
  if (length volumes <? period)%nat then Some 0%Q
  else Some (Np.mean (Np.last_n period volumes)).

Section WithNumPy.

(** The NumPy routines whose results are not rational in general are
    taken as given: [np.std(a)], [np.corrcoef(x, y)[0, 1]] ([None] when
    NumPy reports nan) and the slope [np.polyfit(x, y, 1)[0]]. *)
Variable np_std : list Q -> Q.
Variable np_corrcoef : list Q -> list Q -> option Q.
Variable np_polyfit_slope : list Q -> list Q -> Q.

Definition _calculate_price_volume_correlation (prices volumes : list Q)
    (period : nat) : Q :=
  if (length prices <? period)%nat || (length volumes <? period)%nat then 0%Q
  else
    let price_changes := Np.diff (Np.last_n period prices) in
    let volume_changes := Np.diff (Np.last_n period volumes) in
    if negb (length price_changes =? length volume_changes)%nat then 0%Q
    else
      match np_corrcoef price_changes volume_changes with
      | None => 0%Q
      | Some correlation => correlation
      end.

Definition _analyze_volume_trend (volumes : list Q) (period : nat) : string :=
  if (length volumes <? period)%nat then "neutral"
  else
    let recent_volumes := Np.last_n period volumes in
    let xs :=
      (fun i => inject_Z (Z.of_nat i)) <$> seq 0 (length recent_volumes) in
    let volume_trend := np_polyfit_slope xs recent_volumes in
    if Qltb 0 volume_trend then "increasing"
    else if Qltb volume_trend 0 then "decreasing"
    else "neutral".

Definition _detect_unusual_volume (volumes : list Q) (period : nat)
    (threshold : Q) : bool :=
  default false
    (if (length volumes <? period)%nat then Some false
     else
       let recent_volumes := Np.last_n period volumes in
       let mean_volume := Np.mean recent_volumes in
       let std_volume := np_std recent_volumes in
       if Qeq_bool std_volume 0 then Some false
       else
         let* current_volume := Np.item volumes (-1) in
         let z_score := ((current_volume - mean_volume) / std_volume)%Q in
         Some (Qltb threshold (Qabs z_score))).

Definition analyze_volume (prices volumes : arg) : VolumeResult :=
  match prices, volumes with
  | FloatList prices, FloatList volumes =>
      if negb (length prices =? length volumes)%nat then _get_empty_result
      else if (length prices <? 2)%nat then _get_empty_result
      else
        default _get_empty_result
          (let volume_sma := _calculate_volume_sma volumes 20 in
           let price_volume_correlation :=
             _calculate_price_volume_correlation prices volumes 20 in
           let volume_trend := _analyze_volume_trend volumes 10 in
           let unusual_volume := _detect_unusual_volume volumes 20 2 in
           let* current_volume :=
             (if (length volumes =? 0)%nat then Some 0%Q
              else Np.item volumes (-1)) in
           Some {| average_volume := default 0%Q volume_sma;
                   volume_trend := volume_trend;
                   price_volume_correlation := price_volume_correlation;
                   unusual_volume := unusual_volume;
                   volume_signal :=
                     _generate_volume_signal current_volume
                       (default 0%Q volume_sma) volume_trend
                       unusual_volume |})
  | _, _ => _get_empty_result
  end.

End WithNumPy.

(** [get_volume_strength] and [is_volume_confirming_trend] on a result
    of [analyze_volume], which holds every key they read. *)
Definition get_volume_strength (volume_data : VolumeResult) : string :=
  if String.eqb (volume_signal volume_data) "strong_volume" then "strong"
  else if String.eqb (volume_signal volume_data) "weak_volume" then "weak"
  else if unusual_volume volume_data then "unusual"
  else "normal".

Definition is_volume_confirming_trend (price_trend : string)
    (volume_data : VolumeResult) : bool :=
  if String.eqb price_trend "uptrend"
     && String.eqb (volume_trend volume_data) "increasing" then true
  else if String.eqb price_trend "downtrend"
          && String.eqb (volume_trend volume_data) "decreasing" then true
  else false.

End VolumeAnalyzer.

(** ** Vocabulary of the specification *)

Module Spec.

Import MarketData TradeAnalyzer.

(** The snapshot of the round-trip scenario. *)
Definition round_trip_snapshot : dict :=
  {[ "price" := VNum 150;
     "change" := VNum 2.5;
     "52w_high" := VNum 160;
     "52w_low" := VNum 140;
     "rsi" := VNum 65;
     "macd" := VDict {[ "macd" := VNum 1.5; "signal" := VNum 1.0 ]} ]}.

(** A snapshot as the scraper builds it when the quote page carries no
    price element: the key ['price'] is present and holds [None]. *)
Definition priceless_snapshot : dict :=
  {[ "price" := VNone;
     "change" := VNum 0.5;
     "volume" := VNum 1000;
     "52w_high" := VNum 160;
     "52w_low" := VNum 140 ]}.

(** A momentum or convergence signal: one of the four tags that raise the
    win-rate. *)
Definition is_momentum_signal (s : string) : bool :=
  in_list s ["oversold"; "bullish_macd"; "overbought"; "bearish_macd"].

Definition momentum_count (tags : list string) : Z :=
  Z.of_nat (length (List.filter is_momentum_signal tags)).

(** The bonus for the strength of the trend. *)
Definition strength_bonus (strength : value) : Z :=
  if eq_str strength "strong" then 10
  else if eq_str strength "moderate" then 5
  else 0.

(** The win-rate formula: base 50, 5 per momentum or convergence signal,
    the strength bonus, capped at 90. *)
Definition spec_win_rate (tags : list string) (strength : value) : Z :=
  Z.min (50 + 5 * momentum_count tags + strength_bonus strength) 90.

(** [price['trend'] == t], false when the key is absent. *)
Definition trend_is (price : dict) (t : string) : bool :=
  match price !! "trend" with
  | Some v => eq_str v t
  | None => false
  end.

(** The number of tags that contain ['buy'] or ['bullish'], plus the
    synthetic vote of an uptrend. *)
Definition bullish_votes (price : dict) (tags : list string) : nat :=
  length (List.filter is_bullish tags)
  + (if trend_is price "uptrend" then 1 else 0).

(** The number of tags that contain ['sell'] or ['bearish'], plus the
    synthetic vote of a downtrend. *)
Definition bearish_votes (price : dict) (tags : list string) : nat :=
  length (List.filter is_bearish tags)
  + (if trend_is price "downtrend" then 1 else 0).

(** The risk percentage that goes with a volatility class. *)
Definition spec_risk_percentage (volatility : value) : Q :=
  if eq_str volatility "high" then 5
  else if eq_str volatility "medium" then 3
  else 2.

(** An input for which the momentum oscillator has no score: not a list,
    empty, or fewer than [period] samples after differencing. *)
Inductive rsi_unknown_input (period : nat) : arg -> Prop :=
  | rsi_not_a_list : rsi_unknown_input period NotAList
  | rsi_empty : rsi_unknown_input period (FloatList [])
  | rsi_short l :
      length (Np.diff l) < period -> rsi_unknown_input period (FloatList l).

(** An input for which the convergence oscillator has no triple: not a
    list, empty, or fewer than [slow + signal] samples. *)
Inductive macd_unknown_input (slow signal : nat) : arg -> Prop :=
  | macd_not_a_list : macd_unknown_input slow signal NotAList
  | macd_empty : macd_unknown_input slow signal (FloatList [])
  | macd_short l :
      length l < slow + signal -> macd_unknown_input slow signal (FloatList l).

(** Inputs on which the volume analyzer answers with its default result:
    one of the two is not a list, the lengths differ, or there are fewer
    than two samples. *)
Inductive volume_default_input : arg -> arg -> Prop :=
  | vol_prices_missing volumes : volume_default_input NotAList volumes
  | vol_volumes_missing prices : volume_default_input prices NotAList
  | vol_mismatch prices volumes :
      length prices <> length volumes ->
      volume_default_input (FloatList prices) (FloatList volumes)
  | vol_short prices volumes :
      length prices < 2 ->
      volume_default_input (FloatList prices) (FloatList volumes).

(** The shape of the technical analysis while it is built: neutral
    trend, weak strength, and the tags appended so far. *)
Definition tech_shape (analysis : dict) (tags : list string) : Prop :=
  analysis !! "trend" = Some (VStr "neutral") /\
  analysis !! "strength" = Some (VStr "weak") /\
  analysis !! "signals" = Some (VTags tags).

(** A field that is absent ([None]) or numeric. *)
Definition none_or_number (v : value) : Prop :=
  match v with VNone | VNum _ => True | _ => False end.

(** The tag that follows the trend, and the tag of a high volatility. *)
Definition trend_tags (trend : string) : list string :=
  if String.eqb trend "uptrend" then ["trend_following_buy"]
  else if String.eqb trend "downtrend" then ["trend_following_sell"]
  else [].

Definition volatility_tags (volatility : string) : list string :=
  if String.eqb volatility "high" then ["high_volatility"] else [].

(** A value that is a dictionary, and one that is a number. *)
Definition is_dict (v : value) : Prop :=
  match v with VDict _ => True | _ => False end.

Definition is_number (v : value) : Prop :=
  match v with VNum _ => True | _ => False end.

(** [a] may stand before [b] in a list sorted by decreasing win-rate. *)
Definition by_win_rate_desc (a b : Recommendation) : Prop :=
  (rec_win_rate b <= rec_win_rate a)%Z.

(** The entries of a list with the win-rate [k], in their order. *)
Definition with_win_rate (k : Z) (l : list Recommendation)
  : list Recommendation :=
  List.filter (fun r => (rec_win_rate r =? k)%Z) l.

(** A symbol whose analysis is not [None]. *)
Definition analysable (fetch : string -> option dict) (symbol : string)
  : bool :=
  match analyze_quote symbol (fetch symbol) with
  | Some _ => true
  | None => false
  end.

(** An entry as the engine can produce it: a plain label and one of the
    four win-rates. *)
Definition plain_entry (r : Recommendation) : Prop :=
  (rec_action r = "Buy" \/ rec_action r = "Sell" \/ rec_action r = "Hold") /\
  (rec_win_rate r = 0 \/ rec_win_rate r = 50 \/ rec_win_rate r = 55
   \/ rec_win_rate r = 60)%Z.

End Spec.

(** ** Predicates on doubles *)

Module Spec64.

Import F64.

(** A double whose sign bit is clear, or nan: [+0.0], a positive number
    or plus infinity. *)
Definition not_negative (x : float) : bool :=
  match x with
  | S754_zero s | S754_finite s _ _ | S754_infinity s => negb s
  | S754_nan => true
  end.



(** A double as Python holds it: the mantissa and the exponent are the
    canonical ones. *)
Definition is_double (x : float) : Prop := valid_binary prec emax x = true.

(** No element is below the one before it ([a <= b] on doubles, which no
    nan satisfies). *)
Definition never_falls (prices : list float) : Prop :=
  forall i a b,
    prices !! i = Some a -> prices !! S i = Some b -> leb a b = true.

End Spec64.

Import MarketData TradeAnalyzer Spec.

(** * Theorems *)

(** ** Generic facts about the exception monad *)

Lemma bind_Some {A B : Type} (m : option A) (k : A -> option B) (b : B) :
  Py.bind m k = Some b -> exists a, m = Some a /\ k a = Some b.
Proof. destruct m as [a|]; simpl; [eauto | discriminate]. Qed.

Lemma option_exists {A : Type} (o : option A) (P : A -> Prop) :
  match o with Some a => P a | None => False end ->
  exists a, o = Some a /\ P a.
Proof. destruct o as [a|]; [eauto | contradiction]. Qed.

Lemma is_Some_true {A : Type} (o : option A) :
  match o with Some _ => true | None => false end = true ->
  exists a, o = Some a.
Proof. destruct o as [a|]; [eauto | discriminate]. Qed.

(** Decompose a successful sequence of binds, left to right. *)
Ltac inv_bind H :=
  let x := fresh "x" in
  let E := fresh "E" in
  apply bind_Some in H; destruct H as (x & E & H).

(** ** The building blocks on concrete values *)

(** [round(x, 2)] rounds to the nearest hundredth, ties to even. *)
Example round2_values :
  (round2 145.5269 == 145.53)%Q /\ (round2 0.125 == 0.12)%Q /\
  (round2 0.375 == 0.38)%Q /\ (round2 (-0.125) == -0.12)%Q /\
  (round2 148.5 == 148.5)%Q.
Proof. repeat split. Qed.

(** How the tags of the closed vocabulary are counted. *)
Example tag_votes :
  List.filter is_bullish
    ["overbought"; "oversold"; "bullish_macd"; "bearish_macd"; "strong_buy";
     "buy"; "strong_sell"; "sell"; "trend_following_buy";
     "trend_following_sell"; "high_volatility"]
  = ["bullish_macd"; "strong_buy"; "buy"; "trend_following_buy"] /\
  List.filter is_bearish
    ["overbought"; "oversold"; "bullish_macd"; "bearish_macd"; "strong_buy";
     "buy"; "strong_sell"; "sell"; "trend_following_buy";
     "trend_following_sell"; "high_volatility"]
  = ["bearish_macd"; "strong_sell"; "sell"; "trend_following_sell"].
Proof. split; vm_compute; reflexivity. Qed.

(** Comparisons raise between values of different kinds. *)
Example comparisons :
  gt (VNum 75) (VNum 70) = Some true /\
  gt (VNum 70) (VNum 70) = Some false /\
  gt (VStr "b") (VStr "a") = Some true /\
  gt (VStr "75") (VNum 70) = None /\
  gt VNone (VNum 70) = None.
Proof. repeat split. Qed.

(** Array operations. *)
Example array_operations :
  Np.diff [1; 4; 2]%Q = [4 - 1; 2 - 4]%Q /\
  Np.item [1; 4; 2]%Q (-1) = Some 2%Q /\
  Np.item [1; 4; 2]%Q 3 = None /\
  Np.item [] (-1) = None /\
  Np.last_n 2 [1; 4; 2]%Q = [4; 2]%Q /\
  Np.fill_prefix 2 7%Q [0; 0; 0]%Q = [7; 7; 0]%Q.
Proof. repeat split. Qed.

(** The classification of the market on single fields. *)
Example market_classification :
  _determine_trend {[ "change" := VNum 2.5 ]} = Some "uptrend" /\
  _determine_trend {[ "change" := VNum (-2.5) ]} = Some "downtrend" /\
  _determine_trend {[ "change" := VNum 0.5 ]} = Some "sideways" /\
  _determine_trend {[ "change" := VNone ]} = None /\
  _calculate_volatility {[ "52w_high" := VNum 200; "52w_low" := VNum 100 ]}
  = Some "high" /\
  _calculate_volatility {[ "52w_high" := VNum 130; "52w_low" := VNum 100 ]}
  = Some "medium" /\
  _calculate_volatility {[ "52w_high" := VNone; "52w_low" := VNone ]}
  = Some "low".
Proof. repeat split; vm_compute; reflexivity. Qed.

(** ** The round-trip scenario *)

(** C1: on the snapshot of the round-trip scenario the price analysis
    classifies the trend as uptrend and the volatility as low, and the
    analysis of the quote carries entry price 148.5, stop-loss 145.53,
    take-profit 157.41, risk percentage 2 and a win-rate of 55, which is
    at least 50. *)
Theorem round_trip_scenario (symbol : string) :
  (exists pa,
     _analyze_price_action round_trip_snapshot = Some pa /\
     pa !! "trend" = Some (VStr "uptrend") /\
     pa !! "volatility" = Some (VStr "low")) /\
  (exists q,
     analyze_quote symbol (Some round_trip_snapshot) = Some q /\
     qa_trend q = VStr "uptrend" /\
     (qa_entry_price q == 148.5)%Q /\
     (qa_stop_loss q == 145.53)%Q /\
     (qa_take_profit q == 157.41)%Q /\
     (qa_risk_percentage q == 2.0)%Q /\
     qa_win_rate q = 55%Z /\
     (50 <= qa_win_rate q)%Z).
Proof.
  split; apply option_exists; vm_compute; repeat split; discriminate.
Qed.

(** ** The risk engine *)

Lemma fold_win_rate_step (tags : list string) (base : Z) :
  fold_left win_rate_step tags base = (base + 5 * momentum_count tags)%Z.
Proof.
  unfold momentum_count.
  revert base; induction tags as [|signal tags IH]; intros base; simpl.
  - lia.
  - rewrite IH. unfold win_rate_step, is_momentum_signal, in_list. simpl.
    destruct (String.eqb signal "oversold"),
             (String.eqb signal "bullish_macd"),
             (String.eqb signal "overbought"),
             (String.eqb signal "bearish_macd"); simpl; lia.
Qed.

Lemma momentum_count_nonneg (tags : list string) :
  (0 <= momentum_count tags)%Z.
Proof. unfold momentum_count. lia. Qed.

Lemma strength_bonus_nonneg (strength : value) :
  (0 <= strength_bonus strength)%Z.
Proof.
  unfold strength_bonus.
  destruct (eq_str strength "strong"), (eq_str strength "moderate"); lia.
Qed.

Lemma spec_win_rate_bounds (tags : list string) (strength : value) :
  (50 <= spec_win_rate tags strength <= 90)%Z.
Proof.
  unfold spec_win_rate.
  pose proof (momentum_count_nonneg tags).
  pose proof (strength_bonus_nonneg strength).
  lia.
Qed.

Lemma round2_percentage (volatility : value) :
  (round2
     ((if eq_str volatility "high" then 0.05
       else if eq_str volatility "medium" then 0.03
       else 0.02) * 100)
   == spec_risk_percentage volatility)%Q.
Proof.
  unfold spec_risk_percentage.
  destruct (eq_str volatility "high"); [reflexivity|].
  destruct (eq_str volatility "medium"); reflexivity.
Qed.

Lemma spec_risk_percentage_cases (volatility : value) :
  spec_risk_percentage volatility = 2%Q \/
  spec_risk_percentage volatility = 3%Q \/
  spec_risk_percentage volatility = 5%Q.
Proof.
  unfold spec_risk_percentage.
  destruct (eq_str volatility "high"); [auto|].
  destruct (eq_str volatility "medium"); auto.
Qed.

(** What a run of the [try] block that reaches its [return] has read and
    computed. *)
Lemma risk_metrics_body_Some (data technical price : dict) (m : RiskMetrics) :
  risk_metrics_body data technical price = Some m ->
  exists volatility tech_signals tags strength,
    price !! "volatility" = Some volatility /\
    technical !! "signals" = Some tech_signals /\
    iter tech_signals = Some tags /\
    technical !! "strength" = Some strength /\
    win_rate m = spec_win_rate tags strength /\
    (risk_percentage m == spec_risk_percentage volatility)%Q.
Proof.
  unfold risk_metrics_body, getitem. intros H.
  inv_bind H. rename x into trend.
  inv_bind H. rename x into entry.
  inv_bind H. rename x into volatility.
  inv_bind H. inv_bind H.
  inv_bind H. rename x1 into tech_signals.
  inv_bind H. rename x1 into tags.
  inv_bind H. rename x1 into strength.
  inv_bind H. inv_bind H. inv_bind H.
  injection H as <-.
  exists volatility, tech_signals, tags, strength.
  repeat (split; [assumption|]). cbn [win_rate risk_percentage]. split.
  - rewrite fold_win_rate_step. unfold spec_win_rate, strength_bonus.
    destruct (eq_str strength "strong"); [reflexivity|].
    destruct (eq_str strength "moderate"); f_equal; lia.
  - apply round2_percentage.
Qed.

(** The [try] block reaches its [return] as soon as the price is a
    number and the keys it reads are present, with an iterable under
    ['signals']. *)
Lemma risk_metrics_body_total (data technical price : dict)
    (p : Q) (trend volatility tech_signals strength : value)
    (tags : list string) :
  get data "price" (VNum 0) = VNum p ->
  price !! "trend" = Some trend ->
  price !! "volatility" = Some volatility ->
  technical !! "signals" = Some tech_signals ->
  iter tech_signals = Some tags ->
  technical !! "strength" = Some strength ->
  exists m, risk_metrics_body data technical price = Some m.
Proof.
  intros Hp Ht Hv Hs Hi Hst.
  unfold risk_metrics_body, getitem. rewrite Hp, Ht, Hv, Hs, Hst. simpl.
  destruct (eq_str trend "uptrend"); [|destruct (eq_str trend "downtrend")];
    simpl; rewrite Hi; simpl; eauto.
Qed.

(** C2: the win-rate of the risk metrics lies in [0, 90]. Either the
    computation failed internally and the zero record is returned, or the
    win-rate is 50, plus 5 for every momentum or convergence signal of the
    signal list, plus 10 for a strong and 5 for a moderate trend, capped
    at 90; in that case it is never below the base 50. The formula is
    what every input with a numeric price, a trend, a volatility, a
    strength and an iterable of signals gets: none of them ends in the
    failure path. *)
Theorem win_rate_range (data technical price : dict) :
  let rm := _calculate_risk_metrics data technical price in
  (0 <= win_rate rm <= 90)%Z /\
  ((risk_metrics_body data technical price = None /\ rm = zero_metrics) \/
   (exists tech_signals tags strength,
      technical !! "signals" = Some tech_signals /\
      iter tech_signals = Some tags /\
      technical !! "strength" = Some strength /\
      win_rate rm = spec_win_rate tags strength /\
      (50 <= win_rate rm)%Z)) /\
  (forall (p : Q) (trend volatility tech_signals strength : value)
          (tags : list string),
     get data "price" (VNum 0) = VNum p ->
     price !! "trend" = Some trend ->
     price !! "volatility" = Some volatility ->
     technical !! "signals" = Some tech_signals ->
     iter tech_signals = Some tags ->
     technical !! "strength" = Some strength ->
     risk_metrics_body data technical price <> None /\
     win_rate rm = spec_win_rate tags strength /\
     (50 <= win_rate rm <= 90)%Z).
Proof.
  unfold _calculate_risk_metrics.
  destruct (risk_metrics_body data technical price) as [m|] eqn:Hbody; simpl.
  - destruct (risk_metrics_body_Some _ _ _ _ Hbody)
      as (volatility & tech_signals & tags & strength
          & _ & Hs & Hi & Hst & Hw & _).
    pose proof (spec_win_rate_bounds tags strength) as Hb.
    rewrite Hw. split; [lia|]. split.
    + right. exists tech_signals, tags, strength.
      repeat (split; [assumption|]). split; [reflexivity | lia].
    + intros p trend volatility' tech_signals' strength' tags'
        _ _ _ Hs' Hi' Hst'.
      rewrite Hs in Hs'. injection Hs' as <-.
      rewrite Hi in Hi'. injection Hi' as <-.
      rewrite Hst in Hst'. injection Hst' as <-.
      split; [discriminate|]. split; [reflexivity | lia].
  - split; [lia|]. split; [left; split; reflexivity|].
    intros p trend volatility tech_signals strength tags
      Hp Ht Hv Hs Hi Hst.
    destruct (risk_metrics_body_total data technical price p trend
                volatility tech_signals strength tags Hp Ht Hv Hs Hi Hst)
      as [m Hm].
    rewrite Hbody in Hm. discriminate Hm.
Qed.

(** A price of 100 with two signals under a strong trend: 50 + 10 + 10. *)
Lemma win_rate_range_witness :
  let data : dict := {[ "price" := VNum 100 ]} in
  let technical : dict :=
    {[ "signals" := VTags ["oversold"; "bullish_macd"];
       "strength" := VStr "strong" ]} in
  let price : dict :=
    {[ "trend" := VStr "sideways"; "volatility" := VStr "low" ]} in
  risk_metrics_body data technical price <> None /\
  win_rate (_calculate_risk_metrics data technical price) = 70%Z.
Proof.
  intros data technical price.
  destruct (win_rate_range data technical price) as (_ & _ & H).
  destruct (H 100%Q (VStr "sideways") (VStr "low")
              (VTags ["oversold"; "bullish_macd"]) (VStr "strong")
              ["oversold"; "bullish_macd"])
    as (Hbody & Hw & _); try (vm_compute; reflexivity).
  split; [exact Hbody|]. rewrite Hw. vm_compute. reflexivity.
Defined.

(** The win-rate formula is reached at both ends: 50 with no signal and a
    weak trend, 90 when the sum passes the cap. *)
Example win_rate_floor_and_cap :
  win_rate (_calculate_risk_metrics
              {[ "price" := VNum 100 ]}
              {[ "signals" := VTags []; "strength" := VStr "weak" ]}
              {[ "trend" := VStr "sideways"; "volatility" := VStr "low" ]})
  = 50%Z /\
  win_rate (_calculate_risk_metrics
              {[ "price" := VNum 100 ]}
              {[ "signals" :=
                   VTags ["oversold"; "bullish_macd"; "oversold";
                          "bullish_macd"; "overbought"; "bearish_macd";
                          "oversold"];
                 "strength" := VStr "strong" ]}
              {[ "trend" := VStr "sideways"; "volatility" := VStr "low" ]})
  = 90%Z.
Proof. split; vm_compute; reflexivity. Qed.

(** C8, as amended: the risk percentage is 0 exactly when the computation
    failed internally and the zero record is returned; otherwise it is the
    stop-loss percentage of the volatility class, one of 2, 3 and 5. *)
Theorem risk_percentage_values (data technical price : dict) :
  let rm := _calculate_risk_metrics data technical price in
  (risk_metrics_body data technical price = None /\
   rm = zero_metrics /\ (risk_percentage rm == 0)%Q) \/
  (exists volatility,
     price !! "volatility" = Some volatility /\
     (risk_percentage rm == spec_risk_percentage volatility)%Q /\
     ((risk_percentage rm == 2)%Q \/ (risk_percentage rm == 3)%Q \/
      (risk_percentage rm == 5)%Q)).
Proof.
  unfold _calculate_risk_metrics.
  destruct (risk_metrics_body data technical price) as [m|] eqn:Hbody; simpl.
  - right.
    destruct (risk_metrics_body_Some _ _ _ _ Hbody)
      as (volatility & _ & _ & _ & Hv & _ & _ & _ & _ & Hr).
    exists volatility. split; [assumption|]. split; [assumption|].
    rewrite Hr.
    destruct (spec_risk_percentage_cases volatility) as [-> | [-> | ->]];
      auto using Qeq_refl.
  - left. repeat split.
Qed.

(** C8, as stated, fails: for a snapshot whose price is [None] the [try]
    block raises, the zero record is returned and the risk percentage is
    0, which is none of 2, 3 and 5. *)
Lemma risk_percentage_zero_on_failure :
  let a := analyze_stock (Some priceless_snapshot) in
  let rm := _calculate_risk_metrics
              (an_data a) (an_technical_analysis a) (an_price_analysis a) in
  rm = zero_metrics /\
  ~ ((risk_percentage rm == 2)%Q \/ (risk_percentage rm == 3)%Q \/
     (risk_percentage rm == 5)%Q).
Proof.
  vm_compute. split; [reflexivity|].
  intros [H | [H | H]]; discriminate H.
Qed.

(** ** The recommendation *)

Lemma eq_str_true (v : value) (s : string) :
  eq_str v s = true -> v = VStr s.
Proof.
  destruct v; simpl; try discriminate.
  intros H. apply String.eqb_eq in H. congruence.
Qed.

(** C3: when the bullish votes equal the bearish votes the recommendation
    is Hold, whatever the signals, the trend and the strength. The bullish
    votes are the tags that contain 'buy' or 'bullish', plus one for an
    uptrend; the bearish votes are the tags that contain 'sell' or
    'bearish', plus one for a downtrend. *)
Theorem hold_on_tie (technical price : dict) (signals : value)
    (tags : list string) :
  iter signals = Some tags ->
  bullish_votes price tags = bearish_votes price tags ->
  _generate_recommendation technical price signals = "Hold".
Proof.
  intros Hi Htie.
  unfold _generate_recommendation, recommendation_body, getitem.
  rewrite Hi. simpl.
  unfold bullish_votes, bearish_votes, trend_is in Htie.
  destruct (price !! "trend") as [trend|]; simpl; [|reflexivity].
  destruct (eq_str trend "uptrend") eqn:Hup.
  - apply eq_str_true in Hup. subst trend. simpl in Htie.
    rewrite (proj2 (Nat.ltb_ge _ _)) by lia.
    rewrite (proj2 (Nat.ltb_ge _ _)) by lia. reflexivity.
  - destruct (eq_str trend "downtrend");
      rewrite (proj2 (Nat.ltb_ge _ _)) by lia;
      rewrite (proj2 (Nat.ltb_ge _ _)) by lia; reflexivity.
Qed.

(** Two ties: no signal at all in a sideways market, and one bullish tag
    against the vote of a downtrend, under a strong trend. *)
Lemma hold_on_tie_witness :
  _generate_recommendation
    {[ "strength" := VStr "weak" ]} {[ "trend" := VStr "sideways" ]}
    (VTags []) = "Hold" /\
  _generate_recommendation
    {[ "strength" := VStr "strong" ]} {[ "trend" := VStr "downtrend" ]}
    (VTags ["bullish_macd"; "high_volatility"]) = "Hold".
Proof.
  split.
  - apply (hold_on_tie _ _ _ []); reflexivity.
  - apply (hold_on_tie _ _ _ ["bullish_macd"; "high_volatility"]);
      vm_compute; reflexivity.
Defined.

(** Away from a tie the trend strength decides between the plain and the
    strong label. *)
Example recommendation_labels :
  _generate_recommendation
    {[ "strength" := VStr "strong" ]} {[ "trend" := VStr "uptrend" ]}
    (VTags ["bullish_macd"]) = "Strong Buy" /\
  _generate_recommendation
    {[ "strength" := VStr "weak" ]} {[ "trend" := VStr "downtrend" ]}
    (VTags ["overbought"; "bearish_macd"]) = "Sell".
Proof. split; vm_compute; reflexivity. Qed.

(** ** The technical analysis *)

Lemma append_signal_shape (analysis : dict) (tags : list string)
    (tag : string) :
  tech_shape analysis tags ->
  exists analysis',
    append_signal analysis tag = Some analysis' /\
    tech_shape analysis' (tags ++ [tag])%list.
Proof.
  intros (Ht & Hs & Hl). unfold append_signal. rewrite Hl.
  eexists. split; [reflexivity|]. unfold tech_shape.
  rewrite !lookup_insert_ne by discriminate.
  rewrite lookup_insert_eq. auto.
Qed.

Lemma append_signal_shape_inv (analysis analysis' : dict)
    (tags : list string) (tag : string) :
  tech_shape analysis tags ->
  append_signal analysis tag = Some analysis' ->
  tech_shape analysis' (tags ++ [tag])%list.
Proof.
  intros Hshape Happ.
  destruct (append_signal_shape analysis tags tag Hshape) as (a & Ha & Hs).
  congruence.
Qed.

Lemma initial_shape :
  tech_shape
    ({[ "trend" := VStr "neutral"; "strength" := VStr "weak";
        "signals" := VTags [] ]} : dict) [].
Proof. repeat split. Qed.

(** Whenever the technical analysis returns, its dictionary holds the
    neutral trend and the weak strength it started with, and at most one
    momentum tag followed by at most one convergence tag. *)
Lemma technical_indicators_shape (data r : dict) :
  _analyze_technical_indicators data = Some r ->
  exists l1 l2,
    tech_shape r (l1 ++ l2)%list /\
    (l1 = [] \/ l1 = ["overbought"] \/ l1 = ["oversold"]) /\
    (l2 = [] \/ l2 = ["bullish_macd"] \/ l2 = ["bearish_macd"]).
Proof.
  unfold _analyze_technical_indicators. intros H.
  pose proof initial_shape as H0.
  set (analysis0 := ({[ "trend" := VStr "neutral"; "strength" := VStr "weak";
                        "signals" := VTags [] ]} : dict)) in *.
  inv_bind H. rename x into analysis1.
  assert (exists l1, tech_shape analysis1 l1 /\
                     (l1 = [] \/ l1 = ["overbought"] \/ l1 = ["oversold"]))
    as (l1 & H1 & Hl1).
  { destruct (is_none (get data "rsi" VNone)).
    - injection E as <-. exists []. auto.
    - inv_bind E. destruct x.
      + exists ["overbought"]. split; [|auto].
        apply (append_signal_shape_inv analysis0 _ [] _ H0 E).
      + inv_bind E. destruct x.
        * exists ["oversold"]. split; [|auto].
          apply (append_signal_shape_inv analysis0 _ [] _ H0 E).
        * injection E as <-. exists []. auto. }
  exists l1.
  destruct (truthy (get data "macd" (VDict ∅))).
  - inv_bind H. inv_bind H.
    destruct (negb (is_none x) && negb (is_none x0)).
    + inv_bind H. destruct x1.
      * exists ["bullish_macd"]. split; [|auto].
        apply (append_signal_shape_inv analysis1 _ l1 _ H1 H).
      * exists ["bearish_macd"]. split; [|auto].
        apply (append_signal_shape_inv analysis1 _ l1 _ H1 H).
    + injection H as <-. exists []. rewrite app_nil_r. auto.
  - injection H as <-. exists []. rewrite app_nil_r. auto.
Qed.

Lemma technical_indicators_strength (data r : dict) :
  _analyze_technical_indicators data = Some r ->
  r !! "strength" = Some (VStr "weak").
Proof.
  intros H. destruct (technical_indicators_shape data r H)
    as (l1 & l2 & (_ & Hs & _) & _). exact Hs.
Qed.

(** The technical analysis inside the result of [analyze_stock] is either
    the one just computed or that of the empty analysis. *)
Lemma analyze_stock_technical (fetched : option dict) :
  exists tags,
    tech_shape (an_technical_analysis (analyze_stock fetched)) tags.
Proof.
  assert (tech_shape (an_technical_analysis _get_empty_analysis) [])
    as Hempty by (repeat split).
  unfold analyze_stock.
  destruct fetched as [data|]; [|eauto].
  destruct (negb (truthy (VDict data))); [eauto|].
  destruct (_analyze_technical_indicators data) as [r|] eqn:Hr;
    simpl; [|eauto].
  destruct (_analyze_price_action data) as [pa|]; simpl; [|eauto].
  destruct (_generate_signals r pa) as [sg|]; simpl; [|eauto].
  destruct (technical_indicators_shape data r Hr) as (l1 & l2 & Hs & _).
  eauto.
Qed.

(** With a weak strength the recommendation is one of the plain labels. *)
Lemma weak_recommendation (technical price : dict) (signals : value) :
  technical !! "strength" = Some (VStr "weak") ->
  let r := _generate_recommendation technical price signals in
  r = "Buy" \/ r = "Sell" \/ r = "Hold".
Proof.
  intros Hs. unfold _generate_recommendation, recommendation_body, getitem.
  rewrite Hs.
  destruct (iter signals) as [tags|]; simpl; [|auto].
  destruct (price !! "trend") as [trend|]; simpl; [|auto].
  repeat match goal with
         | |- context [if ?b then _ else _] => destruct b; simpl; auto
         end.
Qed.

(** With a weak strength the win-rate gets no bonus. *)
Lemma weak_win_rate (data technical price : dict) (tags : list string) :
  tech_shape technical tags ->
  let rm := _calculate_risk_metrics data technical price in
  win_rate rm = 0%Z \/
  win_rate rm = Z.min (50 + 5 * momentum_count tags) 90.
Proof.
  intros (_ & Hst & Hsig). simpl. unfold _calculate_risk_metrics.
  destruct (risk_metrics_body data technical price) as [m|] eqn:Hbody;
    simpl; [|left; reflexivity].
  right.
  destruct (risk_metrics_body_Some _ _ _ _ Hbody)
    as (vol & ts & tg & st & _ & Hs' & Hi & Hst' & Hw & _).
  rewrite Hw. rewrite Hsig in Hs'. injection Hs' as <-.
  rewrite Hst in Hst'. injection Hst' as <-.
  simpl in Hi. injection Hi as <-.
  unfold spec_win_rate.
  change (strength_bonus (VStr "weak")) with 0%Z. f_equal. lia.
Qed.

(** C9: the strength of the technical analysis is always weak: it is set
    to weak when the analysis starts and no path assigns it again. Hence
    every analysed quote reports the weak strength, its recommendation is
    neither Strong Buy nor Strong Sell, and its win-rate is 0 (internal
    failure of the risk metrics) or the capped sum of the base 50 and 5
    per momentum or convergence tag, without any strength bonus. *)
Theorem strength_is_always_weak (data : dict) (symbol : string)
    (fetched : option dict) :
  (forall r,
     _analyze_technical_indicators data = Some r ->
     r !! "strength" = Some (VStr "weak")) /\
  an_technical_analysis (analyze_stock fetched) !! "strength"
    = Some (VStr "weak") /\
  (forall q,
     analyze_quote symbol fetched = Some q ->
     qa_trend_strength q = VStr "weak" /\
     qa_recommendation q <> "Strong Buy" /\
     qa_recommendation q <> "Strong Sell" /\
     exists tags,
       an_technical_analysis (analyze_stock fetched) !! "signals"
         = Some (VTags tags) /\
       (qa_win_rate q = 0%Z \/
        qa_win_rate q = Z.min (50 + 5 * momentum_count tags) 90)).
Proof.
  destruct (analyze_stock_technical fetched) as (tags & Hshape).
  pose proof Hshape as (_ & Hstrength & Hsignals).
  split; [|split].
  - intros r. apply technical_indicators_strength.
  - exact Hstrength.
  - intros q H. unfold analyze_quote, getitem in H.
    inv_bind H. inv_bind H. inv_bind H. inv_bind H.
    injection H as <-.
    cbn [qa_trend_strength qa_recommendation qa_win_rate].
    rewrite Hstrength in E2. injection E2 as <-.
    split; [reflexivity|].
    pose proof (weak_recommendation
                  (an_technical_analysis (analyze_stock fetched))
                  (an_price_analysis (analyze_stock fetched))
                  (an_signals (analyze_stock fetched)) Hstrength) as Hrec.
    simpl in Hrec.
    split; [|split].
    + destruct Hrec as [-> | [-> | ->]]; discriminate.
    + destruct Hrec as [-> | [-> | ->]]; discriminate.
    + exists tags. split; [exact Hsignals|].
      apply weak_win_rate. exact Hshape.
Qed.

(** The round-trip snapshot is analysed, with the consequences above. *)
Lemma strength_is_always_weak_witness :
  (exists r,
     _analyze_technical_indicators round_trip_snapshot = Some r /\
     r !! "strength" = Some (VStr "weak")) /\
  (exists q,
     analyze_quote "AAPL" (Some round_trip_snapshot) = Some q /\
     qa_trend_strength q = VStr "weak" /\
     qa_recommendation q <> "Strong Buy" /\
     qa_recommendation q <> "Strong Sell").
Proof.
  destruct (strength_is_always_weak round_trip_snapshot "AAPL"
              (Some round_trip_snapshot)) as (H1 & _ & H3).
  split.
  - destruct (is_Some_true (_analyze_technical_indicators round_trip_snapshot))
      as (r & E); [vm_compute; reflexivity|].
    exists r. split; [exact E | exact (H1 r E)].
  - destruct (is_Some_true (analyze_quote "AAPL" (Some round_trip_snapshot)))
      as (q & E); [vm_compute; reflexivity|].
    exists q. split; [exact E|].
    destruct (H3 q E) as (Ha & Hb & Hc & _). auto.
Defined.

Lemma Qltb_irrefl_eq (a b : Q) : (a == b)%Q -> Qltb b a = false.
Proof.
  intros H. unfold Qltb.
  rewrite (proj1 (Qeq_alt b a)) by (symmetry; exact H). reflexivity.
Qed.

(** The merged signal list is the technical one, followed by at most one
    trend tag and at most one volatility tag. *)
Lemma generate_signals_tags (technical_analysis price_analysis : dict)
    (tags : list string) (merged : value) :
  technical_analysis !! "signals" = Some (VTags tags) ->
  _generate_signals technical_analysis price_analysis = Some merged ->
  exists t v,
    merged = VTags ((tags ++ t) ++ v)%list /\
    (t = [] \/ t = ["trend_following_buy"] \/ t = ["trend_following_sell"]) /\
    (v = [] \/ v = ["high_volatility"]).
Proof.
  intros Hs H. unfold _generate_signals, getitem in H.
  rewrite Hs in H. simpl in H.
  inv_bind H. rename x into trend.
  inv_bind H. rename x into volatility.
  injection H as <-.
  destruct (eq_str trend "uptrend"); [|destruct (eq_str trend "downtrend")];
    destruct (eq_str volatility "high");
    first
      [ exists ["trend_following_buy"], ["high_volatility"]; split;
          [reflexivity | auto]
      | exists ["trend_following_buy"], []; split;
          [rewrite app_nil_r; reflexivity | auto]
      | exists ["trend_following_sell"], ["high_volatility"]; split;
          [reflexivity | auto]
      | exists ["trend_following_sell"], []; split;
          [rewrite app_nil_r; reflexivity | auto]
      | exists [], ["high_volatility"]; split;
          [rewrite app_nil_r; reflexivity | auto]
      | exists [], []; split;
          [rewrite !app_nil_r; reflexivity | auto] ].
Qed.

(** C10: when the MACD line and the signal line are both present and
    equal, the technical analysis returns, its signal list contains
    'bearish_macd' and does not contain 'bullish_macd': equality counts
    as bearish. The same holds of every merged signal list generated
    from that analysis. *)
Theorem equal_macd_is_bearish (data macd : dict) (line signal : Q) :
  none_or_number (get data "rsi" VNone) ->
  data !! "macd" = Some (VDict macd) ->
  macd !! "macd" = Some (VNum line) ->
  macd !! "signal" = Some (VNum signal) ->
  (line == signal)%Q ->
  exists r tags,
    _analyze_technical_indicators data = Some r /\
    r !! "signals" = Some (VTags tags) /\
    ("bearish_macd" ∈ tags) /\
    ("bullish_macd" ∉ tags) /\
    (forall price_analysis merged,
       _generate_signals r price_analysis = Some merged ->
       exists all,
         merged = VTags all /\
         ("bearish_macd" ∈ all) /\ ("bullish_macd" ∉ all)).
Proof.
  intros Hrsi Hmacd Hline Hsignal Heq.
  unfold _analyze_technical_indicators.
  pose proof initial_shape as H0.
  set (analysis0 := ({[ "trend" := VStr "neutral"; "strength" := VStr "weak";
                        "signals" := VTags [] ]} : dict)) in *.
  (* the momentum block *)
  assert (exists analysis1 l1,
            (if is_none (get data "rsi" VNone) then Some analysis0
             else
               let* over := gt (get data "rsi" VNone) (VNum 70) in
               if over then append_signal analysis0 "overbought"
               else
                 let* under := lt (get data "rsi" VNone) (VNum 30) in
                 if under then append_signal analysis0 "oversold"
                 else Some analysis0) = Some analysis1 /\
            tech_shape analysis1 l1 /\
            (l1 = [] \/ l1 = ["overbought"] \/ l1 = ["oversold"]))
    as (analysis1 & l1 & -> & H1 & Hl1).
  { destruct (get data "rsi" VNone) as [|q| | |]; try contradiction; simpl.
    - exists analysis0, []. auto.
    - destruct (Qltb 70 q).
      + destruct (append_signal_shape analysis0 [] "overbought" H0)
          as (a & -> & Ha). exists a, ["overbought"]. auto.
      + destruct (Qltb q 30).
        * destruct (append_signal_shape analysis0 [] "oversold" H0)
            as (a & -> & Ha). exists a, ["oversold"]. auto.
        * exists analysis0, []. auto. }
  cbn beta iota zeta.
  (* the convergence block *)
  assert (get data "macd" (VDict ∅) = VDict macd) as Hg
    by (unfold get; rewrite Hmacd; reflexivity).
  assert (macd <> ∅) as Hne.
  { intros ->. rewrite lookup_empty in Hline. discriminate. }
  cbn [bind]. rewrite !Hg. cbn [truthy method_get bind].
  rewrite bool_decide_eq_false_2 by exact Hne. cbn [negb].
  unfold get. rewrite Hline, Hsignal. simpl.
  rewrite (Qltb_irrefl_eq line signal Heq).
  destruct (append_signal_shape analysis1 l1 "bearish_macd" H1)
    as (r & -> & (_ & _ & Hr)).
  exists r, (l1 ++ ["bearish_macd"])%list.
  split; [reflexivity|]. split; [exact Hr|].
  assert ("bearish_macd" ∈ (l1 ++ ["bearish_macd"])%list) as Hin_bear.
  { apply elem_of_app. right. apply list_elem_of_singleton. reflexivity. }
  assert ("bullish_macd" ∉ (l1 ++ ["bearish_macd"])%list) as Hnot_bull.
  { intros Hin. apply elem_of_app in Hin as [Hin | Hin].
    - destruct Hl1 as [-> | [-> | ->]].
      + inversion Hin.
      + apply list_elem_of_singleton in Hin. discriminate.
      + apply list_elem_of_singleton in Hin. discriminate.
    - apply list_elem_of_singleton in Hin. discriminate. }
  split; [exact Hin_bear|]. split; [exact Hnot_bull|].
  intros price_analysis merged Hmerged.
  destruct (generate_signals_tags r price_analysis _ merged Hr Hmerged)
    as (t & v & -> & Ht & Hv).
  eexists. split; [reflexivity|]. split.
  - apply elem_of_app. left. apply elem_of_app. left. exact Hin_bear.
  - intros Hin. apply elem_of_app in Hin as [Hin | Hin];
      [apply elem_of_app in Hin as [Hin | Hin]|].
    + exact (Hnot_bull Hin).
    + destruct Ht as [-> | [-> | ->]].
      * inversion Hin.
      * apply list_elem_of_singleton in Hin. discriminate.
      * apply list_elem_of_singleton in Hin. discriminate.
    + destruct Hv as [-> | ->].
      * inversion Hin.
      * apply list_elem_of_singleton in Hin. discriminate.
Qed.

(** A snapshot whose two MACD values are both 1.5. *)
Lemma equal_macd_is_bearish_witness :
  exists r tags,
    _analyze_technical_indicators
      {[ "rsi" := VNum 65;
         "macd" := VDict {[ "macd" := VNum 1.5; "signal" := VNum 1.5 ]} ]}
      = Some r /\
    r !! "signals" = Some (VTags tags) /\
    ("bearish_macd" ∈ tags) /\
    ("bullish_macd" ∉ tags).
Proof.
  destruct (equal_macd_is_bearish
              {[ "rsi" := VNum 65;
                 "macd" := VDict {[ "macd" := VNum 1.5;
                                    "signal" := VNum 1.5 ]} ]}
              {[ "macd" := VNum 1.5; "signal" := VNum 1.5 ]} 1.5 1.5)
    as (r & tags & Hr & Hs & Hb & Hn & _);
    [| | | | | exists r, tags; auto].
  - vm_compute. exact I.
  - vm_compute. reflexivity.
  - vm_compute. reflexivity.
  - vm_compute. reflexivity.
  - reflexivity.
Defined.

(** ** Comparisons and quotients of exact numbers *)

Section ExactNumbers.

Local Open Scope Q_scope.

Lemma Qdiv_nonneg (a b : Q) : 0 <= a -> 0 <= b -> 0 <= a / b.
Proof.
  intros Ha Hb. unfold Qdiv.
  apply Qmult_le_0_compat; [exact Ha | apply Qinv_le_0_compat; exact Hb].
Qed.

Lemma Qltb_true (a b : Q) : Qltb a b = true -> a < b.
Proof.
  unfold Qltb. destruct (a ?= b) eqn:E; try discriminate.
  intros _. apply Qlt_alt. exact E.
Qed.

End ExactNumbers.

(** ** Doubles: powers of two and exact values *)

Section Pow2.

Import F64.
Local Open Scope Q_scope.

Lemma pow2_pos (e : Z) : 0 < pow2 e.
Proof. apply Qpower_0_lt. reflexivity. Qed.

Lemma pow2_add (a b : Z) : pow2 (a + b) == pow2 a * pow2 b.
Proof. apply Qpower_plus. discriminate. Qed.

Lemma pow2_Z (n : Z) : (0 <= n)%Z -> pow2 n == inject_Z (2 ^ n).
Proof.
  intros H. unfold pow2. rewrite Zpower_Qpower by exact H. reflexivity.
Qed.

Lemma pow2_le (a b : Z) : (a <= b)%Z -> pow2 a <= pow2 b.
Proof.
  intros H. replace b with (a + (b - a))%Z by lia.
  rewrite pow2_add, (pow2_Z (b - a)) by lia.
  assert (1 <= inject_Z (2 ^ (b - a))).
  { change 1 with (inject_Z 1). rewrite <- Zle_Qle.
    assert (0 < 2 ^ (b - a))%Z by (apply Z.pow_pos_nonneg; lia). lia. }
  pose proof (pow2_pos a). nra.
Qed.

Lemma pow2_lt (a b : Z) : (a < b)%Z -> pow2 a < pow2 b.
Proof.
  intros H. replace b with (a + (b - a))%Z by lia.
  rewrite pow2_add, (pow2_Z (b - a)) by lia.
  assert (2 <= inject_Z (2 ^ (b - a))).
  { change 2 with (inject_Z 2). rewrite <- Zle_Qle.
    replace (b - a)%Z with (Z.succ (b - a - 1)) by lia.
    rewrite Z.pow_succ_r by lia.
    assert (0 < 2 ^ (b - a - 1))%Z by (apply Z.pow_pos_nonneg; lia). lia. }
  pose proof (pow2_pos a). nra.
Qed.

Lemma pow2_le_inv (a b : Z) : pow2 a <= pow2 b -> (a <= b)%Z.
Proof.
  intros H. destruct (Z_le_gt_dec a b) as [Hle | Hgt]; [exact Hle|].
  pose proof (pow2_lt b a ltac:(lia)). lra.
Qed.


(** Moving a power of two between the mantissa and the exponent. *)
Lemma val_shift (m e d : Z) : (0 <= d)%Z -> val (m * 2 ^ d) (e - d) == val m e.
Proof.
  intros H. unfold val.
  rewrite inject_Z_mult, <- (pow2_Z d) by exact H.
  replace e with ((e - d) + d)%Z at 2 by lia. rewrite pow2_add. ring.
Qed.

Lemma val_le (a b e : Z) : val a e <= val b e <-> (a <= b)%Z.
Proof.
  unfold val. pose proof (pow2_pos e). rewrite Zle_Qle. split; intros; nra.
Qed.

Lemma val_lt (a b e : Z) : val a e < val b e <-> (a < b)%Z.
Proof.
  unfold val. pose proof (pow2_pos e). rewrite Zlt_Qlt. split; intros; nra.
Qed.

Lemma val_mono (a b e : Z) : (a <= b)%Z -> val a e <= val b e.
Proof. apply val_le. Qed.

Lemma val_nonneg (m e : Z) : (0 <= m)%Z -> 0 <= val m e.
Proof.
  intros H. unfold val. pose proof (pow2_pos e).
  assert (0 <= inject_Z m)
    by (change 0 with (inject_Z 0); rewrite <- Zle_Qle; lia).
  nra.
Qed.

Lemma val_pow2 (e : Z) : val 1 e == pow2 e.
Proof. unfold val. ring. Qed.

End Pow2.

(** ** Doubles: the number of binary digits of a mantissa *)

Section Digits.

Local Open Scope Z_scope.

Lemma digits2_pos_bounds (p : positive) :
  2 ^ (Zpos (digits2_pos p) - 1) <= Zpos p < 2 ^ Zpos (digits2_pos p).
Proof.
  induction p as [p IH | p IH |]; cbn [digits2_pos].
  - rewrite Pos2Z.inj_succ, (Pos2Z.inj_xI p).
    replace (Z.succ (Zpos (digits2_pos p)) - 1)
      with (Z.succ (Zpos (digits2_pos p) - 1)) by lia.
    rewrite !Z.pow_succ_r by lia. lia.
  - rewrite Pos2Z.inj_succ, (Pos2Z.inj_xO p).
    replace (Z.succ (Zpos (digits2_pos p)) - 1)
      with (Z.succ (Zpos (digits2_pos p) - 1)) by lia.
    rewrite !Z.pow_succ_r by lia. lia.
  - cbn. lia.
Qed.

Lemma Zdigits2_bounds (m : Z) :
  0 < m -> 2 ^ (Zdigits2 m - 1) <= m < 2 ^ Zdigits2 m.
Proof.
  destruct m as [|p|p]; try lia. intros _. apply digits2_pos_bounds.
Qed.

Lemma Zdigits2_nonneg (m : Z) : 0 <= Zdigits2 m.
Proof. destruct m; cbn; lia. Qed.

Lemma Zdigits2_pos (m : Z) : 0 < m -> 0 < Zdigits2 m.
Proof. destruct m; cbn; lia. Qed.

Lemma Zdigits2_unique (m d : Z) :
  0 < m -> 2 ^ (d - 1) <= m < 2 ^ d -> Zdigits2 m = d.
Proof.
  intros Hm [Hlo Hhi].
  pose proof (Zdigits2_bounds m Hm) as [Hlo' Hhi'].
  pose proof (Zdigits2_pos m Hm) as HD.
  assert (0 < d).
  { destruct (Z_lt_ge_dec 0 d) as [|Hd]; [assumption|].
    destruct (Z.eq_dec d 0) as [->|]; [cbn in Hhi; lia|].
    rewrite Z.pow_neg_r in Hhi by lia. lia. }
  destruct (Z.lt_trichotomy (Zdigits2 m) d) as [Hlt | [Heq | Hgt]];
    [|exact Heq|].
  - assert (2 ^ Zdigits2 m <= 2 ^ (d - 1)) by (apply Z.pow_le_mono_r; lia).
    lia.
  - assert (2 ^ d <= 2 ^ (Zdigits2 m - 1)) by (apply Z.pow_le_mono_r; lia).
    lia.
Qed.

Lemma Zdigits2_shift (m d : Z) :
  0 < m -> 0 <= d -> Zdigits2 (m * 2 ^ d) = Zdigits2 m + d.
Proof.
  intros Hm Hd.
  pose proof (Zdigits2_bounds m Hm) as [Hlo Hhi].
  pose proof (Zdigits2_pos m Hm) as HD.
  assert (0 < 2 ^ d) as Hp by (apply Z.pow_pos_nonneg; lia).
  apply Zdigits2_unique; [nia|].
  replace (Zdigits2 m + d - 1) with ((Zdigits2 m - 1) + d) by lia.
  rewrite !Z.pow_add_r by lia. nia.
Qed.

End Digits.

(** ** Doubles: cutting a mantissa to the precision *)

Section Shifts.

Import F64.
Local Open Scope Z_scope.

Lemma shr_1_m (mrs : shr_record) :
  0 <= shr_m mrs -> shr_m (shr_1 mrs) = shr_m mrs / 2.
Proof.
  destruct mrs as [m r s]. cbn [shr_m]. intros Hm.
  rewrite <- Z.div2_div.
  destruct m as [|[p|p|]|p]; try lia; reflexivity.
Qed.

Lemma shr_1_inexact (mrs : shr_record) :
  0 <= shr_m mrs ->
  inexact (shr_1 mrs) = Z.odd (shr_m mrs) || inexact mrs.
Proof.
  destruct mrs as [m r s]. cbn [shr_m]. intros Hm.
  destruct m as [|[p|p|]|p]; try lia; reflexivity.
Qed.

Lemma iter_pos_nat {A : Type} (f : A -> A) (p : positive) (x : A) :
  iter_pos f p x = Nat.iter (Pos.to_nat p) f x.
Proof.
  revert x. induction p as [p IH | p IH |]; intros x; cbn [iter_pos].
  - rewrite !IH, Pos2Nat.inj_xI.
    replace (S (2 * Pos.to_nat p))%nat
      with (Pos.to_nat p + (Pos.to_nat p + 1))%nat by lia.
    rewrite !Nat.iter_add. reflexivity.
  - rewrite !IH, Pos2Nat.inj_xO.
    replace (2 * Pos.to_nat p)%nat
      with (Pos.to_nat p + Pos.to_nat p)%nat by lia.
    rewrite Nat.iter_add. reflexivity.
  - reflexivity.
Qed.

Lemma mod_pow2_succ (m k : Z) :
  0 <= m -> 0 <= k ->
  negb (m mod 2 ^ Z.succ k =? 0)
  = Z.odd (m / 2 ^ k) || negb (m mod 2 ^ k =? 0).
Proof.
  intros Hm Hk.
  assert (0 < 2 ^ k) as Hp by (apply Z.pow_pos_nonneg; lia).
  rewrite Z.pow_succ_r by exact Hk.
  rewrite (Z.mul_comm 2), Z.rem_mul_r by lia.
  pose proof (Z.mod_pos_bound m (2 ^ k) Hp) as Ha.
  pose proof (Zmod_odd (m / 2 ^ k)) as Hb.
  destruct (Z.odd (m / 2 ^ k)); rewrite Hb.
  - cbn [orb]. apply negb_true_iff, Z.eqb_neq. lia.
  - cbn [orb]. f_equal. f_equal. lia.
Qed.

Lemma iter_shr_1 (k : nat) (mrs : shr_record) :
  0 <= shr_m mrs ->
  shr_m (Nat.iter k shr_1 mrs) = shr_m mrs / 2 ^ Z.of_nat k /\
  inexact (Nat.iter k shr_1 mrs)
  = inexact mrs || negb (shr_m mrs mod 2 ^ Z.of_nat k =? 0).
Proof.
  intros Hm. induction k as [|k [IHm IHi]].
  - change (Nat.iter 0 shr_1 mrs) with mrs. cbn [Z.of_nat].
    rewrite Z.pow_0_r, Z.div_1_r, Z.mod_1_r.
    cbn. rewrite orb_false_r. auto.
  - rewrite Nat.iter_succ.
    assert (0 < 2 ^ Z.of_nat k) as Hp by (apply Z.pow_pos_nonneg; lia).
    assert (0 <= shr_m (Nat.iter k shr_1 mrs)) as Hk.
    { rewrite IHm. apply Z.div_pos; lia. }
    rewrite shr_1_m, shr_1_inexact by exact Hk.
    rewrite IHm, IHi, Nat2Z.inj_succ. split.
    + rewrite Z.pow_succ_r by lia.
      rewrite Z.div_div by lia. f_equal. lia.
    + rewrite mod_pow2_succ by lia.
      destruct (inexact mrs), (Z.odd (shr_m mrs / 2 ^ Z.of_nat k)),
        (shr_m mrs mod 2 ^ Z.of_nat k =? 0); reflexivity.
Qed.

Lemma shr_spec (mrs : shr_record) (e n : Z) :
  0 <= shr_m mrs ->
  snd (shr mrs e n) = e + Z.max 0 n /\
  shr_m (fst (shr mrs e n)) = shr_m mrs / 2 ^ Z.max 0 n /\
  inexact (fst (shr mrs e n))
  = inexact mrs || negb (shr_m mrs mod 2 ^ Z.max 0 n =? 0).
Proof.
  intros Hm. destruct n as [|p|p]; cbn [shr fst snd].
  - cbn [Z.max Z.compare]. rewrite Z.pow_0_r, Z.div_1_r, Z.mod_1_r.
    cbn. rewrite orb_false_r. repeat split; lia.
  - replace (Z.max 0 (Z.pos p)) with (Z.pos p) by lia.
    rewrite iter_pos_nat.
    destruct (iter_shr_1 (Pos.to_nat p) mrs Hm) as [H1 H2].
    rewrite positive_nat_Z in H1, H2. auto.
  - replace (Z.max 0 (Z.neg p)) with 0 by lia.
    rewrite Z.pow_0_r, Z.div_1_r, Z.mod_1_r.
    cbn. rewrite orb_false_r. repeat split; lia.
Qed.

Lemma shr_record_of_loc_m (m : Z) (l : location) :
  shr_m (shr_record_of_loc m l) = m.
Proof. destruct l as [|[]]; reflexivity. Qed.

Lemma shr_record_of_loc_inexact (m : Z) (l : location) :
  inexact (shr_record_of_loc m l) = negb (is_exact l).
Proof. destruct l as [|[]]; reflexivity. Qed.

Lemma round_nearest_even_cases (mrs : shr_record) :
  let m := round_nearest_even (shr_m mrs) (loc_of_shr_record mrs) in
  m = shr_m mrs \/ (m = shr_m mrs + 1 /\ inexact mrs = true).
Proof.
  destruct mrs as [m [] []]; cbn; auto.
  destruct (Z.even m); auto.
Qed.

(** What [binary_round_aux] computes: the mantissa is cut to the
    precision, possibly incremented (only when something was cut or the
    input was inexact), and cut once more after a carry. *)
Lemma binary_round_aux_spec (sx : bool) (mx ex : Z) (lx : location) :
  0 <= mx ->
  let n := Z.max 0 (fexp F64.prec F64.emax (Zdigits2 mx + ex) - ex) in
  let e1 := ex + n in
  exists m1 : Z,
    (m1 = mx / 2 ^ n \/
     (m1 = mx / 2 ^ n + 1 /\ (is_exact lx = false \/ mx mod 2 ^ n <> 0))) /\
    let n2 := Z.max 0 (fexp F64.prec F64.emax (Zdigits2 m1 + e1) - e1) in
    binary_round_aux F64.prec F64.emax sx mx ex lx
    = match m1 / 2 ^ n2 with
      | Z0 => S754_zero sx
      | Zpos m =>
          if e1 + n2 <=? F64.emax - F64.prec
          then S754_finite sx m (e1 + n2) else S754_infinity sx
      | Zneg _ => S754_nan
      end.
Proof.
  intros Hmx n e1. unfold binary_round_aux, shr_fexp.
  pose proof (shr_spec (shr_record_of_loc mx lx) ex
                (fexp F64.prec F64.emax (Zdigits2 mx + ex) - ex)) as H1.
  rewrite shr_record_of_loc_m, shr_record_of_loc_inexact in H1.
  specialize (H1 Hmx). fold n in H1.
  destruct (shr (shr_record_of_loc mx lx) ex
              (fexp F64.prec F64.emax (Zdigits2 mx + ex) - ex))
    as [mrs' e'] eqn:E1.
  cbn [fst snd] in H1. destruct H1 as (He' & Hm' & Hi'). fold e1 in He'.
  subst e'.
  set (m1 := round_nearest_even (shr_m mrs') (loc_of_shr_record mrs')).
  assert (0 < 2 ^ n) as Hp by (apply Z.pow_pos_nonneg; lia).
  assert (0 <= shr_m mrs') as Hm'0 by (rewrite Hm'; apply Z.div_pos; lia).
  assert (0 <= m1) as Hm1.
  { destruct (round_nearest_even_cases mrs') as [H | [H _]];
      fold m1 in H; lia. }
  exists m1. split.
  - destruct (round_nearest_even_cases mrs') as [H | [H Hin]]; fold m1 in H.
    + left. lia.
    + right. split; [lia|]. rewrite Hi' in Hin.
      destruct (is_exact lx); [right | left; reflexivity].
      cbn in Hin. apply negb_true_iff, Z.eqb_neq in Hin. exact Hin.
  - cbn zeta.
    pose proof (shr_spec (shr_record_of_loc m1 loc_Exact) e1
                  (fexp F64.prec F64.emax (Zdigits2 m1 + e1) - e1)) as H2.
    rewrite shr_record_of_loc_m in H2. specialize (H2 Hm1).
    destruct (shr (shr_record_of_loc m1 loc_Exact) e1
                (fexp F64.prec F64.emax (Zdigits2 m1 + e1) - e1))
      as [mrs'' e''] eqn:E2.
    cbn [fst snd] in H2. destruct H2 as (He'' & Hm'' & _).
    rewrite Hm'', He''. reflexivity.
Qed.

End Shifts.

(** ** Doubles: rounding to nearest keeps the bounds of its grid *)

Section Rounding.

Import F64.
Local Open Scope Q_scope.

Lemma val_floor (m n e : Z) :
  (0 <= m)%Z -> (0 <= n)%Z -> val (m / 2 ^ n) (e + n) <= val m e.
Proof.
  intros Hm Hn.
  assert (0 < 2 ^ n)%Z as Hp by (apply Z.pow_pos_nonneg; lia).
  rewrite <- (val_shift (m / 2 ^ n) (e + n) n) by exact Hn.
  replace (e + n - n)%Z with e by lia.
  apply val_mono. pose proof (Z.mul_div_le m (2 ^ n) Hp). lia.
Qed.

Lemma val_floor_lt (m n e : Z) :
  (0 <= m)%Z -> (0 <= n)%Z -> (m mod 2 ^ n <> 0)%Z ->
  val (m / 2 ^ n) (e + n) < val m e.
Proof.
  intros Hm Hn Hr.
  assert (0 < 2 ^ n)%Z as Hp by (apply Z.pow_pos_nonneg; lia).
  rewrite <- (val_shift (m / 2 ^ n) (e + n) n) by exact Hn.
  replace (e + n - n)%Z with e by lia.
  apply val_lt.
  pose proof (Z.div_mod m (2 ^ n) ltac:(lia)).
  pose proof (Z.mod_pos_bound m (2 ^ n) Hp). lia.
Qed.

Lemma val_ge_pow2 (m e : Z) : (1 <= m)%Z -> pow2 e <= val m e.
Proof. intros H. rewrite <- val_pow2. apply val_mono, H. Qed.

(** Rounding never passes a number of the grid it rounds to: a bound
    [k * 2^ev] whose exponent is not below the exponent of the result
    stays a bound. *)
Lemma binary_round_aux_upper (sx : bool) (mx ex : Z) (lx : location)
    (X : Q) (k ev : Z) :
  (0 <= mx)%Z ->
  val mx ex <= X ->
  (is_exact lx = false -> val mx ex < X) ->
  X <= val k ev ->
  (ex + Z.max 0 (fexp prec emax (Zdigits2 mx + ex) - ex) <= ev)%Z ->
  val k ev <= pow2 (emax - prec) ->
  binary_round_aux prec emax sx mx ex lx = S754_zero sx \/
  exists m e,
    binary_round_aux prec emax sx mx ex lx = S754_finite sx m e /\
    val (Zpos m) e <= val k ev.
Proof.
  intros Hmx Hle Hlt HX Hgrid Hmax.
  destruct (binary_round_aux_spec sx mx ex lx Hmx) as (m1 & Hm1 & Hres).
  cbn zeta in Hres.
  set (n := Z.max 0 (fexp prec emax (Zdigits2 mx + ex) - ex)) in *.
  set (e1 := (ex + n)%Z) in *.
  set (n2 := Z.max 0 (fexp prec emax (Zdigits2 m1 + e1) - e1)) in *.
  assert (0 <= n)%Z as Hn by (unfold n; lia).
  assert (0 <= n2)%Z as Hn2 by (unfold n2; lia).
  assert (0 < 2 ^ n)%Z as Hp by (apply Z.pow_pos_nonneg; lia).
  assert (0 < 2 ^ n2)%Z as Hp2 by (apply Z.pow_pos_nonneg; lia).
  assert (0 <= mx / 2 ^ n)%Z as Hq by (apply Z.div_pos; lia).
  assert (0 <= m1)%Z as Hm10 by (destruct Hm1 as [-> | [-> _]]; lia).
  assert (val m1 e1 <= val k ev) as Hb.
  { pose proof (val_floor mx n ex Hmx Hn) as Hfl. fold e1 in Hfl.
    destruct Hm1 as [-> | [-> Hin]]; [lra|].
    assert (val (mx / 2 ^ n) e1 < X) as Hstrict.
    { destruct Hin as [Hin | Hin].
      - specialize (Hlt Hin). lra.
      - pose proof (val_floor_lt mx n ex Hmx Hn Hin) as Hl.
        fold e1 in Hl. lra. }
    rewrite <- (val_shift k ev (ev - e1)) by lia.
    replace (ev - (ev - e1))%Z with e1 by lia.
    apply val_mono.
    assert (val (mx / 2 ^ n) e1 < val (k * 2 ^ (ev - e1)) e1) as Hv.
    { rewrite <- (val_shift k ev (ev - e1)) in HX by lia.
      replace (ev - (ev - e1))%Z with e1 in HX by lia. lra. }
    apply val_lt in Hv. lia. }
  assert (val (m1 / 2 ^ n2) (e1 + n2) <= val k ev) as Hb2.
  { pose proof (val_floor m1 n2 e1 Hm10 Hn2). lra. }
  assert (0 <= m1 / 2 ^ n2)%Z as Hq2 by (apply Z.div_pos; lia).
  rewrite Hres.
  destruct (m1 / 2 ^ n2)%Z as [|m|m] eqn:Em; [left; reflexivity| |lia].
  right. exists m, (e1 + n2)%Z. split; [|exact Hb2].
  assert (pow2 (e1 + n2) <= pow2 (emax - prec)) as Hpw.
  { pose proof (val_ge_pow2 (Zpos m) (e1 + n2) ltac:(lia)). lra. }
  apply pow2_le_inv in Hpw.
  rewrite (proj2 (Z.leb_le _ _) Hpw). reflexivity.
Qed.

Lemma pos_iter_xO (m d : positive) :
  Zpos (Pos.iter xO m d) = (Zpos m * 2 ^ Zpos d)%Z.
Proof.
  induction d as [|d IH] using Pos.peano_ind.
  - cbn [Pos.iter]. rewrite (Pos2Z.inj_xO m). lia.
  - rewrite Pos.iter_succ, (Pos2Z.inj_xO (Pos.iter xO m d)), IH.
    rewrite Pos2Z.inj_succ, Z.pow_succ_r by lia. lia.
Qed.

Lemma shl_align_spec (mx : positive) (ex ex' : Z) :
  snd (shl_align mx ex ex') = Z.min ex ex' /\
  Zpos (fst (shl_align mx ex ex'))
  = (Zpos mx * 2 ^ (ex - Z.min ex ex'))%Z.
Proof.
  unfold shl_align. destruct (ex' - ex)%Z as [|d|d] eqn:E; cbn [fst snd].
  - replace (Z.min ex ex') with ex by lia.
    rewrite Z.sub_diag, Z.pow_0_r. lia.
  - replace (Z.min ex ex') with ex by lia.
    rewrite Z.sub_diag, Z.pow_0_r. lia.
  - replace (Z.min ex ex') with ex' by lia.
    rewrite pos_iter_xO. split; [reflexivity|]. f_equal. f_equal. lia.
Qed.

(** [binary_round] first aligns the mantissa on the exponent of the
    result, so that [binary_round_aux] cuts it at that exponent. *)
Lemma binary_round_aligned (sx : bool) (mx : positive) (ex : Z) :
  let E := fexp prec emax (Zpos (digits2_pos mx) + ex) in
  exists (mz : positive) (ez : Z),
    binary_round prec emax sx mx ex
    = binary_round_aux prec emax sx (Zpos mz) ez loc_Exact /\
    (ez <= E)%Z /\ (ez <= ex)%Z /\
    Zpos mz = (Zpos mx * 2 ^ (ex - ez))%Z /\
    (Zdigits2 (Zpos mz) + ez = Zpos (digits2_pos mx) + ex)%Z /\
    val (Zpos mz) ez == val (Zpos mx) ex.
Proof.
  intros E. unfold binary_round. fold E.
  destruct (shl_align_spec mx ex E) as [He Hm].
  destruct (shl_align mx ex E) as [mz ez]. cbn [fst snd] in He, Hm.
  exists mz, ez. split; [reflexivity|].
  split; [lia|]. split; [lia|]. subst ez. split; [exact Hm|]. split.
  - rewrite Hm, Zdigits2_shift by lia. cbn [Zdigits2]. lia.
  - rewrite Hm.
    rewrite <- (val_shift (Zpos mx) ex (ex - Z.min ex E)) by lia.
    replace (ex - (ex - Z.min ex E))%Z with (Z.min ex E) by lia.
    reflexivity.
Qed.

Lemma binary_round_upper (sx : bool) (mx : positive) (ex k ev : Z) :
  val (Zpos mx) ex <= val k ev ->
  (fexp prec emax (Zpos (digits2_pos mx) + ex) <= ev)%Z ->
  val k ev <= pow2 (emax - prec) ->
  binary_round prec emax sx mx ex = S754_zero sx \/
  exists m e,
    binary_round prec emax sx mx ex = S754_finite sx m e /\
    val (Zpos m) e <= val k ev.
Proof.
  intros HX Hgrid Hmax.
  destruct (binary_round_aligned sx mx ex)
    as (mz & ez & -> & HE & Hex & Hmz & Hd & Hv).
  apply (binary_round_aux_upper sx (Zpos mz) ez loc_Exact
           (val (Zpos mx) ex) k ev).
  - lia.
  - rewrite Hv. apply Qle_refl.
  - discriminate.
  - exact HX.
  - rewrite Hd. lia.
  - exact Hmax.
Qed.

(** Rounding a number that is at least [2^k] gives at least [2^k], as
    long as [2^k] is not below the smallest positive double. *)
Lemma binary_round_lower (sx : bool) (mx : positive) (ex k : Z) :
  (emin prec emax <= k)%Z ->
  pow2 k <= val (Zpos mx) ex ->
  binary_round prec emax sx mx ex = S754_infinity sx \/
  exists m e,
    binary_round prec emax sx mx ex = S754_finite sx m e /\
    pow2 k <= val (Zpos m) e.
Proof.
  intros Hk HX.
  destruct (binary_round_aligned sx mx ex)
    as (mz & ez & -> & HE & Hex & Hmz & Hd & Hv).
  cbn zeta in HE.
  set (E := fexp prec emax (Zpos (digits2_pos mx) + ex)) in *.
  destruct (binary_round_aux_spec sx (Zpos mz) ez loc_Exact ltac:(lia))
    as (m1 & Hm1 & Hres).
  cbn zeta in Hres. rewrite Hd in Hres, Hm1. fold E in Hres, Hm1.
  replace (ez + Z.max 0 (E - ez))%Z with E in Hres by lia.
  set (n := Z.max 0 (E - ez)) in *.
  set (n2 := Z.max 0 (fexp prec emax (Zdigits2 m1 + E) - E)) in *.
  assert (0 <= n)%Z as Hn by (unfold n; lia).
  assert (0 <= n2)%Z as Hn2 by (unfold n2; lia).
  assert (0 < 2 ^ n)%Z as Hp by (apply Z.pow_pos_nonneg; lia).
  assert (0 < 2 ^ n2)%Z as Hp2 by (apply Z.pow_pos_nonneg; lia).
  assert (emin prec emax <= E)%Z as HEmin by (unfold E, fexp; lia).
  rewrite <- Hv in HX.
  (* the mantissa cut at the exponent E *)
  assert ((1 <= Zpos mz / 2 ^ n)%Z /\ pow2 k <= val (Zpos mz / 2 ^ n) E)
    as [Hq1 Hqk].
  { destruct (Z_le_gt_dec E k) as [HkE | HkE].
    - assert (2 ^ (k - E) <= Zpos mz / 2 ^ n)%Z as Hge.
      { apply Z.div_le_lower_bound; [lia|].
        rewrite <- val_pow2 in HX.
        rewrite <- (val_shift 1 k (k - ez)) in HX by lia.
        replace (k - (k - ez))%Z with ez in HX by lia.
        apply val_le in HX.
        replace (k - ez)%Z with (n + (k - E))%Z in HX by lia.
        rewrite Z.pow_add_r in HX by lia. lia. }
      assert (0 < 2 ^ (k - E))%Z by (apply Z.pow_pos_nonneg; lia).
      split; [lia|].
      rewrite <- val_pow2, <- (val_shift 1 k (k - E)) by lia.
      replace (k - (k - E))%Z with E by lia.
      apply val_mono. lia.
    - assert (1 <= Zpos mz / 2 ^ n)%Z as Hge.
      { apply Z.div_le_lower_bound; [lia|].
        pose proof (Zdigits2_bounds (Zpos mz) ltac:(lia)) as [Hlo _].
        assert (2 ^ n <= 2 ^ (Zdigits2 (Zpos mz) - 1))%Z.
        { apply Z.pow_le_mono_r; [lia|].
          unfold n, E, fexp, emin, prec, emax in *. lia. }
        lia. }
      split; [exact Hge|].
      pose proof (val_ge_pow2 _ E Hge). pose proof (pow2_le k E ltac:(lia)).
      lra. }
  assert ((1 <= m1)%Z /\ pow2 k <= val m1 E) as [Hm11 Hm1k].
  { destruct Hm1 as [-> | [-> _]]; [auto|]. split; [lia|].
    pose proof (val_mono (Zpos mz / 2 ^ n) (Zpos mz / 2 ^ n + 1) E
                  ltac:(lia)). lra. }
  (* the second cut, after a carry *)
  assert ((1 <= m1 / 2 ^ n2)%Z /\ pow2 k <= val (m1 / 2 ^ n2) (E + n2))
    as [Hr1 Hrk].
  { assert (1 <= m1 / 2 ^ n2)%Z as Hge.
    { apply Z.div_le_lower_bound; [lia|].
      pose proof (Zdigits2_bounds m1 ltac:(lia)) as [Hlo _].
      pose proof (Zdigits2_pos m1 ltac:(lia)).
      assert (2 ^ n2 <= 2 ^ (Zdigits2 m1 - 1))%Z.
      { apply Z.pow_le_mono_r; [lia|].
        unfold n2, fexp, emin, prec, emax in *. lia. }
      lia. }
    split; [exact Hge|].
    destruct (Z_le_gt_dec (E + n2) k) as [Hk2 | Hk2].
    - assert (2 ^ (k - E - n2) <= m1 / 2 ^ n2)%Z as Hge2.
      { apply Z.div_le_lower_bound; [lia|].
        rewrite <- val_pow2 in Hm1k.
        rewrite <- (val_shift 1 k (k - E)) in Hm1k by lia.
        replace (k - (k - E))%Z with E in Hm1k by lia.
        apply val_le in Hm1k.
        replace (k - E)%Z with (n2 + (k - E - n2))%Z in Hm1k by lia.
        rewrite Z.pow_add_r in Hm1k by lia. lia. }
      rewrite <- val_pow2, <- (val_shift 1 k (k - E - n2)) by lia.
      replace (k - (k - E - n2))%Z with (E + n2)%Z by lia.
      apply val_mono. lia.
    - pose proof (val_ge_pow2 _ (E + n2) Hge).
      pose proof (pow2_le k (E + n2) ltac:(lia)). lra. }
  rewrite Hres.
  destruct (m1 / 2 ^ n2)%Z as [|m|m] eqn:Em; try lia.
  destruct (E + n2 <=? emax - prec)%Z; [right | left; reflexivity].
  exists m, (E + n2)%Z. split; [reflexivity | exact Hrk].
Qed.

End Rounding.

(** ** Doubles: the sign of a rounded result *)

Section Signs.

Import F64 Spec64.

Lemma binary_round_aux_sign (sx : bool) (mx ex : Z) (lx : location) :
  match binary_round_aux prec emax sx mx ex lx with
  | S754_zero s | S754_infinity s | S754_finite s _ _ => s = sx
  | S754_nan => True
  end.
Proof.
  unfold binary_round_aux.
  destruct (shr_fexp prec emax mx ex lx) as [mrs' e'].
  destruct (shr_fexp prec emax _ e' loc_Exact) as [mrs'' e''].
  destruct (shr_m mrs''); [reflexivity | | exact I].
  destruct (e'' <=? emax - prec)%Z; reflexivity.
Qed.

Lemma binary_round_sign (sx : bool) (mx : positive) (ex : Z) :
  match binary_round prec emax sx mx ex with
  | S754_zero s | S754_infinity s | S754_finite s _ _ => s = sx
  | S754_nan => True
  end.
Proof.
  unfold binary_round. destruct (shl_align mx ex _) as [mz ez].
  apply binary_round_aux_sign.
Qed.


Lemma binary_round_not_negative (mx : positive) (ex : Z) :
  not_negative (binary_round prec emax false mx ex) = true.
Proof.
  pose proof (binary_round_sign false mx ex) as H.
  destruct (binary_round prec emax false mx ex); subst; reflexivity.
Qed.





End Signs.

(** ** Doubles: sums, differences and quotients *)

Section Operations.

Import F64 Spec64.
Local Open Scope Q_scope.

Lemma aligned_val (mx : positive) (ex ez : Z) :
  (ez <= ex)%Z ->
  val (Zpos (fst (shl_align mx ex ez))) ez == val (Zpos mx) ex.
Proof.
  intros H. destruct (shl_align_spec mx ex ez) as [_ ->].
  replace (Z.min ex ez) with ez by lia.
  rewrite <- (val_shift (Zpos mx) ex (ex - ez)) by lia.
  replace (ex - (ex - ez))%Z with ez by lia. reflexivity.
Qed.


Lemma val_minus (a b e : Z) : val (a - b) e == val a e - val b e.
Proof.
  unfold val, Z.sub. rewrite inject_Z_plus, inject_Z_opp. ring.
Qed.















End Operations.

(** ** The last operations of the momentum score *)

Section Score.

Import F64 Spec64.
Local Open Scope Q_scope.







End Score.

(** ** The smoothed averages of the momentum oscillator *)

Section Averages64.

Import F64 Spec64 RSIIndicator64.

Local Abbreviation nn := (fun x : float => not_negative x = true).

(** What holds of [+0.0], and of a sum when it holds of its two terms,
    holds of the sum and of the mean of an array, in whatever order
    NumPy adds the elements. *)
Section Closure.

Variable P : float -> Prop.
Hypothesis P_zero : P zero.
Hypothesis P_add : forall x y, P x -> P y -> P (add x y).

Lemma sum_seq_closed (a : list float) (res : float) :
  P res -> Forall P a -> P (Np64.sum_seq res a).
Proof.
  intros Hres Ha. revert res Hres. unfold Np64.sum_seq.
  induction Ha as [|x a Hx _ IH]; intros res Hres; cbn [fold_left].
  - exact Hres.
  - apply IH, P_add; assumption.
Qed.

Lemma zip_with_add_closed (r a : list float) :
  Forall P r -> Forall P a -> Forall P (zip_with add r a).
Proof.
  intros Hr. revert a. induction Hr as [|x r Hx _ IH]; intros a Ha.
  - constructor.
  - destruct Ha as [|y a Hy Ha]; cbn [zip_with]; constructor.
    + apply P_add; assumption.
    + apply IH, Ha.
Qed.

Lemma add_blocks_closed (k : nat) (r a : list float) :
  Forall P r -> Forall P a ->
  Forall P (fst (Np64.add_blocks k r a)) /\
  Forall P (snd (Np64.add_blocks k r a)).
Proof.
  revert r a. induction k as [|k IH]; intros r a Hr Ha; cbn [Np64.add_blocks].
  - split; assumption.
  - apply IH.
    + apply zip_with_add_closed; [exact Hr | apply Forall_take, Ha].
    + apply Forall_drop, Ha.
Qed.

Lemma sum_block_closed (a : list float) :
  Forall P a -> P (Np64.sum_block a).
Proof.
  intros Ha. unfold Np64.sum_block.
  destruct (add_blocks_closed (length a / 8 - 1)
              (take 8 a) (drop 8 a)) as [Hr Hrest].
  { apply Forall_take, Ha. }
  { apply Forall_drop, Ha. }
  destruct (Np64.add_blocks _ _ _) as [r rest]. cbn [fst snd] in Hr, Hrest.
  destruct r as [|r0 [|r1 [|r2 [|r3 [|r4 [|r5 [|r6 [|r7 [|r8 r]]]]]]]]];
    try exact P_zero.
  repeat match goal with
         | H : Forall _ (_ :: _) |- _ =>
             pose proof (Forall_inv H); apply Forall_inv_tail in H
         end.
  apply sum_seq_closed; [|exact Hrest].
  repeat apply P_add; assumption.
Qed.

Lemma pairwise_sum_closed (fuel : nat) (a : list float) :
  Forall P a -> P (Np64.pairwise_sum fuel a).
Proof.
  revert a. induction fuel as [|fuel IH]; intros a Ha;
    cbn [Np64.pairwise_sum];
    destruct (length a <? 8)%nat;
    try (apply sum_seq_closed; [exact P_zero | exact Ha]);
    destruct (length a <=? 128)%nat;
    try (apply sum_block_closed, Ha).
  - exact P_zero.
  - apply P_add; apply IH;
      [apply Forall_take, Ha | apply Forall_drop, Ha].
Qed.

Lemma sum_closed (a : list float) : Forall P a -> P (Np64.sum a).
Proof. apply pairwise_sum_closed. Qed.

End Closure.







Lemma length_diff64 (a : list float) :
  length (Np64.diff a) = (length a - 1)%nat.
Proof.
  unfold Np64.diff. rewrite length_zip_with.
  destruct a as [|x a]; cbn [tail length]; [reflexivity|].
  rewrite Nat.min_r by lia. lia.
Qed.



End Averages64.

(** ** The recursion of the pairwise summation *)

Section Fuel.

Import F64.

(** The recursion of the pairwise summation halves the array: a fuel
    equal to the length is never used up. *)
Lemma pairwise_sum_fuel (fuel fuel' : nat) (a : list float) :
  (length a <= fuel)%nat -> (length a <= fuel')%nat ->
  Np64.pairwise_sum fuel a = Np64.pairwise_sum fuel' a.
Proof.
  revert fuel' a. induction fuel as [|fuel IH]; intros fuel' a Hf Hf'.
  - destruct a; [|cbn in Hf; lia]. destruct fuel'; reflexivity.
  - destruct fuel' as [|fuel'].
    + destruct a; [|cbn in Hf'; lia]. reflexivity.
    + cbn [Np64.pairwise_sum].
      destruct (length a <? 8)%nat; [reflexivity|].
      destruct (length a <=? 128)%nat eqn:E; [reflexivity|].
      apply Nat.leb_gt in E.
      set (n2 := (length a / 2 - (length a / 2) mod 8)%nat).
      assert (1 <= n2 < length a)%nat as Hn2.
      { unfold n2.
        pose proof (Nat.mod_upper_bound (length a / 2) 8 ltac:(lia)).
        pose proof (Nat.div_lt (length a) 2 ltac:(lia) ltac:(lia)).
        assert (64 <= length a / 2)%nat
          by (apply Nat.div_le_lower_bound; lia).
        lia. }
      f_equal; apply IH; rewrite ?length_take, ?length_drop; lia.
Qed.

End Fuel.

(** ** The momentum oscillator *)

Section Momentum64.

Import F64 Spec64 RSIIndicator64.




End Momentum64.

(** ** Unknown results of the two oscillators *)

Lemma ema_of_empty (period : nat) :
  MACDIndicator._calculate_ema_array [] period
  = if (0 <? period)%nat then None else Some [].
Proof. destruct period; reflexivity. Qed.

(** C5: an input that is not a list, is empty, or is shorter than the
    window of the indicator (fewer than period changes for the momentum
    oscillator, fewer than slow + signal samples for the convergence
    oscillator) yields the unknown result: [None], and the triple of
    three [None]. Both functions are total, so nothing is raised. *)
Theorem unknown_on_short_input (period fast slow signal : nat) (prices : arg) :
  (rsi_unknown_input period prices ->
   RSIIndicator.calculate period prices = None) /\
  (macd_unknown_input slow signal prices ->
   MACDIndicator.calculate fast slow signal prices = (None, None, None)).
Proof.
  split.
  - (* the momentum oscillator *)
    intros [ | | l Hshort]; try reflexivity.
    unfold RSIIndicator.calculate.
    destruct (length l =? 0)%nat; [reflexivity|].
    destruct (length l <? period)%nat; [reflexivity|].
    rewrite (proj2 (Nat.ltb_lt _ _)) by exact Hshort. reflexivity.
  - (* the convergence oscillator *)
    intros [ | | l Hshort]; try reflexivity.
    + (* the empty list passes the guard only when slow + signal = 0 *)
      unfold MACDIndicator.calculate.
      destruct (length [] <? slow + signal)%nat eqn:Hguard; [reflexivity|].
      apply Nat.ltb_ge in Hguard. simpl in Hguard.
      assert (slow = 0%nat) as -> by lia.
      assert (signal = 0%nat) as -> by lia.
      rewrite !ema_of_empty.
      destruct (0 <? fast)%nat; reflexivity.
    + unfold MACDIndicator.calculate.
      rewrite (proj2 (Nat.ltb_lt _ _)) by exact Hshort. reflexivity.
Qed.

(** Five prices against the windows 14 and 26 + 9, as in the test suite;
    no list at all; the empty list. *)
Lemma unknown_on_short_input_witness :
  (RSIIndicator.calculate 14 (FloatList [100; 102; 104; 103; 105]%Q) = None /\
   MACDIndicator.calculate 12 26 9 (FloatList [100; 102; 104; 103; 105]%Q)
   = (None, None, None)) /\
  (RSIIndicator.calculate 14 NotAList = None /\
   MACDIndicator.calculate 12 26 9 NotAList = (None, None, None)) /\
  (RSIIndicator.calculate 14 (FloatList []) = None /\
   MACDIndicator.calculate 12 26 9 (FloatList []) = (None, None, None)).
Proof.
  refine (conj (conj _ _) (conj (conj _ _) (conj _ _))).
  - apply (unknown_on_short_input 14 12 26 9).
    apply rsi_short. vm_compute. lia.
  - apply (unknown_on_short_input 14 12 26 9).
    apply macd_short. vm_compute. lia.
  - apply (unknown_on_short_input 14 12 26 9). apply rsi_not_a_list.
  - apply (unknown_on_short_input 14 12 26 9). apply macd_not_a_list.
  - apply (unknown_on_short_input 14 12 26 9). apply rsi_empty.
  - apply (unknown_on_short_input 14 12 26 9). apply macd_empty.
Defined.

(** ** The convergence oscillator on enough samples *)







(** C7: the triple returned by the convergence oscillator holds three
    numbers or three [None], never one or two numbers. *)
Theorem macd_all_or_nothing (fast slow signal : nat) (prices : arg) :
  let r := MACDIndicator.calculate fast slow signal prices in
  (exists line sig hist, r = (Some line, Some sig, Some hist)) \/
  r = (None, None, None).
Proof.
  unfold MACDIndicator.calculate.
  destruct prices as [|l]; [right; reflexivity|].
  destruct (length l <? slow + signal)%nat; [right; reflexivity|].
  destruct (MACDIndicator._calculate_ema_array l fast) as [fast_ema|];
    [|right; reflexivity].
  destruct (MACDIndicator._calculate_ema_array l slow) as [slow_ema|];
    [|right; reflexivity].
  destruct (MACDIndicator._calculate_ema_array
              (zip_with Qminus fast_ema slow_ema) signal) as [signal_line|];
    [|right; reflexivity].
  destruct (Np.item (zip_with Qminus fast_ema slow_ema) (-1)) as [m|];
    [|right; reflexivity].
  destruct (Np.item signal_line (-1)) as [s|]; [|right; reflexivity].
  left. exists m, s, (m - s)%Q. reflexivity.
Qed.

(** Both outcomes occur: a full triple on six prices with the periods
    2, 3 and 2, the unknown triple on two prices. *)
Example macd_outcomes :
  (exists line sig hist,
     MACDIndicator.calculate 2 3 2 (FloatList [1; 2; 3; 2; 5; 4]%Q)
     = (Some line, Some sig, Some hist) /\
     (hist == line - sig)%Q) /\
  MACDIndicator.calculate 2 3 2 (FloatList [1; 2]%Q) = (None, None, None).
Proof.
  split; [|vm_compute; reflexivity].
  destruct (MACDIndicator.calculate 2 3 2 (FloatList [1; 2; 3; 2; 5; 4]%Q))
    as [[[line|] [sig|]] [hist|]] eqn:E; vm_compute in E; try discriminate E.
  exists line, sig, hist. split; [reflexivity|].
  injection E as <- <- <-. vm_compute. reflexivity.
Qed.

(** ** The volume analyzer *)

(** C6: when the prices or the volumes are missing or not a list, when
    their lengths differ, or when there are fewer than two samples, the
    volume analysis is the fixed default record: average volume 0,
    neutral trend, correlation 0, no unusual volume, normal volume
    signal. The function is total, so nothing is raised. *)
Theorem volume_default_result
    (np_std : list Q -> Q) (np_corrcoef : list Q -> list Q -> option Q)
    (np_polyfit_slope : list Q -> list Q -> Q) (prices volumes : arg) :
  volume_default_input prices volumes ->
  VolumeAnalyzer.analyze_volume np_std np_corrcoef np_polyfit_slope
    prices volumes
  = {| VolumeAnalyzer.average_volume := 0;
       VolumeAnalyzer.volume_trend := "neutral";
       VolumeAnalyzer.price_volume_correlation := 0;
       VolumeAnalyzer.unusual_volume := false;
       VolumeAnalyzer.volume_signal := "normal_volume" |}.
Proof.
  intros [v | p | p v Hne | p v Hshort];
    unfold VolumeAnalyzer.analyze_volume.
  - reflexivity.
  - destruct p; reflexivity.
  - rewrite (proj2 (Nat.eqb_neq _ _)) by exact Hne. reflexivity.
  - destruct (negb (length p =? length v)%nat); [reflexivity|].
    rewrite (proj2 (Nat.ltb_lt _ _)) by exact Hshort. reflexivity.
Qed.

(** The inputs of the test suite: two empty lists, one sample each, and
    no lists at all; then lists of different lengths. *)
Lemma volume_default_result_witness :
  let analyze :=
    VolumeAnalyzer.analyze_volume
      (fun _ => 1%Q) (fun _ _ => Some 1%Q) (fun _ _ => 1%Q) in
  analyze (FloatList []) (FloatList []) = VolumeAnalyzer._get_empty_result /\
  analyze (FloatList [100%Q]) (FloatList [1000%Q])
  = VolumeAnalyzer._get_empty_result /\
  analyze NotAList NotAList = VolumeAnalyzer._get_empty_result /\
  analyze (FloatList [100; 101; 102]%Q) (FloatList [1000; 1100]%Q)
  = VolumeAnalyzer._get_empty_result.
Proof.
  intros analyze. refine (conj _ (conj _ (conj _ _))); unfold analyze.
  - apply volume_default_result. apply vol_short. simpl. lia.
  - apply volume_default_result. apply vol_short. simpl. lia.
  - apply volume_default_result. apply vol_prices_missing.
  - apply volume_default_result. apply vol_mismatch. simpl. lia.
Defined.

(** * Further properties of the engine *)

(** ** Reading the two oscillators *)

Lemma Qltb_false (a b : Q) : Qltb a b = false -> (b <= a)%Q.
Proof.
  unfold Qltb. destruct (a ?= b)%Q eqn:E; try discriminate; intros _.
  - apply Qeq_alt in E. rewrite E. apply Qle_refl.
  - apply Qgt_alt in E. apply Qlt_le_weak. exact E.
Qed.

Lemma Qltb_lt (a b : Q) : (a < b)%Q -> Qltb a b = true.
Proof.
  intros H. unfold Qltb. destruct (a ?= b)%Q eqn:E; [|reflexivity|].
  - apply Qeq_alt in E. lra.
  - apply Qgt_alt in E. lra.
Qed.

Lemma Qltb_ge (a b : Q) : (b <= a)%Q -> Qltb a b = false.
Proof.
  intros H. destruct (Qltb a b) eqn:E; [|reflexivity].
  apply Qltb_true in E. lra.
Qed.

(** Case analysis on a boolean comparison, with the order fact in the
    context. *)
Ltac case_Qltb a b :=
  let E := fresh "E" in
  destruct (Qltb a b) eqn:E;
  [apply Qltb_true in E | apply Qltb_false in E].

Section Readings.

Local Open Scope Q_scope.

(** The signal and the strength read from one momentum score go
    together: an overbought or oversold score is never weak, a neutral
    score is never strong, and an unknown score is neutral and weak. *)
Theorem rsi_signal_and_strength (rsi : option Q) :
  let signal := RSIIndicator.get_signal rsi in
  let strength := RSIIndicator.get_trend_strength rsi in
  (signal = "overbought" /\ (strength = "moderate" \/ strength = "strong")) \/
  (signal = "oversold" /\ (strength = "moderate" \/ strength = "strong")) \/
  (signal = "neutral" /\ (strength = "weak" \/ strength = "moderate")).
Proof.
  destruct rsi as [r|]; simpl; [|auto].
  case_Qltb 70 r.
  - left. split; [reflexivity|].
    case_Qltb 80 r; simpl; [auto|].
    case_Qltb r 20; simpl; [auto|].
    rewrite (Qltb_lt 60 r) by lra. auto.
  - case_Qltb r 30.
    + right. left. split; [reflexivity|].
      rewrite (Qltb_ge 80 r) by lra. simpl.
      case_Qltb r 20; simpl; [auto|].
      rewrite (Qltb_lt r 40) by lra. rewrite orb_true_r. auto.
    + right. right. split; [reflexivity|].
      rewrite (Qltb_ge 80 r), (Qltb_ge r 20) by lra. simpl.
      destruct (Qltb 60 r || Qltb r 40); auto.
Qed.

(** The label read from a MACD triple whose histogram is the difference
    of the line and the signal depends on the two lines only: a buy label
    when the line is above the signal, a sell label when it is below,
    strong when the line has the matching sign, and neutral exactly when
    the two lines are equal. *)
Theorem macd_signal_of_difference (line signal hist : Q) :
  hist == line - signal ->
  MACDIndicator.get_signal (Some line) (Some signal) (Some hist)
  = if Qltb signal line then
      if Qltb 0 line then "strong_buy" else "buy"
    else if Qltb line signal then
      if Qltb line 0 then "strong_sell" else "sell"
    else "neutral".
Proof.
  intros Hh. unfold MACDIndicator.get_signal.
  case_Qltb signal line.
  - rewrite (Qltb_lt 0 hist) by lra.
    rewrite (Qltb_ge line signal) by lra. simpl.
    destruct (Qltb 0 line); reflexivity.
  - simpl. case_Qltb line signal.
    + rewrite (Qltb_lt hist 0) by lra. simpl.
      destruct (Qltb line 0); reflexivity.
    + reflexivity.
Qed.

(** The triple (-0.4, -0.1, -0.3): below the signal and negative. *)
Lemma macd_signal_of_difference_witness :
  MACDIndicator.get_signal (Some (-0.4)) (Some (-0.1)) (Some (-0.3))
  = "strong_sell".
Proof.
  rewrite (macd_signal_of_difference (-0.4) (-0.1) (-0.3)).
  - reflexivity.
  - reflexivity.
Defined.

(** The two divergence checks agree on lists of equal length; the check
    of the momentum oscillator answers no when the lengths differ. *)
Theorem divergence_checks_agree (prices values : list Q) :
  (length prices = length values ->
   RSIIndicator.is_divergence prices values
   = MACDIndicator.is_divergence prices values) /\
  (length prices <> length values ->
   RSIIndicator.is_divergence prices values = false).
Proof.
  split.
  - intros Hlen.
    unfold RSIIndicator.is_divergence, MACDIndicator.is_divergence.
    rewrite <- Hlen, Nat.eqb_refl. simpl.
    destruct prices as [|p0 [|p1 prices]].
    + reflexivity.
    + reflexivity.
    + rewrite orb_false_r. reflexivity.
  - intros Hlen. unfold RSIIndicator.is_divergence.
    rewrite (proj2 (Nat.eqb_neq _ _) Hlen). simpl.
    rewrite !orb_true_r. reflexivity.
Qed.

(** Falling prices against rising values; then lists of lengths 3 and 2. *)
Lemma divergence_checks_agree_witness :
  (RSIIndicator.is_divergence [10; 12; 11] [40; 45; 50]
   = MACDIndicator.is_divergence [10; 12; 11] [40; 45; 50]) /\
  RSIIndicator.is_divergence [10; 12; 11] [45; 50] = false.
Proof.
  split.
  - apply (divergence_checks_agree [10; 12; 11] [40; 45; 50]). reflexivity.
  - apply (divergence_checks_agree [10; 12; 11] [45; 50]). simpl. lia.
Defined.

End Readings.

(** ** When the convergence oscillator answers *)

Section Convergence.

Local Open Scope Q_scope.



End Convergence.

(** ** The momentum oscillator on a market that never falls *)

Section OneWay64.

Import F64 Spec64 RSIIndicator64.
Local Open Scope Q_scope.

Lemma to_Q_finite (s : bool) (m : positive) (e : Z) :
  to_Q (S754_finite s m e)
  == (if s then - val (Zpos m) e else val (Zpos m) e).
Proof.
  cbn [to_Q]. destruct s; cbn [cond_Zopp]; [|reflexivity].
  unfold val. rewrite inject_Z_opp. ring.
Qed.

Lemma aligned_signed_val (s : bool) (mx : positive) (ex ez : Z) :
  (ez <= ex)%Z ->
  val (cond_Zopp s (Zpos (fst (shl_align mx ex ez)))) ez
  == to_Q (S754_finite s mx ex).
Proof.
  intros H. rewrite to_Q_finite. destruct s; cbn [cond_Zopp].
  - rewrite <- (aligned_val mx ex ez H). unfold val.
    rewrite inject_Z_opp. ring.
  - apply aligned_val, H.
Qed.

(** The difference of two finite doubles is the rounding of their exact
    difference. *)
Lemma sub_finite_signed (sx sy : bool) (mx my : positive) (ex ey : Z) :
  exists d : Z,
    sub (S754_finite sx mx ex) (S754_finite sy my ey)
    = binary_normalize prec emax d (Z.min ex ey) false /\
    val d (Z.min ex ey)
    == to_Q (S754_finite sx mx ex) - to_Q (S754_finite sy my ey).
Proof.
  unfold sub, SFsub. eexists. split; [reflexivity|].
  rewrite val_minus, !aligned_signed_val by lia. reflexivity.
Qed.

(** Of two canonical positive doubles the one with the smaller exponent
    is the smaller one. *)
Lemma canonical_lt (ma mb : positive) (ea eb : Z) :
  canonical_mantissa prec emax ma ea = true ->
  canonical_mantissa prec emax mb eb = true ->
  (ea < eb)%Z ->
  val (Zpos ma) ea < val (Zpos mb) eb.
Proof.
  unfold canonical_mantissa. intros Ha Hb Hlt.
  apply Z.eqb_eq in Ha, Hb.
  pose proof (digits2_pos_bounds ma) as [_ Hhi].
  pose proof (digits2_pos_bounds mb) as [Hlo _].
  set (da := Zpos (digits2_pos ma)) in *.
  set (db := Zpos (digits2_pos mb)) in *.
  assert (da <= prec /\ db = prec)%Z as [Hda Hdb]
    by (revert Ha Hb; unfold fexp, emin, prec, emax; lia).
  assert (val (Zpos ma) ea < pow2 (prec + ea)) as H1.
  { rewrite pow2_add, (pow2_Z prec) by (unfold prec; lia). unfold val.
    pose proof (pow2_pos ea).
    assert (inject_Z (Zpos ma) < inject_Z (2 ^ prec)).
    { rewrite <- Zlt_Qlt.
      assert (2 ^ da <= 2 ^ prec)%Z
        by (apply Z.pow_le_mono_r; unfold da; lia).
      lia. }
    nra. }
  assert (pow2 (prec - 1 + eb) <= val (Zpos mb) eb) as H2.
  { rewrite pow2_add, (pow2_Z (prec - 1)) by (unfold prec; lia). unfold val.
    pose proof (pow2_pos eb).
    assert (inject_Z (2 ^ (prec - 1)) <= inject_Z (Zpos mb))
      by (rewrite <- Zle_Qle; rewrite <- Hdb; exact Hlo).
    nra. }
  pose proof (pow2_le (prec + ea) (prec - 1 + eb) ltac:(lia)). lra.
Qed.

(** The comparison of two finite doubles is the comparison of their
    values. *)
Lemma leb_finite (sa sb : bool) (ma mb : positive) (ea eb : Z) :
  is_double (S754_finite sa ma ea) -> is_double (S754_finite sb mb eb) ->
  leb (S754_finite sa ma ea) (S754_finite sb mb eb) = true ->
  to_Q (S754_finite sa ma ea) <= to_Q (S754_finite sb mb eb).
Proof.
  unfold is_double, valid_binary, bounded.
  intros Ha Hb. apply andb_prop in Ha as [Ha _], Hb as [Hb _].
  rewrite !to_Q_finite.
  pose proof (val_nonneg (Zpos ma) ea ltac:(lia)) as Ha0.
  pose proof (val_nonneg (Zpos mb) eb ltac:(lia)) as Hb0.
  unfold leb, SFleb, SFcompare.
  destruct sa, sb; try discriminate; try (intros _; lra).
  - destruct (Z.compare_spec ea eb) as [-> | Hlt | Hgt];
      try discriminate; intros Hc.
    + rewrite Pos.compare_cont_spec in Hc.
      assert (Zpos mb <= Zpos ma)%Z as Hle.
      { destruct (Pos.compare_spec ma mb); try discriminate Hc; lia. }
      pose proof (val_mono _ _ eb Hle). lra.
    + pose proof (canonical_lt mb ma eb ea Hb Ha Hgt). lra.
  - destruct (Z.compare_spec ea eb) as [-> | Hlt | Hgt];
      try discriminate; intros Hc.
    + rewrite Pos.compare_cont_spec in Hc.
      assert (Zpos ma <= Zpos mb)%Z as Hle.
      { destruct (Pos.compare_spec ma mb); try discriminate Hc; lia. }
      apply val_mono, Hle.
    + pose proof (canonical_lt ma mb ea eb Ha Hb Hlt). lra.
Qed.

Lemma not_negative_ltb (x : float) :
  not_negative x = true -> ltb x zero = false.
Proof. destruct x as [[]|[]| |[] m e]; try discriminate; reflexivity. Qed.

(** A price that is not below the one before it gives no loss: the
    difference is not negative. *)
Lemma sub_of_leb (a b : float) :
  is_double a -> is_double b -> leb a b = true ->
  ltb (sub b a) zero = false.
Proof.
  intros Ha Hb Hle.
  destruct a as [sa|sa| |sa ma ea], b as [sb|sb| |sb mb eb];
    try discriminate Hle;
    try (destruct sa, sb; try discriminate Hle; reflexivity).
  destruct (sub_finite_signed sb sa mb ma eb ea) as (d & -> & Hd).
  pose proof (leb_finite sa sb ma mb ea eb Ha Hb Hle) as Hv.
  assert (0 <= d)%Z as Hd0.
  { apply (val_le 0 d (Z.min eb ea)). unfold val at 1.
    change (inject_Z 0) with 0. lra. }
  apply not_negative_ltb.
  destruct d as [|d|d]; [reflexivity | | lia].
  apply binary_round_not_negative.
Qed.

(** A small positive [int] converts to a positive double. *)
Lemma of_int_positive (n : positive) :
  of_int (Zpos n) = S754_infinity false \/
  exists m e, of_int (Zpos n) = S754_finite false m e.
Proof.
  unfold of_int, binary_normalize.
  destruct (binary_round_lower false n 0 0) as [H | (m & e & H & _)].
  - unfold emin, prec, emax. lia.
  - change (pow2 0) with (val 1 0). apply val_mono. lia.
  - left. exact H.
  - right. exists m, e. exact H.
Qed.

Lemma of_int_small (n : Z) :
  (0 <= n < 2 ^ 53)%Z ->
  of_int n = zero \/ exists m e, of_int n = S754_finite false m e.
Proof.
  intros Hn. unfold of_int, binary_normalize.
  destruct n as [|n|n]; [left; reflexivity | | lia].
  destruct (binary_round_upper false n 0 (2 ^ 53) 0)
    as [H | (m & e & H & _)].
  - apply val_mono. lia.
  - pose proof (digits2_pos_bounds n) as [Hlo _].
    assert (Zpos (digits2_pos n) - 1 < 53)%Z.
    { apply (Z.pow_lt_mono_r_iff 2); lia. }
    unfold fexp, emin, prec, emax. lia.
  - change (val (2 ^ 53) 0) with (pow2 53 * 1).
    pose proof (pow2_le 53 (emax - prec) ltac:(unfold emax, prec; lia)).
    lra.
  - left. exact H.
  - right. exists m, e. exact H.
Qed.

(** The smoothed average of an array of zeros is zero. *)
Lemma calculate_average_zero (period : nat) (values : list float) :
  (1 <= period)%nat -> (Z.of_nat period < 2 ^ 53)%Z ->
  Forall (eq zero) values ->
  _calculate_average period values = zero.
Proof.
  intros Hp Hsmall Hv. unfold _calculate_average.
  destruct (length values <? period)%nat eqn:Hlen; [reflexivity|].
  apply Nat.ltb_ge in Hlen.
  assert (forall x, div zero (of_int (Z.of_nat period)) = zero /\
                    (x = zero -> smooth period zero x = zero)) as Hops.
  { intros x.
    assert (div zero (of_int (Z.of_nat period)) = zero) as Hdiv.
    { destruct (Z.of_nat period) as [|n|n] eqn:En; try lia.
      destruct (of_int_positive n) as [-> | (m & e & ->)]; reflexivity. }
    split; [exact Hdiv|]. intros ->. unfold smooth.
    destruct (of_int_small (Z.of_nat period - 1) ltac:(lia))
      as [-> | (m & e & ->)]; exact Hdiv. }
  assert (Np64.mean (take period values) = zero) as ->.
  { unfold Np64.mean. rewrite length_take, Nat.min_l by exact Hlen.
    rewrite <- (sum_closed (eq zero));
      [apply Hops; exact zero | reflexivity | |].
    - intros x y <- <-. reflexivity.
    - apply Forall_take, Hv. }
  assert (Forall (eq zero) (drop period values)) as Hd
    by (apply Forall_drop, Hv).
  induction Hd as [|v rest <- _ IH]; cbn [fold_left]; [reflexivity|].
  rewrite (proj2 (Hops zero) eq_refl). exact IH.
Qed.

Lemma diff_lookup64 (a : list float) (i : nat) (c : float) :
  Np64.diff a !! i = Some c ->
  exists x y, a !! i = Some x /\ a !! S i = Some y /\ c = sub y x.
Proof.
  unfold Np64.diff. rewrite lookup_zip_with. intros H.
  destruct (a !! i) as [x|] eqn:Ex; [|discriminate H]. cbn in H.
  rewrite lookup_tail in H.
  destruct (a !! S i) as [y|] eqn:Ey; [|discriminate H]. cbn in H.
  injection H as <-. eauto.
Qed.

(** When no price is below the one before it, no loss is counted, the
    average loss is 0 and the score is exactly 100, which reads as
    overbought with a strong trend. *)
Theorem rsi_of_prices_that_never_fall (period : nat) (prices : list float) :
  (1 <= period)%nat ->
  (Z.of_nat period < 2 ^ 53)%Z ->
  (period + 1 <= length prices)%nat ->
  Forall is_double prices ->
  never_falls prices ->
  calculate period (Np64.FloatList prices) = Some (of_int 100) /\
  get_signal (calculate period (Np64.FloatList prices)) = "overbought" /\
  get_trend_strength (calculate period (Np64.FloatList prices)) = "strong".
Proof.
  intros Hp Hsmall Hlen Hvalid Hrise.
  assert (calculate period (Np64.FloatList prices) = Some (of_int 100))
    as Hc.
  { unfold calculate.
    rewrite (proj2 (Nat.eqb_neq _ _)) by lia.
    rewrite (proj2 (Nat.ltb_ge _ _)) by lia.
    rewrite (proj2 (Nat.ltb_ge (length (Np64.diff prices)) period))
      by (rewrite length_diff64; lia).
    cbn zeta.
    rewrite (calculate_average_zero period (losses_of (Np64.diff prices)));
      [reflexivity | exact Hp | exact Hsmall |].
    unfold losses_of. apply Forall_fmap, Forall_lookup. intros i c Hi. cbn.
    destruct (diff_lookup64 prices i c Hi) as (x & y & Hx & Hy & ->).
    rewrite sub_of_leb; [reflexivity | | |].
    - exact (proj1 (Forall_lookup _ _) Hvalid i x Hx).
    - exact (proj1 (Forall_lookup _ _) Hvalid (S i) y Hy).
    - exact (Hrise i x y Hx Hy). }
  rewrite Hc. split; [reflexivity|]. split; reflexivity.
Qed.

(** Period 14 on the sixteen prices 100, 101, ..., 115, which only
    rise. *)
Lemma rsi_of_prices_that_never_fall_witness :
  let prices := (fun n => of_int (Z.of_nat n)) <$> seq 100 16 in
  calculate 14 (Np64.FloatList prices) = Some (of_int 100) /\
  get_signal (calculate 14 (Np64.FloatList prices)) = "overbought" /\
  get_trend_strength (calculate 14 (Np64.FloatList prices)) = "strong".
Proof.
  intros prices.
  apply (rsi_of_prices_that_never_fall 14 prices).
  - lia.
  - lia.
  - cbn. lia.
  - unfold prices. cbn [fmap list_fmap seq].
    repeat (constructor; [vm_compute; reflexivity|]). constructor.
  - intros i a b Ha Hb.
    assert (i < 15)%nat as Hi.
    { apply lookup_lt_Some in Hb. unfold prices in Hb.
      rewrite length_fmap, length_seq in Hb. lia. }
    do 15 (destruct i as [|i];
           [vm_compute in Ha, Hb; injection Ha as <-; injection Hb as <-;
            vm_compute; reflexivity|]).
    lia.
Defined.

End OneWay64.

(** ** What a volume analysis can report *)

Section Volume.

Import VolumeAnalyzer.

Variable np_std : list Q -> Q.
Variable np_corrcoef : list Q -> list Q -> option Q.
Variable np_polyfit_slope : list Q -> list Q -> Q.

Lemma volume_signal_cases (current_volume avg_volume : Q)
    (trend : string) (unusual : bool) :
  let signal :=
    _generate_volume_signal current_volume avg_volume trend unusual in
  (signal = "strong_volume" /\ trend = "increasing") \/
  (signal = "weak_volume" /\ trend = "decreasing") \/
  (signal = "unusual_volume" /\ unusual = true) \/
  (signal = "normal_volume" /\ unusual = false).
Proof.
  unfold _generate_volume_signal.
  destruct (Qltb (avg_volume * 2) current_volume); simpl.
  - destruct (String.eqb trend "increasing") eqn:Ht.
    + left. split; [reflexivity | apply String.eqb_eq, Ht].
    + destruct (Qltb current_volume (avg_volume * 0.5)); simpl.
      * destruct (String.eqb trend "decreasing") eqn:Hd.
        -- right. left. split; [reflexivity | apply String.eqb_eq, Hd].
        -- destruct unusual; auto.
      * destruct unusual; auto.
  - destruct (Qltb current_volume (avg_volume * 0.5)); simpl.
    + destruct (String.eqb trend "decreasing") eqn:Hd.
      * right. left. split; [reflexivity | apply String.eqb_eq, Hd].
      * destruct unusual; auto.
    + destruct unusual; auto.
Qed.

(** In every result the signal agrees with the trend and the flag. *)
Lemma analyze_volume_cases (prices volumes : arg) :
  let r := analyze_volume np_std np_corrcoef np_polyfit_slope
             prices volumes in
  (volume_signal r = "strong_volume" /\ volume_trend r = "increasing") \/
  (volume_signal r = "weak_volume" /\ volume_trend r = "decreasing") \/
  (volume_signal r = "unusual_volume" /\ unusual_volume r = true) \/
  (volume_signal r = "normal_volume" /\ unusual_volume r = false).
Proof.
  assert (volume_signal _get_empty_result = "normal_volume" /\
          unusual_volume _get_empty_result = false) as Hempty
    by (split; reflexivity).
  intros r. subst r. unfold analyze_volume.
  destruct prices as [|prices]; [auto 6|].
  destruct volumes as [|volumes]; [auto 6|].
  destruct (negb (length prices =? length volumes)%nat); [auto 6|].
  destruct (length prices <? 2)%nat; [auto 6|].
  destruct (if (length volumes =? 0)%nat then Some 0%Q
            else Np.item volumes (-1)) as [current|]; [|auto 6].
  cbn [bind default from_option id
       volume_signal volume_trend unusual_volume].
  apply volume_signal_cases.
Qed.

(** The strength read from a result whose signal agrees with its trend
    and its flag. *)
Lemma volume_strength_follows (r : VolumeResult) :
  (volume_signal r = "strong_volume" /\ volume_trend r = "increasing") \/
  (volume_signal r = "weak_volume" /\ volume_trend r = "decreasing") \/
  (volume_signal r = "unusual_volume" /\ unusual_volume r = true) \/
  (volume_signal r = "normal_volume" /\ unusual_volume r = false) ->
  (volume_signal r = "strong_volume" /\ volume_trend r = "increasing" /\
   get_volume_strength r = "strong") \/
  (volume_signal r = "weak_volume" /\ volume_trend r = "decreasing" /\
   get_volume_strength r = "weak") \/
  (volume_signal r = "unusual_volume" /\ unusual_volume r = true /\
   get_volume_strength r = "unusual") \/
  (volume_signal r = "normal_volume" /\ unusual_volume r = false /\
   get_volume_strength r = "normal").
Proof.
  intros [[Hs Ht] | [[Hs Ht] | [[Hs Hu] | [Hs Hu]]]];
    unfold get_volume_strength; rewrite Hs; simpl.
  - left. auto.
  - right. left. auto.
  - right. right. left. rewrite Hu. auto.
  - right. right. right. rewrite Hu. auto.
Qed.

(** The four fields of a volume analysis go together: a strong volume
    signal only with an increasing trend, a weak one only with a
    decreasing trend, an unusual one only with the unusual flag set, and
    a normal one only with the flag unset. The strength read from the
    result is the signal without its suffix. *)
Theorem volume_result_is_consistent (prices volumes : arg) :
  let r := analyze_volume np_std np_corrcoef np_polyfit_slope
             prices volumes in
  (volume_signal r = "strong_volume" /\ volume_trend r = "increasing" /\
   get_volume_strength r = "strong") \/
  (volume_signal r = "weak_volume" /\ volume_trend r = "decreasing" /\
   get_volume_strength r = "weak") \/
  (volume_signal r = "unusual_volume" /\ unusual_volume r = true /\
   get_volume_strength r = "unusual") \/
  (volume_signal r = "normal_volume" /\ unusual_volume r = false /\
   get_volume_strength r = "normal").
Proof.
  intros r. apply volume_strength_follows.
  apply analyze_volume_cases.
Qed.

(** With fewer than ten volumes nothing is measured: whatever the
    prices, the analysis is the default record. *)
Theorem volume_needs_ten_samples (prices : arg) (volumes : list Q) :
  length volumes < 10 ->
  analyze_volume np_std np_corrcoef np_polyfit_slope
    prices (FloatList volumes)
  = _get_empty_result.
Proof.
  intros Hshort. unfold analyze_volume.
  destruct prices as [|prices]; [reflexivity|].
  destruct (negb (length prices =? length volumes)%nat); [reflexivity|].
  destruct (length prices <? 2)%nat; [reflexivity|].
  unfold _calculate_volume_sma, _calculate_price_volume_correlation,
    _analyze_volume_trend, _detect_unusual_volume.
  rewrite (proj2 (Nat.ltb_lt (length volumes) 20)) by lia.
  rewrite (proj2 (Nat.ltb_lt (length volumes) 10)) by lia.
  rewrite orb_true_r.
  destruct (if (length volumes =? 0)%nat then Some 0%Q
            else Np.item volumes (-1)) as [current|]; [|reflexivity].
  cbn [bind default from_option id].
  unfold _generate_volume_signal.
  rewrite !andb_false_r. reflexivity.
Qed.

End Volume.

(** Nine samples with rising volumes. *)
Lemma volume_needs_ten_samples_witness :
  VolumeAnalyzer.analyze_volume
    (fun _ => 1%Q) (fun _ _ => Some 1%Q) (fun _ _ => 1%Q)
    (FloatList [10; 11; 12; 13; 14; 15; 16; 17; 18]%Q)
    (FloatList [100; 200; 300; 400; 500; 600; 700; 800; 900]%Q)
  = VolumeAnalyzer._get_empty_result.
Proof.
  apply volume_needs_ten_samples. simpl. lia.
Defined.

(** ** The shape of every analysis *)

Lemma determine_trend_values (data : dict) (trend : string) :
  _determine_trend data = Some trend ->
  trend = "uptrend" \/ trend = "downtrend" \/ trend = "sideways".
Proof.
  unfold _determine_trend. intros H.
  inv_bind H. destruct x; [injection H as <-; auto|].
  inv_bind H. destruct x; injection H as <-; auto.
Qed.

Lemma calculate_volatility_values (data : dict) (volatility : string) :
  _calculate_volatility data = Some volatility ->
  volatility = "high" \/ volatility = "medium" \/ volatility = "low".
Proof.
  unfold _calculate_volatility. intros H.
  inv_bind H. destruct x; [|injection H as <-; auto].
  inv_bind H. inv_bind H. inv_bind H.
  inv_bind H. destruct x2; [injection H as <-; auto|].
  inv_bind H. destruct x2; injection H as <-; auto.
Qed.

Lemma analyze_price_action_shape (data pa : dict) :
  _analyze_price_action data = Some pa ->
  exists trend volatility,
    pa !! "trend" = Some (VStr trend) /\
    pa !! "volatility" = Some (VStr volatility) /\
    (trend = "uptrend" \/ trend = "downtrend" \/ trend = "sideways") /\
    (volatility = "high" \/ volatility = "medium" \/ volatility = "low").
Proof.
  unfold _analyze_price_action. intros H.
  inv_bind H. rename x into trend.
  inv_bind H. rename x into volatility.
  injection H as <-.
  exists trend, volatility.
  split; [reflexivity|]. split; [reflexivity|].
  split; [eapply determine_trend_values, E
         | eapply calculate_volatility_values, E0].
Qed.

Lemma generate_signals_exact (technical_analysis price_analysis : dict)
    (tags : list string) (trend volatility : string) (merged : value) :
  technical_analysis !! "signals" = Some (VTags tags) ->
  price_analysis !! "trend" = Some (VStr trend) ->
  price_analysis !! "volatility" = Some (VStr volatility) ->
  _generate_signals technical_analysis price_analysis = Some merged ->
  merged = VTags (tags ++ trend_tags trend ++ volatility_tags volatility)%list.
Proof.
  intros Hs Ht Hv. unfold _generate_signals, getitem.
  rewrite Hs, Ht, Hv. cbn [bind iter eq_str].
  unfold trend_tags, volatility_tags. intros [= <-]. f_equal.
  destruct (String.eqb trend "uptrend");
    [|destruct (String.eqb trend "downtrend")];
    destruct (String.eqb volatility "high");
    rewrite <- ?app_assoc, ?app_nil_r; reflexivity.
Qed.

(** [analyze_stock] answers with the empty analysis or with the three
    parts it computed from a non-empty snapshot. *)
Lemma analyze_stock_cases (fetched : option dict) :
  analyze_stock fetched = _get_empty_analysis \/
  exists data technical price signals,
    fetched = Some data /\
    _analyze_technical_indicators data = Some technical /\
    _analyze_price_action data = Some price /\
    _generate_signals technical price = Some signals /\
    analyze_stock fetched
    = {| an_data := data; an_technical_analysis := technical;
         an_price_analysis := price; an_signals := signals |}.
Proof.
  unfold analyze_stock.
  destruct fetched as [data|]; [|auto].
  destruct (negb (truthy (VDict data))); [auto|].
  destruct (_analyze_technical_indicators data) as [technical|] eqn:Ht;
    cbn [bind]; [|auto].
  destruct (_analyze_price_action data) as [price|] eqn:Hp;
    cbn [bind]; [|auto].
  destruct (_generate_signals technical price) as [signals|] eqn:Hs;
    cbn [bind]; [|auto].
  right. exists data, technical, price, signals.
  repeat (split; [first [assumption | reflexivity]|]). reflexivity.
Qed.

(** Every analysis is well formed: the technical signals are at most one
    momentum tag followed by at most one convergence tag, the trend and
    the volatility are among their three classes, and the merged signal
    list is the technical one followed by the tag of the trend (for an
    uptrend or a downtrend) and by the tag of a high volatility. *)
Theorem analysis_is_well_formed (fetched : option dict) :
  let a := analyze_stock fetched in
  exists momentum convergence trend volatility,
    an_technical_analysis a !! "signals"
      = Some (VTags (momentum ++ convergence)%list) /\
    an_price_analysis a !! "trend" = Some (VStr trend) /\
    an_price_analysis a !! "volatility" = Some (VStr volatility) /\
    an_signals a
      = VTags ((momentum ++ convergence)
               ++ trend_tags trend ++ volatility_tags volatility)%list /\
    (momentum = [] \/ momentum = ["overbought"] \/ momentum = ["oversold"]) /\
    (convergence = [] \/ convergence = ["bullish_macd"]
     \/ convergence = ["bearish_macd"]) /\
    (trend = "uptrend" \/ trend = "downtrend" \/ trend = "sideways") /\
    (volatility = "high" \/ volatility = "medium" \/ volatility = "low").
Proof.
  intros a. subst a.
  destruct (analyze_stock_cases fetched)
    as [-> | (data & technical & price & signals & _ & Ht & Hp & Hs & ->)].
  - exists [], [], "sideways", "low". repeat split; auto.
  - destruct (technical_indicators_shape data technical Ht)
      as (momentum & convergence & (_ & _ & Hsig) & Hm & Hc).
    destruct (analyze_price_action_shape data price Hp)
      as (trend & volatility & Htr & Hvo & Htv & Hvv).
    exists momentum, convergence, trend, volatility.
    cbn [an_technical_analysis an_price_analysis an_signals].
    split; [exact Hsig|]. split; [exact Htr|]. split; [exact Hvo|].
    split; [|auto].
    exact (generate_signals_exact technical price _ trend volatility signals
             Hsig Htr Hvo Hs).
Qed.

(** ** The analysis of a quote *)

Lemma analyze_stock_price (fetched : option dict) :
  exists trend volatility,
    an_price_analysis (analyze_stock fetched) !! "trend"
      = Some (VStr trend) /\
    an_price_analysis (analyze_stock fetched) !! "volatility"
      = Some (VStr volatility).
Proof.
  destruct (analyze_stock_cases fetched)
    as [-> | (data & technical & price & signals & _ & _ & Hp & _ & ->)].
  - exists "sideways", "low". split; reflexivity.
  - destruct (analyze_price_action_shape data price Hp)
      as (trend & volatility & Ht & Hv & _).
    exists trend, volatility. auto.
Qed.

Lemma analyze_stock_tags (fetched : option dict) :
  exists l1 l2,
    tech_shape (an_technical_analysis (analyze_stock fetched))
      (l1 ++ l2)%list /\
    (l1 = [] \/ l1 = ["overbought"] \/ l1 = ["oversold"]) /\
    (l2 = [] \/ l2 = ["bullish_macd"] \/ l2 = ["bearish_macd"]).
Proof.
  destruct (analyze_stock_cases fetched)
    as [-> | (data & technical & price & signals & _ & Ht & _ & _ & ->)].
  - exists [], []. split; [|auto]. repeat split.
  - exact (technical_indicators_shape data technical Ht).
Qed.

(** The analysis of a quote is [None] exactly when the analysed snapshot
    holds a ['macd'] entry that is not a dictionary ([None] included). In
    particular a failed fetch, whose analysis is the empty one, still
    yields a record. *)
Theorem quote_is_none_iff (symbol : string) (fetched : option dict) :
  analyze_quote symbol fetched = None <->
  exists v,
    an_data (analyze_stock fetched) !! "macd" = Some v /\ ~ is_dict v.
Proof.
  destruct (analyze_stock_price fetched) as (trend & volatility & Ht & _).
  destruct (analyze_stock_technical fetched) as (tags & _ & Hs & _).
  unfold analyze_quote, getitem. rewrite Ht, Hs. unfold get.
  destruct (an_data (analyze_stock fetched) !! "macd") as [v|] eqn:Hv.
  - destruct v as [|n|s|l|d]; cbn [default from_option id method_get bind].
    + split; [|reflexivity]. intros _. exists VNone. auto.
    + split; [|reflexivity]. intros _. exists (VNum n). auto.
    + split; [|reflexivity]. intros _. exists (VStr s). auto.
    + split; [|reflexivity]. intros _. exists (VTags l). auto.
    + split; [discriminate|].
      intros (v & Hv' & Hn). injection Hv' as <-. exfalso. apply Hn. exact I.
  - cbn [default from_option id method_get bind].
    split; [discriminate|]. intros (v & Hv' & _). discriminate.
Qed.

Lemma risk_metrics_body_needs_price (data technical price : dict)
    (trend volatility : value) :
  ~ is_number (get data "price" (VNum 0)) ->
  price !! "trend" = Some trend ->
  price !! "volatility" = Some volatility ->
  risk_metrics_body data technical price = None.
Proof.
  intros Hn Ht Hv. unfold risk_metrics_body, getitem.
  rewrite Ht, Hv.
  destruct (get data "price" (VNum 0)) as [|p| | |];
    try (exfalso; apply Hn; exact I);
    cbn [bind]; destruct (eq_str trend "uptrend");
    try destruct (eq_str trend "downtrend"); reflexivity.
Qed.

Lemma momentum_count_cases (l1 l2 : list string) :
  (l1 = [] \/ l1 = ["overbought"] \/ l1 = ["oversold"]) ->
  (l2 = [] \/ l2 = ["bullish_macd"] \/ l2 = ["bearish_macd"]) ->
  spec_win_rate (l1 ++ l2) (VStr "weak") = 50%Z \/
  spec_win_rate (l1 ++ l2) (VStr "weak") = 55%Z \/
  spec_win_rate (l1 ++ l2) (VStr "weak") = 60%Z.
Proof.
  intros [-> | [-> | ->]] [-> | [-> | ->]]; vm_compute; auto.
Qed.

(** The risk metrics of an analysed quote are the zero record exactly
    when the price of the analysed snapshot is present and not a number.
    Otherwise the win-rate is 50, 55 or 60, so the cap of 90 is never
    reached, and the risk percentage is 2, 3 or 5. *)
Theorem quote_risk_metrics (symbol : string) (fetched : option dict)
    (q : QuoteAnalysis) :
  analyze_quote symbol fetched = Some q ->
  let price := get (an_data (analyze_stock fetched)) "price" (VNum 0) in
  (is_number price /\
   (qa_win_rate q = 50%Z \/ qa_win_rate q = 55%Z \/ qa_win_rate q = 60%Z) /\
   ((qa_risk_percentage q == 2)%Q \/ (qa_risk_percentage q == 3)%Q \/
    (qa_risk_percentage q == 5)%Q)) \/
  (~ is_number price /\
   qa_win_rate q = 0%Z /\ qa_risk_percentage q = 0%Q /\
   qa_entry_price q = 0%Q /\ qa_stop_loss q = 0%Q /\
   qa_take_profit q = 0%Q).
Proof.
  intros Hq. cbn zeta.
  destruct (analyze_stock_price fetched) as (trend & volatility & Ht & Hv).
  destruct (analyze_stock_tags fetched) as (l1 & l2 & Hshape & Hl1 & Hl2).
  pose proof Hshape as (_ & Hstrength & Hsignals).
  unfold analyze_quote in Hq.
  inv_bind Hq. inv_bind Hq. inv_bind Hq. inv_bind Hq.
  injection Hq as <-.
  cbn [qa_win_rate qa_risk_percentage qa_entry_price qa_stop_loss
       qa_take_profit].
  unfold _calculate_risk_metrics.
  set (data := an_data (analyze_stock fetched)) in *.
  set (technical := an_technical_analysis (analyze_stock fetched)) in *.
  set (price := an_price_analysis (analyze_stock fetched)) in *.
  assert (~ is_number (get data "price" (VNum 0)) ->
          risk_metrics_body data technical price = None) as Hzero.
  { intros Hn.
    exact (risk_metrics_body_needs_price _ _ _ _ _ Hn Ht Hv). }
  destruct (get data "price" (VNum 0)) as [|p| | |] eqn:Hprice.
  2:{ left. split; [exact I|].
      destruct (risk_metrics_body_total data technical price p _ _ _ _ _
                  Hprice Ht Hv Hsignals eq_refl Hstrength) as (m & Hm).
      rewrite Hm. cbn [default from_option id].
      destruct (risk_metrics_body_Some _ _ _ _ Hm)
        as (vol & ts & tg & st & Hv' & Hs' & Hi & Hst' & Hw & Hr).
      rewrite Hsignals in Hs'. injection Hs' as <-.
      rewrite Hstrength in Hst'. injection Hst' as <-.
      cbn in Hi. injection Hi as <-.
      split.
      - rewrite Hw. apply momentum_count_cases; assumption.
      - rewrite Hr.
        destruct (spec_risk_percentage_cases vol) as [-> | [-> | ->]];
          auto using Qeq_refl. }
  all: right; split; [intros H; exact H|];
    rewrite Hzero by (intros H; exact H); repeat split.
Qed.

(** The round-trip snapshot, and the snapshot without a price. *)
Lemma quote_risk_metrics_witness :
  (exists q,
     analyze_quote "AAPL" (Some round_trip_snapshot) = Some q /\
     qa_win_rate q = 55%Z) /\
  (exists q,
     analyze_quote "AAPL" (Some priceless_snapshot) = Some q /\
     qa_win_rate q = 0%Z /\ qa_entry_price q = 0%Q).
Proof.
  split.
  - destruct (is_Some_true (analyze_quote "AAPL" (Some round_trip_snapshot)))
      as (q & E); [vm_compute; reflexivity|].
    exists q. split; [exact E|].
    destruct (quote_risk_metrics "AAPL" (Some round_trip_snapshot) q E)
      as [(_ & Hw & _) | (Hn & _)].
    + assert (qa_win_rate <$> analyze_quote "AAPL" (Some round_trip_snapshot)
              = Some 55%Z) as Hv by (vm_compute; reflexivity).
      rewrite E in Hv. injection Hv as Hv. exact Hv.
    + exfalso. apply Hn. vm_compute. exact I.
  - destruct (is_Some_true (analyze_quote "AAPL" (Some priceless_snapshot)))
      as (q & E); [vm_compute; reflexivity|].
    exists q. split; [exact E|].
    destruct (quote_risk_metrics "AAPL" (Some priceless_snapshot) q E)
      as [(Hn & _) | (_ & Hw & _ & He & _)].
    + exfalso. vm_compute in Hn. exact Hn.
    + split; [exact Hw | exact He].
Defined.

(** ** Rounding keeps the order of the risk levels *)

Section RiskLevels.

Local Open Scope Q_scope.

Lemma round_half_even_mono (x y : Q) :
  x <= y -> (round_half_even x <= round_half_even y)%Z.
Proof.
  intros Hxy. unfold round_half_even.
  pose proof (Qfloor_resp_le x y Hxy) as Hf.
  pose proof (Qfloor_le x) as Hx1. pose proof (Qlt_floor x) as Hx2.
  pose proof (Qfloor_le y) as Hy1. pose proof (Qlt_floor y) as Hy2.
  rewrite inject_Z_plus in Hx2, Hy2.
  change (inject_Z 1) with 1 in Hx2, Hy2.
  destruct (Z.eq_dec (Qfloor x) (Qfloor y)) as [Heq | Hne].
  - rewrite <- Heq in *.
    destruct (x - inject_Z (Qfloor x) ?= 1 # 2) eqn:Ex;
      destruct (y - inject_Z (Qfloor x) ?= 1 # 2) eqn:Ey;
      first [apply Qeq_alt in Ex | apply Qlt_alt in Ex
            | apply Qgt_alt in Ex];
      first [apply Qeq_alt in Ey | apply Qlt_alt in Ey
            | apply Qgt_alt in Ey];
      try (destruct (Z.even (Qfloor x))); try lia; exfalso; lra.
  - assert (Qfloor x + 1 <= Qfloor y)%Z as Hlt by lia.
    destruct (x - inject_Z (Qfloor x) ?= 1 # 2);
      destruct (y - inject_Z (Qfloor y) ?= 1 # 2);
      try (destruct (Z.even (Qfloor x)));
      try (destruct (Z.even (Qfloor y))); lia.
Qed.

Lemma round2_mono (x y : Q) : x <= y -> round2 x <= round2 y.
Proof.
  intros Hxy. unfold round2, Qle. cbn [Qnum Qden].
  apply Z.mul_le_mono_nonneg_r; [lia|].
  apply round_half_even_mono. lra.
Qed.

(** What a run of the [try] block that reaches its [return] has computed
    for the three price levels. *)
Lemma risk_metrics_body_levels (data technical price : dict)
    (m : RiskMetrics) :
  risk_metrics_body data technical price = Some m ->
  exists p entry sl tp,
    get data "price" (VNum 0) = VNum p /\
    (entry = p * 0.99 \/ entry = p * 1.01 \/ entry = p) /\
    ((sl = 0.05 /\ tp = 0.15) \/ (sl = 0.03 /\ tp = 0.09)
     \/ (sl = 0.02 /\ tp = 0.06)) /\
    entry_price m = round2 entry /\
    stop_loss m = round2 (entry * (1 - sl)) /\
    take_profit m = round2 (entry * (1 + tp)).
Proof.
  unfold risk_metrics_body, getitem. intros H.
  inv_bind H. rename x into trend.
  inv_bind H. rename x into entry.
  inv_bind H. rename x into volatility.
  inv_bind H. inv_bind H. inv_bind H. inv_bind H. inv_bind H.
  inv_bind H. inv_bind H. inv_bind H.
  injection H as <-. cbn [entry_price stop_loss take_profit].
  destruct entry as [|e| | |]; try discriminate.
  cbn in E2, E3, E7. injection E2 as <-. injection E3 as <-.
  injection E7 as <-. cbn in E8, E9.
  injection E8 as <-. injection E9 as <-.
  destruct (get data "price" (VNum 0)) as [|p| | |] eqn:Hp;
    try (destruct (eq_str trend "uptrend");
         [|destruct (eq_str trend "downtrend")]; discriminate).
  exists p, e,
    (if eq_str volatility "high" then 0.05
     else if eq_str volatility "medium" then 0.03 else 0.02),
    (if eq_str volatility "high" then 0.15
     else if eq_str volatility "medium" then 0.09 else 0.06).
  split; [reflexivity|]. split.
  - destruct (eq_str trend "uptrend");
      [|destruct (eq_str trend "downtrend")];
      cbn in E0; injection E0 as <-; auto.
  - split; [|auto].
    destruct (eq_str volatility "high"); [auto|].
    destruct (eq_str volatility "medium"); auto.
Qed.

(** For a price that is not negative the three levels of the risk
    metrics are in order, also after rounding: the stop-loss is at most
    the entry price, which is at most the take-profit. *)
Theorem risk_levels_are_ordered (data technical price : dict)
    (m : RiskMetrics) (p : Q) :
  risk_metrics_body data technical price = Some m ->
  get data "price" (VNum 0) = VNum p ->
  0 <= p ->
  _calculate_risk_metrics data technical price = m /\
  stop_loss m <= entry_price m /\ entry_price m <= take_profit m.
Proof.
  intros Hbody Hprice Hp.
  split; [unfold _calculate_risk_metrics; rewrite Hbody; reflexivity|].
  destruct (risk_metrics_body_levels _ _ _ _ Hbody)
    as (p' & entry & sl & tp & Hp' & He & Hpct & -> & -> & ->).
  rewrite Hprice in Hp'. injection Hp' as <-.
  assert (0 <= entry) as Hentry.
  { destruct He as [-> | [-> | ->]]; try exact Hp;
      apply Qmult_le_0_compat; lra. }
  assert (0 <= sl /\ 0 <= tp) as [Hsl Htp]
    by (destruct Hpct as [[-> ->] | [[-> ->] | [-> ->]]]; split; lra).
  assert (0 <= entry * sl) by (apply Qmult_le_0_compat; assumption).
  assert (0 <= entry * tp) by (apply Qmult_le_0_compat; assumption).
  split; apply round2_mono.
  - assert (entry * (1 - sl) == entry - entry * sl) as -> by ring. lra.
  - assert (entry * (1 + tp) == entry + entry * tp) as -> by ring. lra.
Qed.

(** The price 150 in an uptrend of low volatility: 145.53, 148.5 and
    157.41. *)
Lemma risk_levels_are_ordered_witness :
  let m := _calculate_risk_metrics
             {[ "price" := VNum 150 ]}
             {[ "signals" := VTags []; "strength" := VStr "weak" ]}
             {[ "trend" := VStr "uptrend"; "volatility" := VStr "low" ]} in
  stop_loss m <= entry_price m /\ entry_price m <= take_profit m.
Proof.
  intros m.
  destruct (is_Some_true
              (risk_metrics_body
                 {[ "price" := VNum 150 ]}
                 {[ "signals" := VTags []; "strength" := VStr "weak" ]}
                 {[ "trend" := VStr "uptrend";
                    "volatility" := VStr "low" ]}))
    as (m' & E); [vm_compute; reflexivity|].
  destruct (risk_levels_are_ordered _ _ _ m' 150 E) as (Hm & H1 & H2).
  - vm_compute. reflexivity.
  - lra.
  - subst m. rewrite Hm. split; assumption.
Defined.

End RiskLevels.

(** ** Lists of recommendations *)

Lemma insert_by_win_rate_perm (x : Recommendation) (l : list Recommendation) :
  Permutation (insert_by_win_rate x l) (x :: l).
Proof.
  induction l as [|y l IH]; cbn [insert_by_win_rate]; [reflexivity|].
  destruct (rec_win_rate y <=? rec_win_rate x)%Z; [reflexivity|].
  rewrite IH. apply perm_swap.
Qed.

Lemma insert_by_win_rate_hd (x y : Recommendation) (l : list Recommendation) :
  by_win_rate_desc y x -> HdRel by_win_rate_desc y l ->
  HdRel by_win_rate_desc y (insert_by_win_rate x l).
Proof.
  intros Hyx Hl. destruct l as [|z l]; cbn [insert_by_win_rate].
  - constructor. exact Hyx.
  - destruct (rec_win_rate z <=? rec_win_rate x)%Z; constructor.
    + exact Hyx.
    + inversion Hl. assumption.
Qed.

Lemma insert_by_win_rate_sorted (x : Recommendation)
    (l : list Recommendation) :
  Sorted by_win_rate_desc l ->
  Sorted by_win_rate_desc (insert_by_win_rate x l).
Proof.
  induction 1 as [|y l Hs IH Hhd]; cbn [insert_by_win_rate].
  - repeat constructor.
  - destruct (rec_win_rate y <=? rec_win_rate x)%Z eqn:Hle.
    + constructor; [constructor; assumption|].
      constructor. unfold by_win_rate_desc. lia.
    + constructor; [exact IH|].
      apply insert_by_win_rate_hd; [|exact Hhd].
      unfold by_win_rate_desc. lia.
Qed.

Lemma insert_by_win_rate_stable (k : Z) (x : Recommendation)
    (l : list Recommendation) :
  with_win_rate k (insert_by_win_rate x l) = with_win_rate k (x :: l).
Proof.
  unfold with_win_rate.
  induction l as [|y l IH]; cbn [insert_by_win_rate]; [reflexivity|].
  destruct (rec_win_rate y <=? rec_win_rate x)%Z eqn:Hle; [reflexivity|].
  cbn [List.filter] in *. rewrite IH.
  destruct (rec_win_rate x =? k)%Z eqn:Hx;
    destruct (rec_win_rate y =? k)%Z eqn:Hy; try reflexivity.
  lia.
Qed.

(** The sort keeps entries of equal win-rate in their order. *)
Lemma sort_by_win_rate_stable (k : Z) (l : list Recommendation) :
  with_win_rate k (sort_by_win_rate l) = with_win_rate k l.
Proof.
  unfold sort_by_win_rate.
  induction l as [|x l IH]; cbn [fold_right]; [reflexivity|].
  rewrite insert_by_win_rate_stable.
  unfold with_win_rate in *. cbn [List.filter]. rewrite IH. reflexivity.
Qed.

Lemma sort_by_win_rate_perm (l : list Recommendation) :
  Permutation (sort_by_win_rate l) l.
Proof.
  unfold sort_by_win_rate. induction l as [|x l IH]; cbn [fold_right];
    [reflexivity|].
  rewrite insert_by_win_rate_perm. constructor. exact IH.
Qed.

Lemma sort_by_win_rate_sorted (l : list Recommendation) :
  Sorted by_win_rate_desc (sort_by_win_rate l).
Proof.
  unfold sort_by_win_rate. induction l as [|x l IH]; cbn [fold_right];
    [constructor|].
  apply insert_by_win_rate_sorted. exact IH.
Qed.

Lemma length_collect (fetch : string -> option dict) (symbols : list string) :
  length (collect fetch symbols) <= length symbols.
Proof.
  unfold collect. induction symbols as [|s symbols IH]; cbn [omap list_omap];
    [reflexivity|].
  destruct (recommendation_for fetch s); cbn [length]; lia.
Qed.

(** The entry built from an analysed quote carries a plain label and one
    of the win-rates 0, 50, 55 and 60. *)
Lemma recommendation_for_plain (fetch : string -> option dict)
    (symbol : string) (r : Recommendation) :
  recommendation_for fetch symbol = Some r ->
  rec_symbol r = symbol /\ plain_entry r.
Proof.
  unfold recommendation_for.
  destruct (analyze_quote symbol (fetch symbol)) as [q|] eqn:Hq;
    [|discriminate].
  intros [= <-]. split; [reflexivity|]. unfold plain_entry.
  cbn [rec_action rec_win_rate].
  destruct (analyze_stock_tags (fetch symbol))
    as (l1 & l2 & Hshape & Hl1 & Hl2).
  pose proof Hshape as (_ & Hstrength & _).
  unfold analyze_quote in Hq.
  inv_bind Hq. inv_bind Hq. inv_bind Hq. inv_bind Hq.
  injection Hq as <-. cbn [qa_recommendation qa_win_rate]. split.
  - apply weak_recommendation. exact Hstrength.
  - destruct (weak_win_rate (an_data (analyze_stock (fetch symbol))) _
                (an_price_analysis (analyze_stock (fetch symbol))) _ Hshape)
      as [-> | Hw]; [auto|]. right.
    replace (50 + 5 * momentum_count (l1 ++ l2))%Z
      with (50 + 5 * momentum_count (l1 ++ l2)
            + strength_bonus (VStr "weak"))%Z in Hw
      by (change (strength_bonus (VStr "weak")) with 0%Z; lia).
    rewrite Hw. apply (momentum_count_cases l1 l2 Hl1 Hl2).
Qed.

(** The top recommendations are at most six, sorted by decreasing
    win-rate; they are the entries collected for the first three gainers
    and the first three losers, rearranged, so the final cut to six never
    drops an entry, and entries of equal win-rate keep the order in which
    they were collected. Every entry names one of those symbols and
    carries a plain label and a win-rate of 0, 50, 55 or 60. *)
Theorem top_recommendations_are_sorted (fetch : string -> option dict)
    (movers : Movers) :
  let symbols := (take 3 (gainers movers) ++ take 3 (losers movers))%list in
  let top := get_top_recommendations fetch movers in
  length top <= 6 /\
  Sorted by_win_rate_desc top /\
  Permutation top (collect fetch symbols) /\
  (forall k, with_win_rate k top = with_win_rate k (collect fetch symbols)) /\
  Forall (fun r => rec_symbol r ∈ symbols /\ plain_entry r) top.
Proof.
  intros symbols top.
  assert (length (sort_by_win_rate (collect fetch symbols)) <= 6) as Hlen.
  { rewrite (Permutation_length (sort_by_win_rate_perm _)).
    etransitivity; [apply length_collect|].
    unfold symbols. rewrite length_app, !length_take. lia. }
  assert (top = sort_by_win_rate (collect fetch symbols)) as ->.
  { unfold top, get_top_recommendations. fold symbols.
    apply take_ge. exact Hlen. }
  split; [exact Hlen|]. split; [apply sort_by_win_rate_sorted|].
  split; [apply sort_by_win_rate_perm|].
  split; [intros k; apply sort_by_win_rate_stable|].
  rewrite (sort_by_win_rate_perm (collect fetch symbols)).
  apply Forall_forall. intros r Hr.
  apply list_elem_of_In, list_elem_of_omap in Hr as (s & Hs & Hrs).
  destruct (recommendation_for_plain fetch s r Hrs) as [-> Hplain].
  split; assumption.
Qed.

(** The list of all quotes names, in their order, exactly the gainers
    and losers whose analysis is not [None], and every entry carries a
    plain label and a win-rate of 0, 50, 55 or 60. *)
Theorem all_quotes_keep_the_order (fetch : string -> option dict)
    (movers : Movers) :
  rec_symbol <$> analyze_all_quotes fetch movers
  = List.filter (analysable fetch) (gainers movers ++ losers movers) /\
  Forall plain_entry (analyze_all_quotes fetch movers).
Proof.
  unfold analyze_all_quotes, collect.
  generalize (gainers movers ++ losers movers)%list. intros symbols.
  split.
  - induction symbols as [|s symbols IH]; [reflexivity|].
    cbn [omap list_omap List.filter]. unfold analysable at 1.
    unfold recommendation_for at 1.
    destruct (analyze_quote s (fetch s)) as [q|].
    + cbn [fmap list_fmap rec_symbol]. f_equal. exact IH.
    + exact IH.
  - apply Forall_forall. intros r Hr.
    apply list_elem_of_In, list_elem_of_omap in Hr as (s & _ & Hrs).
    apply (recommendation_for_plain fetch s r Hrs).
Qed.

(** ** The indicators of the scraper in the pipeline *)

Section Scraper.

Import WebScraper.

Local Open Scope Q_scope.

Lemma scraper_macd_unknown_aux (prices : list Q) :
  _calculate_macd prices = (None, None, None).
Proof.
  unfold _calculate_macd.
  destruct (length prices <? 26)%nat; [reflexivity|].
  destruct (_calculate_ema prices 12) as [ema12|]; [|reflexivity].
  destruct (_calculate_ema prices 26) as [ema26|]; reflexivity.
Qed.

Lemma technical_indicators_macd (prices : list Q) (indicators : dict) :
  get_technical_indicators prices = Some indicators ->
  indicators !! "macd" = Some VNone /\ indicators <> ∅.
Proof.
  unfold get_technical_indicators.
  destruct (length prices =? 0)%nat; [discriminate|].
  rewrite scraper_macd_unknown_aux. intros [= <-]. split.
  - rewrite lookup_insert_ne by discriminate.
    rewrite lookup_insert_eq. reflexivity.
  - intros Hempty.
    assert (({[ "rsi" := of_optional (_calculate_rsi prices 14);
                "macd" := VNone;
                "sma" := of_optional (_calculate_sma prices 20) ]} : dict)
            !! "rsi" = None) as Hl by (rewrite Hempty; apply lookup_empty).
    rewrite lookup_insert_eq in Hl. discriminate.
Qed.

(** The scraper never knows the MACD: the signal line is asked of a list
    of one value with the period 9, which is too short, so the triple is
    unknown for every list of prices, and the indicators it reports hold
    [None] under ['macd']. *)
Theorem scraper_macd_is_unknown (prices : list Q) :
  _calculate_macd prices = (None, None, None) /\
  (forall indicators,
     get_technical_indicators prices = Some indicators ->
     indicators !! "macd" = Some VNone).
Proof.
  split.
  - unfold _calculate_macd.
    destruct (length prices <? 26)%nat; [reflexivity|].
    destruct (_calculate_ema prices 12) as [ema12|]; [|reflexivity].
    destruct (_calculate_ema prices 26) as [ema26|]; [|reflexivity].
    assert (_calculate_ema [ema12 - ema26] 9 = None) as -> by reflexivity.
    reflexivity.
  - intros indicators H. apply (technical_indicators_macd prices _ H).
Qed.

(** Thirty prices of 100. *)
Lemma scraper_macd_is_unknown_witness :
  exists indicators,
    get_technical_indicators (replicate 30 100) = Some indicators /\
    indicators !! "macd" = Some VNone.
Proof.
  destruct (is_Some_true (get_technical_indicators (replicate 30 100)))
    as (indicators & E); [vm_compute; reflexivity|].
  exists indicators. split; [exact E|].
  apply (scraper_macd_is_unknown (replicate 30 100)). exact E.
Defined.

(** When the history page yields prices, the snapshot assembled by
    [get_stock_data] holds [None] under ['macd']; its quote is then
    [None], or, when the analysis of the stock fell back to the empty
    analysis, the record of that fallback: Hold in a sideways market
    with the win-rate 50. *)
Theorem scraped_quote_is_none_or_fallback (symbol : string)
    (stock_data : option dict) (prices : list Q) (data : dict) :
  MarketData.get_stock_data stock_data (get_technical_indicators prices)
    = Some data ->
  prices <> [] ->
  data !! "macd" = Some VNone /\
  (analyze_quote symbol (Some data) = None \/
   (analyze_stock (Some data) = _get_empty_analysis /\
    exists q,
      analyze_quote symbol (Some data) = Some q /\
      qa_recommendation q = "Hold" /\
      qa_win_rate q = 50%Z /\
      qa_trend q = VStr "sideways")).
Proof.
  intros Hdata Hprices.
  assert (data !! "macd" = Some VNone) as Hmacd.
  { unfold MarketData.get_stock_data in Hdata.
    destruct stock_data as [stock|]; [|discriminate].
    destruct (negb (truthy (VDict stock))); [discriminate|].
    destruct (get_technical_indicators prices) as [indicators|] eqn:Hi.
    - destruct (technical_indicators_macd prices indicators Hi)
        as [Hm Hne].
      unfold truthy in Hdata.
      rewrite bool_decide_eq_false_2 in Hdata by exact Hne.
      cbn [negb] in Hdata. injection Hdata as <-.
      apply lookup_union_Some_l. exact Hm.
    - exfalso. unfold get_technical_indicators in Hi.
      destruct prices as [|p prices]; [contradiction|].
      rewrite scraper_macd_unknown_aux in Hi. discriminate. }
  split; [exact Hmacd|].
  destruct (analyze_stock_cases (Some data))
    as [Hempty | (d & technical & price & signals & Hd & _ & _ & _ & Hrec)].
  - right. split; [exact Hempty|].
    unfold analyze_quote. rewrite Hempty.
    eexists. split; [reflexivity|]. repeat split.
  - left. injection Hd as <-.
    unfold analyze_quote. rewrite Hrec. cbn [an_data].
    unfold get. rewrite Hmacd. reflexivity.
Qed.

(** A quote page with price and change, and thirty prices of history:
    the quote is [None]. *)
Lemma scraped_quote_is_none_or_fallback_witness :
  exists data,
    MarketData.get_stock_data
      (Some {[ "price" := VNum 150; "change" := VNum 2.5 ]})
      (get_technical_indicators (replicate 30 100)) = Some data /\
    data !! "macd" = Some VNone /\
    analyze_quote "AAPL" (Some data) = None.
Proof.
  destruct (is_Some_true
              (MarketData.get_stock_data
                 (Some {[ "price" := VNum 150; "change" := VNum 2.5 ]})
                 (get_technical_indicators (replicate 30 100))))
    as (data & E); [vm_compute; reflexivity|].
  exists data. split; [exact E|].
  destruct (scraped_quote_is_none_or_fallback "AAPL" _ _ data E)
    as (Hm & [Hnone | (Hempty & _)]).
  - discriminate.
  - split; assumption.
  - exfalso.
    assert ((fun d => an_data (analyze_stock (Some d))) <$>
              MarketData.get_stock_data
                (Some {[ "price" := VNum 150; "change" := VNum 2.5 ]})
                (get_technical_indicators (replicate 30 100))
            <> Some ∅) as Hne by (vm_compute; discriminate).
    rewrite E in Hne. cbn [fmap option_fmap option_map] in Hne.
    apply Hne. rewrite Hempty. reflexivity.
Defined.

End Scraper.

(** ** The momentum score of the scraper *)

Section ScraperMomentum.

Import WebScraper.

Local Open Scope Q_scope.

Lemma fold_plus_nonneg (l : list Q) (acc : Q) :
  Forall (Qle 0) l -> 0 <= acc -> 0 <= fold_left Qplus l acc.
Proof.
  intros Hl. revert acc.
  induction Hl as [|x l Hx _ IH]; intros acc Hacc; simpl; [exact Hacc|].
  apply IH. lra.
Qed.

Lemma py_sum_nonneg (l : list Q) : Forall (Qle 0) l -> 0 <= py_sum l.
Proof.
  intros Hl. unfold py_sum. apply fold_plus_nonneg; [exact Hl | lra].
Qed.

Lemma max0_nonneg (x : Q) : 0 <= max0 x.
Proof.
  unfold max0. case_Qltb 0 x; lra.
Qed.

Lemma fdiv_nonzero (a b : Q) : ~ b == 0 -> fdiv a b = Some (a / b).
Proof.
  intros Hb. unfold fdiv. destruct (Qeq_bool b 0) eqn:E; [|reflexivity].
  apply Qeq_bool_iff in E. contradiction.
Qed.

(** With a period of at least 1 and at least period + 1 prices no
    division of the scraper's momentum score fails: the two sums are not
    negative, so neither the period nor [1 + rs] is zero. *)
Lemma scraper_rsi_value (prices : list Q) (period : nat) :
  (1 <= period)%nat -> (period + 1 <= length prices)%nat ->
  exists rsi, _calculate_rsi prices period = Some rsi.
Proof.
  intros Hp Hlen. unfold _calculate_rsi.
  rewrite (proj2 (Nat.ltb_ge _ _)) by exact Hlen.
  set (gains := max0 <$> changes_of prices).
  set (losses := (fun change => max0 (- change)) <$> changes_of prices).
  assert (0 <= py_sum (take period gains)) as Hg.
  { apply py_sum_nonneg, Forall_take, Forall_fmap, Forall_forall.
    intros c _. apply max0_nonneg. }
  assert (0 <= py_sum (take period losses)) as Hl.
  { apply py_sum_nonneg, Forall_take, Forall_fmap, Forall_forall.
    intros c _. apply max0_nonneg. }
  assert (1 <= inject_Z (Z.of_nat period)) as HP
    by (change 1 with (inject_Z 1); rewrite <- Zle_Qle; lia).
  rewrite !fdiv_nonzero by lra. cbn [bind].
  set (avg_gain := py_sum (take period gains) / inject_Z (Z.of_nat period)).
  set (avg_loss := py_sum (take period losses) / inject_Z (Z.of_nat period)).
  assert (0 <= avg_gain) as Hag by (apply Qdiv_nonneg; lra).
  assert (0 <= avg_loss) as Hal by (apply Qdiv_nonneg; lra).
  destruct (Qeq_bool avg_loss 0) eqn:Hz.
  - exists 100. reflexivity.
  - apply Qeq_bool_neq in Hz.
    assert (0 < avg_loss) as Hpos.
    { apply Qle_lteq in Hal as [Hlt | Heq]; [exact Hlt|].
      exfalso. apply Hz. symmetry. exact Heq. }
    assert (0 <= avg_gain / avg_loss) by (apply Qdiv_nonneg; lra).
    rewrite (fdiv_nonzero avg_gain avg_loss) by exact Hz. cbn [bind].
    rewrite fdiv_nonzero by lra. cbn [bind].
    eexists. reflexivity.
Qed.

(** The scraper's momentum score is unknown exactly when there are fewer
    than period + 1 prices or the period is 0 (a division by zero that is
    caught): no other step of the computation fails. *)
Theorem scraper_rsi_is_none_iff (prices : list Q) (period : nat) :
  _calculate_rsi prices period = None <->
  (length prices < period + 1 \/ period = 0)%nat.
Proof.
  destruct (Nat.le_gt_cases (period + 1) (length prices)) as [Hlen | Hlen].
  - destruct period as [|period].
    + assert (_calculate_rsi prices 0 = None) as Hnone.
      { unfold _calculate_rsi.
        rewrite (proj2 (Nat.ltb_ge _ _)) by exact Hlen. reflexivity. }
      rewrite Hnone.
      split; [intros _; right; reflexivity | reflexivity].
    + destruct (scraper_rsi_value prices (S period)) as (r & Hr);
        [lia | exact Hlen |].
      rewrite Hr. split; [discriminate | intros [H | H]; lia].
  - assert (_calculate_rsi prices period = None) as Hnone.
    { unfold _calculate_rsi.
      rewrite (proj2 (Nat.ltb_lt _ _)) by exact Hlen. reflexivity. }
    rewrite Hnone.
    split; [intros _; left; exact Hlen | reflexivity].
Qed.

End ScraperMomentum.

(** ** The volatility classes without the division *)

Section Volatility.

Local Open Scope Q_scope.

Lemma spread_above (high low t c : Q) :
  c == 1 + t * (1 # 100) ->
  0 < low ->
  (t < (high - low) / low * 100 <-> c * low < high).
Proof.
  intros Hc Hlow.
  assert ((high - low) / low * 100 == (high / low - 1) * 100) as ->
    by (field; lra).
  assert (c * low < high <-> c < high / low) as ->.
  { split; intros H.
    - apply Qlt_shift_div_l; [exact Hlow | exact H].
    - assert (high == high / low * low) as -> by (field; lra).
      apply Qmult_lt_compat_r; assumption. }
  generalize (high / low). intros r.
  split; intros H; lra.
Qed.

Lemma spread_negative (high low : Q) :
  low < 0 -> low < high -> (high - low) / low * 100 < 0.
Proof.
  intros Hlow Hgt.
  assert ((high - low) / low * 100 == - ((high - low) / (- low) * 100)) as ->
    by (field; lra).
  assert (0 < (high - low) / (- low))
    by (apply Qlt_shift_div_l; lra).
  lra.
Qed.

(** For numeric 52-week bounds the volatility class needs no division:
    it is high when the low is positive and the high exceeds 1.5 times
    the low, medium when it exceeds 1.25 times the low, and low
    otherwise, in particular for a zero or negative low and for a high
    that does not exceed the low. *)
Theorem volatility_thresholds (data : dict) (high low : Q) :
  get data "52w_high" (VNum 0) = VNum high ->
  get data "52w_low" (VNum 0) = VNum low ->
  _calculate_volatility data
  = Some (if Qltb 0 low && Qltb (1.5 * low) high then "high"
          else if Qltb 0 low && Qltb (1.25 * low) high then "medium"
          else "low").
Proof.
  intros Hh Hl. unfold _calculate_volatility. rewrite Hh, Hl.
  cbn [truthy].
  destruct (Qeq_bool high 0) eqn:Hh0; cbn [negb bind].
  { apply Qeq_bool_iff in Hh0.
    case_Qltb 0 low; cbn [andb]; [|reflexivity].
    rewrite (Qltb_ge (1.5 * low) high), (Qltb_ge (1.25 * low) high) by lra.
    reflexivity. }
  destruct (Qeq_bool low 0) eqn:Hl0; cbn [negb bind].
  { apply Qeq_bool_iff in Hl0. rewrite (Qltb_ge 0 low) by lra. reflexivity. }
  pose proof Hl0 as Hl0b. apply Qeq_bool_neq in Hl0.
  unfold gt at 1. cbn [lt bind].
  case_Qltb low high; cbn [bind].
  2:{ case_Qltb 0 low; cbn [andb]; [|reflexivity].
      rewrite (Qltb_ge (1.5 * low) high), (Qltb_ge (1.25 * low) high) by lra.
      reflexivity. }
  cbn [sub div bind]. rewrite Hl0b.
  cbn [bind mul_lit gt lt].
  case_Qltb 0 low; cbn [andb].
  - pose proof (spread_above high low 50 1.5 ltac:(reflexivity) E0) as H50.
    pose proof (spread_above high low 25 1.25 ltac:(reflexivity) E0) as H25.
    case_Qltb 50 ((high - low) / low * 100).
    + rewrite (Qltb_lt (1.5 * low) high) by (apply H50; exact E1).
      reflexivity.
    + assert (high <= 1.5 * low) as Hle.
      { apply Qnot_lt_le. intros Hc. apply H50 in Hc. lra. }
      rewrite (Qltb_ge (1.5 * low) high) by exact Hle.
      case_Qltb 25 ((high - low) / low * 100).
      * rewrite (Qltb_lt (1.25 * low) high) by (apply H25; exact E2).
        reflexivity.
      * assert (high <= 1.25 * low) as Hle'.
        { apply Qnot_lt_le. intros Hc. apply H25 in Hc. lra. }
        rewrite (Qltb_ge (1.25 * low) high) by exact Hle'. reflexivity.
  - assert (low < 0) as Hneg.
    { apply Qle_lteq in E0 as [Hlt | Heq]; [exact Hlt|].
      exfalso. apply Hl0. exact Heq. }
    pose proof (spread_negative high low Hneg E) as Hs.
    rewrite (Qltb_ge 50 _), (Qltb_ge 25 _) by lra. reflexivity.
Qed.

(** The bounds 130 and 100: thirty percent above the low. *)
Lemma volatility_thresholds_witness :
  _calculate_volatility {[ "52w_high" := VNum 130; "52w_low" := VNum 100 ]}
  = Some "medium".
Proof.
  rewrite (volatility_thresholds _ 130 100).
  - reflexivity.
  - reflexivity.
  - reflexivity.
Defined.

End Volatility.

(** ** Volume signals and the price trend *)

Section VolumeConfirmation.

Import VolumeAnalyzer.

Variable np_std : list Q -> Q.
Variable np_corrcoef : list Q -> list Q -> option Q.
Variable np_polyfit_slope : list Q -> list Q -> Q.

(** A strong volume signal confirms an uptrend and no other trend; a weak
    volume signal confirms a downtrend and no other trend. *)
Theorem volume_signal_confirms_trend (prices volumes : arg)
    (price_trend : string) :
  let r := analyze_volume np_std np_corrcoef np_polyfit_slope
             prices volumes in
  (volume_signal r = "strong_volume" ->
   is_volume_confirming_trend price_trend r
   = String.eqb price_trend "uptrend") /\
  (volume_signal r = "weak_volume" ->
   is_volume_confirming_trend price_trend r
   = String.eqb price_trend "downtrend").
Proof.
  intros r.
  pose proof (analyze_volume_cases np_std np_corrcoef np_polyfit_slope
                prices volumes) as Hcases.
  cbn zeta in Hcases. fold r in Hcases.
  unfold is_volume_confirming_trend.
  destruct Hcases as [[Hs Ht] | [[Hs Ht] | [[Hs _] | [Hs _]]]];
    rewrite Hs; split; intros Hsig; try discriminate Hsig; rewrite Ht.
  - destruct (String.eqb price_trend "uptrend") eqn:Hup; [reflexivity|].
    cbn. rewrite andb_false_r. reflexivity.
  - destruct (String.eqb price_trend "uptrend") eqn:Hup; cbn.
    + apply String.eqb_eq in Hup. subst price_trend. reflexivity.
    + rewrite andb_true_r.
      destruct (String.eqb price_trend "downtrend"); reflexivity.
Qed.

End VolumeConfirmation.

(** Ten rising volumes with a positive fitted slope: the average over 20
    samples is still 0, so the last volume is more than twice the
    average and the signal is strong. *)
Lemma volume_signal_confirms_trend_witness :
  let r := VolumeAnalyzer.analyze_volume
             (fun _ => 1%Q) (fun _ _ => Some 1%Q) (fun _ _ => 1%Q)
             (FloatList [10; 11; 12; 13; 14; 15; 16; 17; 18; 19]%Q)
             (FloatList [100; 200; 300; 400; 500; 600; 700; 800; 900;
                         1000]%Q) in
  VolumeAnalyzer.volume_signal r = "strong_volume" /\
  VolumeAnalyzer.is_volume_confirming_trend "uptrend" r = true /\
  VolumeAnalyzer.is_volume_confirming_trend "downtrend" r = false.
Proof.
  intros r.
  assert (VolumeAnalyzer.volume_signal r = "strong_volume") as Hs
    by (vm_compute; reflexivity).
  split; [exact Hs|]. split.
  - unfold r in *.
    rewrite (proj1 (volume_signal_confirms_trend _ _ _ _ _ "uptrend") Hs).
    reflexivity.
  - unfold r in *.
    rewrite (proj1 (volume_signal_confirms_trend _ _ _ _ _ "downtrend") Hs).
    reflexivity.
Defined.
